(** * Uparjan full-stack: the FastAPI backend, embedded and verified

    A shallow embedding of [backend/models.py], [backend/schemas.py],
    [backend/auth.py], [backend/database.py] and [backend/main.py].

    The request handlers are written in a small state-and-exception monad
    over the ORM session they receive from [get_db]; the relational store
    is a pair of tables kept as lists of rows in storage order.  What the
    handlers call in third-party packages (the PBKDF2 and HMAC digests,
    the market-data provider, the validator of an email address) is taken
    abstractly in a section; the packages' visible behaviour is written
    out: passlib's handler of pbkdf2_sha256 hashes (the bound on the size
    of a secret, the text of a hash and how it is read, adapted base64),
    the range of a [datetime] and the conversion of the [exp] claim, the
    ordering of a query, and the values SQLite stores (no NaN, no
    negative zero, integers of 64 bits).

    Text is ASCII text, a [string] of one-byte characters; bytes are kept
    the same way, one character per byte.  The fields of the models and
    schemas carry the name of their class as a prefix, since several
    classes have a field [id], [email] or [date]. *)

From Stdlib Require Import ZArith List Sorted Permutation Lia Ascii String.
From Stdlib Require Import PrimFloat.
From stdpp Require Import base option list strings gmap.

Local Open Scope string_scope.
Local Open Scope Z_scope.

(** ** Python values used by the backend *)

(** [datetime.date]: compared field by field, year first. *)
Record date := mk_date { year : Z; month : Z; day : Z }.

(** [datetime.datetime], a subclass of [date] in Python: the calendar
    fields followed by the time of day. *)
Record datetime := mk_datetime {
  dt_date : date;
  hour : Z;
  minute : Z;
  second : Z;
  microsecond : Z
}.

(** Comparison of dates, as of the tuples (year, month, day). *)
Definition date_compare (a b : date) : comparison :=
  match year a ?= year b with
  | Eq => match month a ?= month b with
          | Eq => day a ?= day b
          | c => c
          end
  | c => c
  end.

(** [a <= b] on dates. *)
Definition date_leb (a b : date) : bool :=
  match date_compare a b with
  | Gt => false
  | _ => true
  end.

(** [datetime(d.year, d.month, d.day)]: the instant at midnight. *)
Definition datetime_of_date (d : date) : datetime :=
  {| dt_date := d; hour := 0; minute := 0; second := 0; microsecond := 0 |}.

(** Exceptions that cross a handler's boundary. *)
Inductive exn :=
  | HTTPException (status_code : Z) (detail : string)
  | PyException (class_name : string) (message : string).

(** The result of a call that may raise. *)
Inductive Outcome (A : Type) :=
  | Returned (a : A)
  | Raised (e : exn).
Arguments Returned {A} a.
Arguments Raised {A} e.

Definition HTTP_400_BAD_REQUEST : Z := 400.

(** ** backend/models.py *)

(** One row of table [transactions]. *)
Record Transaction := mk_Transaction {
  tx_id : Z;
  tx_type : string;
  tx_category : string;
  tx_amount : float;
  tx_date : date
}.

(** One row of table [users]; [created_at] is set by the store. *)
Record User := mk_User {
  user_id : Z;
  user_email : string;
  user_hashed_password : string;
  user_created_at : Z
}.

(** The store file: both tables, rows in storage (rowid) order. *)
Record Database := mk_Database {
  users : list User;
  transactions : list Transaction
}.

Definition empty_database : Database :=
  {| users := []; transactions := [] |}.

(** ** backend/schemas.py *)

(** [TransactionCreate(TransactionBase)] *)
Record TransactionCreate := mk_TransactionCreate {
  tc_type : string;
  tc_category : string;
  tc_amount : float;
  tc_date : datetime
}.

(** [TransactionOut(TransactionBase)] *)
Record TransactionOut := mk_TransactionOut {
  to_id : Z;
  to_type : string;
  to_category : string;
  to_amount : float;
  to_date : datetime
}.

(** [UserCreate(UserBase)] *)
Record UserCreate := mk_UserCreate {
  uc_email : string;
  uc_password : string
}.

(** [User(UserBase)], the response schema. *)
Record UserOut := mk_UserOut {
  uo_id : Z;
  uo_email : string
}.

(** [LoginRequest], declared in [backend/main.py]: a body that has
    passed validation, its [email] an [EmailStr]. *)
Record LoginRequest := mk_LoginRequest {
  lr_email : string;
  lr_password : string
}.

(** [response_model=schemas.User]: the fields read off the ORM row. *)
Definition UserOut_from_orm (u : User) : UserOut :=
  {| uo_id := user_id u; uo_email := user_email u |}.

(** [response_model=schemas.TransactionOut]: the row's [date] is read
    into the schema's [datetime] field, which places it at midnight. *)
Definition TransactionOut_from_orm (t : Transaction) : TransactionOut :=
  {| to_id := tx_id t;
     to_type := tx_type t;
     to_category := tx_category t;
     to_amount := tx_amount t;
     to_date := datetime_of_date (tx_date t) |}.

(** ** backend/database.py: the ORM session *)

(** What a session holds between [db.add] / [db.delete] and [db.commit].
    A new transaction object carries the [datetime] it was built with. *)
Inductive pending :=
  | AddUser (email hashed_password : string)
  | AddTransaction (type category : string) (amount : float) (value : datetime)
  | DeleteTransaction (id : Z).

(** A session made by [SessionLocal()] ([autocommit=False],
    [autoflush=False]): the rows it reads and its unit of work. *)
Record Session := mk_Session {
  rows : Database;
  unit_of_work : list pending
}.

(** What a request reads from outside the program: the salt drawn for a
    password hash (passlib draws 16 random bytes) and the clock, in
    microseconds of UTC since the epoch. *)
Record Env := mk_Env {
  env_salt : string;
  env_now : Z
}.

(** Handlers run against the session injected by [Depends(get_db)]:
    they read the environment, update the session and return or raise. *)
Definition M (A : Type) : Type := Env -> Session -> Outcome A * Session.

Definition ret {A} (a : A) : M A := fun _ s => (Returned a, s).

Definition bind {A B} (m : M A) (k : A -> M B) : M B :=
  fun env s =>
    match m env s with
    | (Returned a, s') => k a env s'
    | (Raised e, s') => (Raised e, s')
    end.

Definition raise {A} (e : exn) : M A := fun _ s => (Raised e, s).

Definition ask : M Env := fun env s => (Returned env, s).

Definition lift {A} (o : Outcome A) : M A := fun _ s => (o, s).

Declare Scope handler_scope.
Delimit Scope handler_scope with handler.
Notation "x <- m ;; k" := (bind m (fun x => k))
  (at level 100, m at next level, right associativity) : handler_scope.
Notation "m ;;; k" := (bind m (fun _ => k))
  (at level 100, right associativity) : handler_scope.
Local Open Scope handler_scope.

(** The rowid SQLite gives a new row of an [INTEGER PRIMARY KEY] table:
    one more than the largest in use, 1 in an empty table.  (Once the
    largest key is 2^63 - 1 SQLite searches a free key at random; tables
    are taken below that where the new key is used as an identifier.) *)
Definition next_rowid (ids : list Z) : Z := 1 + foldr Z.max 0 ids.

(** The [Date] column keeps the year, month and day of the value bound
    to it; a [datetime] is a [date] and is stored by those fields. *)
Definition Date_bind (value : datetime) : date := dt_date value.

(** Seconds of the store's [CURRENT_TIMESTAMP] at a clock reading. *)
Definition current_timestamp (now : Z) : Z := now / 1000000.

(** SQLite's INTEGER is a signed 64-bit integer; binding a Python [int]
    outside it raises [OverflowError]. *)
Definition sqlite_int (n : Z) : bool :=
  (- 2 ^ 63 <=? n) && (n <? 2 ^ 63).

Definition OverflowError : exn :=
  PyException "OverflowError"
    "Python int too large to convert to SQLite INTEGER".

(** The value a REAL column gives back for a float bound to it: SQLite
    keeps no sign on zero, so [-0.0] comes back as [0.0]; every other
    number (the infinities included) comes back as it was bound. *)
Definition sqlite_real (x : float) : float :=
  if PrimFloat.eqb x 0 then 0%float else x.

(** One statement of a flush.  An insert answers with the new primary
    key; [users.email] is [unique]; SQLite has no NaN and takes one for
    NULL, which [amount], declared [nullable=False], refuses. *)
Definition flush_one (now : Z) (op : pending) (d : Database)
  : Outcome (option Z * Database) :=
  match op with
  | AddUser email hashed_password =>
      if existsb (String.eqb email) (map user_email (users d))
      then Raised (PyException "IntegrityError"
                     "UNIQUE constraint failed: users.email")
      else
        let k := next_rowid (map user_id (users d)) in
        Returned (Some k,
          {| users := users d ++
               [mk_User k email hashed_password (current_timestamp now)];
             transactions := transactions d |})
  | AddTransaction type category amount value =>
      if is_nan amount
      then Raised (PyException "IntegrityError"
                     "NOT NULL constraint failed: transactions.amount")
      else
        let k := next_rowid (map tx_id (transactions d)) in
        Returned (Some k,
          {| users := users d;
             transactions := transactions d ++
               [mk_Transaction k type category (sqlite_real amount)
                  (Date_bind value)] |})
  | DeleteTransaction id =>
      Returned (None,
        {| users := users d;
           transactions :=
             List.filter (fun t => negb (tx_id t =? id)) (transactions d) |})
  end.

(** The statements of a unit of work in order; the keys of the inserted
    rows are collected.  (Every endpoint commits a unit of one
    statement.) *)
Fixpoint flush (now : Z) (ops : list pending) (d : Database)
  : Outcome (list Z * Database) :=
  match ops with
  | [] => Returned ([], d)
  | op :: ops' =>
      match flush_one now op d with
      | Raised e => Raised e
      | Returned (k, d') =>
          match flush now ops' d' with
          | Raised e => Raised e
          | Returned (ks, d'') =>
              Returned (match k with Some i => i :: ks | None => ks end, d'')
          end
      end
  end.

(** [db.query(models.User)] and [db.query(models.Transaction)]: the rows
    of the table, in storage order. *)
Definition query_User : M (list User) :=
  fun _ s => (Returned (users (rows s)), s).

Definition query_Transaction : M (list Transaction) :=
  fun _ s => (Returned (transactions (rows s)), s).

(** [.filter(models.Transaction.id == id)]: the rows of that key; the
    key is bound as a parameter of the statement. *)
Definition filter_id (id : Z) (q : M (list Transaction))
  : M (list Transaction) :=
  fun env s =>
    match q env s with
    | (Returned ts, s') =>
        if sqlite_int id
        then (Returned (List.filter (fun t => tx_id t =? id) ts), s')
        else (Raised OverflowError, s')
    | (Raised e, s') => (Raised e, s')
    end.

(** [.filter(models.User.email == email)] *)
Definition filter_email (email : string) (q : M (list User))
  : M (list User) :=
  fun env s =>
    match q env s with
    | (Returned us, s') =>
        (Returned (List.filter (fun u => String.eqb (user_email u) email) us),
         s')
    | (Raised e, s') => (Raised e, s')
    end.

(** [.first()] *)
Definition first {A} (l : list A) : option A := head l.

(** [db.add(obj)] *)
Definition db_add (op : pending) : M unit :=
  fun _ s =>
    (Returned tt,
     {| rows := rows s; unit_of_work := unit_of_work s ++ [op] |}).

(** [db.delete(tx)] *)
Definition db_delete (t : Transaction) : M unit :=
  db_add (DeleteTransaction (tx_id t)).

(** [db.commit()]: flushes the unit of work and makes it durable; the
    objects added receive their primary keys.  A failing statement rolls
    the whole unit back. *)
Definition db_commit : M (list Z) :=
  fun env s =>
    match flush (env_now env) (unit_of_work s) (rows s) with
    | Returned (ks, d) => (Returned ks, {| rows := d; unit_of_work := [] |})
    | Raised e => (Raised e, {| rows := rows s; unit_of_work := [] |})
    end.

Definition InvalidRequestError : exn :=
  PyException "InvalidRequestError" "Could not refresh instance".

(** [db.refresh(obj)]: the row is read again by the key the flush gave
    the object. *)
Definition db_refresh_User (keys : list Z) : M User :=
  fun _ s =>
    match keys with
    | [k] =>
        match find (fun u => user_id u =? k) (users (rows s)) with
        | Some u => (Returned u, s)
        | None => (Raised InvalidRequestError, s)
        end
    | _ => (Raised InvalidRequestError, s)
    end.

Definition db_refresh_Transaction (keys : list Z) : M Transaction :=
  fun _ s =>
    match keys with
    | [k] =>
        match find (fun t => tx_id t =? k) (transactions (rows s)) with
        | Some t => (Returned t, s)
        | None => (Raised InvalidRequestError, s)
        end
    | _ => (Raised InvalidRequestError, s)
    end.

(** [.order_by(models.Transaction.date.desc())]: rows by falling date.
    Each row is placed after the rows already placed whose date is not
    earlier, so rows of one date stay in storage order. *)
Fixpoint insert_desc (t : Transaction) (l : list Transaction)
  : list Transaction :=
  match l with
  | [] => [t]
  | u :: l' =>
      if date_leb (tx_date t) (tx_date u) then u :: insert_desc t l'
      else t :: u :: l'
  end.

Definition order_by_date_desc (l : list Transaction) : list Transaction :=
  foldr insert_desc [] (rev l).

(** ** backend/main.py: [get_db] and the request scope *)

(** Calls of [SessionLocal()] and [db.close()], by session. *)
Inductive session_event :=
  | SessionOpened (sid : nat)
  | SessionClosed (sid : nat).

(** The process between requests: the store file, the sessions that are
    open (by reference), how many were ever made, and every call of
    [SessionLocal()] and [db.close()] so far. *)
Record World := mk_World {
  database : Database;
  live_sessions : gmap nat Session;
  sessions_made : nat;
  session_log : list session_event
}.

(** [SessionLocal()] *)
Definition SessionLocal (w : World) : nat * World :=
  let sid := sessions_made w in
  (sid,
   {| database := database w;
      live_sessions :=
        <[sid := {| rows := database w; unit_of_work := [] |}]>
          (live_sessions w);
      sessions_made := S sid;
      session_log := session_log w ++ [SessionOpened sid] |}).

(** [db.close()]: the unit of work not committed is dropped and the
    connection released; the store keeps what the session committed. *)
Definition close (sid : nat) (w : World) : World :=
  {| database :=
       match live_sessions w !! sid with
       | Some s => rows s
       | None => database w
       end;
     live_sessions := delete sid (live_sessions w);
     sessions_made := sessions_made w;
     session_log := session_log w ++ [SessionClosed sid] |}.

(** The generator [get_db]: created, suspended at its [yield db] inside
    the [try], or finished. *)
Inductive get_db_frame :=
  | GenCreated
  | GenSuspended (db : nat)
  | GenFinished.

(** What resuming a generator gives its caller. *)
Inductive gen_result :=
  | Yield (db : nat)
  | StopIteration
  | GenRaised (e : exn).

(** Resuming the generator normally. *)
Definition get_db_next (g : get_db_frame) (w : World)
  : gen_result * get_db_frame * World :=
  match g with
  | GenCreated =>
      let '(db, w') := SessionLocal w in
      (Yield db, GenSuspended db, w')
  | GenSuspended db => (StopIteration, GenFinished, close db w)
  | GenFinished => (StopIteration, GenFinished, w)
  end.

(** Resuming the generator with an exception thrown in at the [yield]:
    the [finally] block runs and the exception goes on. *)
Definition get_db_throw (g : get_db_frame) (e : exn) (w : World)
  : gen_result * get_db_frame * World :=
  match g with
  | GenCreated => (GenRaised e, GenFinished, w)
  | GenSuspended db => (GenRaised e, GenFinished, close db w)
  | GenFinished => (GenRaised e, GenFinished, w)
  end.

(** The endpoint's work on the session it was handed. *)
Definition on_session {A} (db : nat) (h : M A) (env : Env) (w : World)
  : Outcome A * World :=
  match live_sessions w !! db with
  | Some s =>
      let '(r, s') := h env s in
      (r,
       {| database := database w;
          live_sessions := <[db := s']> (live_sessions w);
          sessions_made := sessions_made w;
          session_log := session_log w |})
  | None =>
      (Raised (PyException "InvalidRequestError" "This session is closed"), w)
  end.

(** [db: Session = Depends(get_db)]: the framework advances the generator
    to its [yield], runs the endpoint (validation of the request included)
    with the session, then resumes the generator, throwing the endpoint's
    exception in when there is one. *)
Definition Depends_get_db {A} (endpoint : M A) (env : Env) (w : World)
  : Outcome A * World :=
  match get_db_next GenCreated w with
  | (Yield db, g, w1) =>
      match on_session db endpoint env w1 with
      | (Returned a, w2) =>
          let '(_, _, w3) := get_db_next g w2 in (Returned a, w3)
      | (Raised e, w2) =>
          let '(_, _, w3) := get_db_throw g e w2 in (Raised e, w3)
      end
  | (_, _, w1) =>
      (Raised (PyException "RuntimeError" "generator didn't yield"), w1)
  end.

(** ** backend/auth.py *)

(** JSON values carried as token claims. *)
#[warnings="-register-all"]
Inductive json :=
  | JNull
  | JBool (b : bool)
  | JInt (n : Z)
  | JFloat (x : float)
  | JStr (s : string)
  | JArray (items : list json)
  | JObject (members : list (string * json)).

(** Values of the dictionary handed to [jwt.encode]: JSON, or a
    [datetime] (microseconds of UTC since the epoch). *)
Inductive pyval :=
  | PyJson (j : json)
  | PyDatetime (t : Z).

(** The header segment of a token. *)
Record jws_header := mk_jws_header { alg : string; typ : string }.

(** A compact token, its three segments kept decoded. *)
Record jwt_token := mk_jwt_token {
  jwt_header : jws_header;
  jwt_claims : gmap string json;
  jwt_signature : string
}.

Definition SECRET_KEY : string := "super-secret-key-change-me".
Definition ALGORITHM : string := "HS256".
Definition ACCESS_TOKEN_EXPIRE_MINUTES : Z := 30.

(** [timedelta(minutes=m)], in microseconds. *)
Definition timedelta_minutes (m : Z) : Z := m * 60 * 1000000.

(** [timegm(t.utctimetuple())]: whole seconds since the epoch. *)
Definition timegm (t : Z) : Z := t / 1000000.

(** The JSON value of a dictionary value, when it is one. *)
Definition as_json (v : pyval) : option json :=
  match v with
  | PyJson j => Some j
  | PyDatetime _ => None
  end.

(** The loop of [jwt.encode] over the time claims: a [datetime] under
    one of them becomes its integer timestamp. *)
Definition convert_time_claims (claims : gmap string pyval)
  : gmap string pyval :=
  fold_left
    (fun m time_claim =>
       match m !! time_claim with
       | Some (PyDatetime t) => <[time_claim := PyJson (JInt (timegm t))]> m
       | _ => m
       end)
    ["exp"; "iat"; "nbf"] claims.

(** [json.dumps] of the claims: defined when every value is JSON. *)
Definition json_payload (claims : gmap string pyval)
  : option (gmap string json) :=
  if bool_decide (map_Forall (fun _ v => is_Some (as_json v)) claims)
  then Some (omap as_json claims)
  else None.

(** *** The password context: passlib's pbkdf2_sha256

    A hash is the text [$pbkdf2-sha256$rounds$salt$checksum]; salt and
    checksum are bytes, written in passlib's adapted base64 (base64
    without padding, with [.] for [+]).  Bytes are kept as a [string],
    one character per byte. *)

(** [s.split(sep)] for a one-character separator. *)
Fixpoint split (sep : ascii) (s : string) : list string :=
  match s with
  | EmptyString => [EmptyString]
  | String c s' =>
      if Ascii.eqb c sep then EmptyString :: split sep s'
      else
        match split sep s' with
        | [] => [String c EmptyString]
        | h :: t => String c h :: t
        end
  end.

(** [s[len(p):]] when [s.startswith(p)]. *)
Fixpoint strip_prefix (p s : string) : option string :=
  match p, s with
  | EmptyString, _ => Some s
  | String a p', String b s' =>
      if Ascii.eqb a b then strip_prefix p' s' else None
  | String _ _, EmptyString => None
  end.

(** [s.replace(old, new)] for one-character [old] and [new]. *)
Fixpoint replace (old new : ascii) (s : string) : string :=
  match s with
  | EmptyString => EmptyString
  | String c s' =>
      String (if Ascii.eqb c old then new else c) (replace old new s')
  end.

(** The value of a decimal digit. *)
Definition digit_value (c : ascii) : option Z :=
  let n := N_of_ascii c in
  if ((48 <=? n) && (n <=? 57))%N then Some (Z.of_N n - 48) else None.

(** What [int] makes of a text: a value, a refusal of the literal, or a
    refusal of its count of digits. *)
Inductive int_result :=
  | IntValue (n : Z)
  | IntInvalid
  | IntTooLong (digits : nat).

(** The scan of a numeral from its first digit: decimal digits, single
    underscores allowed between them.  It stops at the first other
    character and gives the value, the count of digits and the text
    left; an underscore that follows an underscore or ends the numeral
    fails the scan. *)
Fixpoint scan_digits (acc : Z) (count : nat) (after_underscore : bool)
  (s : string) : option (Z * nat * string) :=
  match s with
  | EmptyString => if after_underscore then None else Some (acc, count, s)
  | String c s' =>
      match digit_value c with
      | Some v => scan_digits (10 * acc + v) (S count) false s'
      | None =>
          if Ascii.eqb c "_" then
            if after_underscore then None else scan_digits acc count true s'
          else if after_underscore then None else Some (acc, count, s)
      end
  end.

(** The characters [int] strips as blanks: tab, line feed, vertical tab,
    form feed, carriage return and space. *)
Definition is_blank (c : ascii) : bool :=
  let n := N_of_ascii c in (((9 <=? n) && (n <=? 13)) || (n =? 32))%N.

Fixpoint lstrip (s : string) : string :=
  match s with
  | EmptyString => EmptyString
  | String c s' => if is_blank c then lstrip s' else s
  end.

Fixpoint rstrip (s : string) : string :=
  match s with
  | EmptyString => EmptyString
  | String c s' =>
      match rstrip s' with
      | EmptyString => if is_blank c then EmptyString else String c EmptyString
      | t => String c t
      end
  end.

(** The most digits [int] converts, the default of
    [sys.get_int_max_str_digits()] (Python 3.11, and the later releases
    of 3.7 to 3.10; before them there is no bound). *)
Definition int_max_str_digits : nat := 4300.

(** The numeral after the sign: it does not start with an underscore;
    the count of digits is checked before the text left over is. *)
Definition parse_unsigned (s : string) : int_result :=
  match s with
  | String "_" _ => IntInvalid
  | _ =>
      match scan_digits 0 0 false s with
      | None => IntInvalid
      | Some (v, count, rest) =>
          if (int_max_str_digits <? count)%nat then IntTooLong count
          else
            match count, rest with
            | S _, EmptyString => IntValue v
            | _, _ => IntInvalid
            end
      end
  end.

(** [int(s, 10)] on ASCII text: blanks around, a sign, the numeral. *)
Definition parse_int (s : string) : int_result :=
  match rstrip (lstrip s) with
  | String "+" t => parse_unsigned t
  | String "-" t =>
      match parse_unsigned t with
      | IntValue v => IntValue (- v)
      | r => r
      end
  | t => parse_unsigned t
  end.

(** A decimal digit. *)
Definition digit_char (d : Z) : ascii := ascii_of_nat (48 + Z.to_nat d).

(** The decimal numeral of a natural number, by its digits from the
    last; [fuel] bounds their count. *)
Fixpoint decimal_digits (fuel : nat) (n : Z) (tail : string) : string :=
  match fuel with
  | O => tail
  | S fuel' =>
      let tail' := String (digit_char (n mod 10)) tail in
      if n <? 10 then tail' else decimal_digits fuel' (n / 10) tail'
  end.

(** [str(n)] of an integer. *)
Definition decimal (n : Z) : string :=
  if n <? 0
  then String "-" (decimal_digits (S (Z.to_nat (Z.log2 (- n)))) (- n) "")
  else decimal_digits (S (Z.to_nat (Z.log2 n))) n "".

(** A hexadecimal digit, in lower case. *)
Definition hex_char (d : N) : ascii :=
  if (d <? 10)%N then ascii_of_N (48 + d) else ascii_of_N (87 + d).

(** One character inside [repr] of a text quoted by [quote]. *)
Definition repr_char (quote c : ascii) : string :=
  let n := N_of_ascii c in
  if Ascii.eqb c quote || Ascii.eqb c "\" then String "\" (String c "")
  else if (n =? 9)%N then "\t"
  else if (n =? 10)%N then "\n"
  else if (n =? 13)%N then "\r"
  else if ((n <? 32) || (n =? 127))%N
  then String "\" (String "x" (String (hex_char (n / 16)) (String (hex_char (n mod 16)) "")))
  else String c "".

Fixpoint repr_body (quote : ascii) (s : string) : string :=
  match s with
  | EmptyString => EmptyString
  | String c s' => repr_char quote c ++ repr_body quote s'
  end.

Fixpoint has_char (c : ascii) (s : string) : bool :=
  match s with
  | EmptyString => false
  | String d s' => Ascii.eqb c d || has_char c s'
  end.

(** [repr(s)] of ASCII text: in single quotes, unless the text has a
    single quote and no double quote. *)
Definition repr (s : string) : string :=
  let quote :=
    if has_char "'" s && negb (has_char (ascii_of_nat 34) s)
    then ascii_of_nat 34 else "'"%char in
  String quote (repr_body quote s ++ String quote "").

Definition pbkdf2_sha256_ident : string := "$pbkdf2-sha256$".
Definition pbkdf2_sha256_default_rounds : Z := 29000.
Definition pbkdf2_sha256_checksum_size : nat := 32.
Definition pbkdf2_sha256_default_salt_size : nat := 16.
Definition pbkdf2_sha256_max_salt_size : nat := 1024.
Definition pbkdf2_sha256_min_rounds : Z := 1.
Definition pbkdf2_sha256_max_rounds : Z := 4294967295.

(** passlib refuses a secret longer than this many characters (unless
    the environment variable [PASSLIB_MAX_PASSWORD] sets another
    bound). *)
Definition MAX_PASSWORD_SIZE : nat := 4096.

Definition UnknownHashError : exn :=
  PyException "UnknownHashError" "hash could not be identified".
Definition PasswordSizeError : exn :=
  PyException "PasswordSizeError" "password exceeds maximum allowed size".

(** passlib's [MalformedHashError] and the classes derived from it: the
    message names the handler and, in brackets, the reason. *)
Definition malformed_hash (class_name reason : string) : exn :=
  PyException class_name
    (match reason with
     | EmptyString => "malformed pbkdf2_sha256 hash"
     | _ => "malformed pbkdf2_sha256 hash (" ++ reason ++ ")"
     end).
Definition MalformedHashError (reason : string) : exn :=
  malformed_hash "MalformedHashError" reason.
Definition ZeroPaddedRoundsError : exn :=
  malformed_hash "ZeroPaddedRoundsError" "zero-padded rounds".
Definition ChecksumSizeError : exn :=
  malformed_hash "ChecksumSizeError" "checksum must be exactly 32 bytes".
Definition MissingDigestError : exn :=
  PyException "MissingDigestError"
    "expected pbkdf2_sha256 hash, got pbkdf2_sha256 config string instead".

(** [validate_secret], the check both [hash] and [verify] make first. *)
Definition validate_secret (secret : string) : Outcome unit :=
  if (String.length secret <=? MAX_PASSWORD_SIZE)%nat then Returned tt
  else Raised PasswordSizeError.

(** The characters of base64, by value. *)
Definition b64_char (v : N) : ascii :=
  if (v <? 26)%N then ascii_of_N (65 + v)
  else if (v <? 52)%N then ascii_of_N (71 + v)
  else if (v <? 62)%N then ascii_of_N (v - 4)
  else if (v =? 62)%N then "+"%char
  else "/"%char.

(** [binascii.b2a_base64] without the padding and the line feed that
    [b64s_encode] strips: three bytes give four characters, one byte at
    the end two, two bytes three. *)
Fixpoint b64s_encode (data : string) : string :=
  match data with
  | EmptyString => EmptyString
  | String a EmptyString =>
      let x := N_of_ascii a in
      String (b64_char (N.shiftr x 2))
        (String (b64_char (N.shiftl (N.land x 3) 4)) EmptyString)
  | String a (String b EmptyString) =>
      let x := N_of_ascii a in
      let y := N_of_ascii b in
      String (b64_char (N.shiftr x 2))
        (String (b64_char (N.lor (N.shiftl (N.land x 3) 4) (N.shiftr y 4)))
           (String (b64_char (N.shiftl (N.land y 15) 2)) EmptyString))
  | String a (String b (String c rest)) =>
      let x := N_of_ascii a in
      let y := N_of_ascii b in
      let z := N_of_ascii c in
      String (b64_char (N.shiftr x 2))
        (String (b64_char (N.lor (N.shiftl (N.land x 3) 4) (N.shiftr y 4)))
           (String (b64_char (N.lor (N.shiftl (N.land y 15) 2) (N.shiftr z 6)))
              (String (b64_char (N.land z 63)) (b64s_encode rest))))
  end.

(** [ab64_encode] *)
Definition ab64_encode (data : string) : string :=
  replace "+" "." (b64s_encode data).

(** The value of a base64 character ([table_a2b_base64]). *)
Definition b64_value (c : ascii) : option N :=
  let n := N_of_ascii c in
  if ((65 <=? n) && (n <=? 90))%N then Some (n - 65)%N
  else if ((97 <=? n) && (n <=? 122))%N then Some (n - 71)%N
  else if ((48 <=? n) && (n <=? 57))%N then Some (n + 4)%N
  else if (n =? 43)%N then Some 62%N
  else if (n =? 47)%N then Some 63%N
  else None.

Definition binascii_Error (message : string) : exn :=
  PyException "TypeError" message.

(** [binascii.a2b_base64], not strict, as [b64s_decode] calls it (an
    error of [binascii] is raised on as a [TypeError]): a character
    outside the alphabet is passed over; [=] ends the data once the
    quad in progress is completed by padding; the data must end on a
    whole quad.  [quad_pos], [leftchar] and [pads] are the decoder's
    state, [written] the count of bytes written. *)
Fixpoint a2b_base64 (data : string) (quad_pos leftchar pads written : N)
  : Outcome string :=
  match data with
  | EmptyString =>
      if (quad_pos =? 0)%N then Returned EmptyString
      else if (quad_pos =? 1)%N then
        Raised (binascii_Error
                  ("Invalid base64-encoded string: number of data characters (" ++
                   decimal (Z.of_N (written / 3 * 4 + 1)) ++
                   ") cannot be 1 more than a multiple of 4"))
      else Raised (binascii_Error "Incorrect padding")
  | String c rest =>
      if Ascii.eqb c "=" then
        if (2 <=? quad_pos)%N then
          if (4 <=? quad_pos + (pads + 1))%N then Returned EmptyString
          else a2b_base64 rest quad_pos leftchar (pads + 1) written
        else a2b_base64 rest quad_pos leftchar pads written
      else
        match b64_value c with
        | None => a2b_base64 rest quad_pos leftchar pads written
        | Some v =>
            let emit (byte : N) (r : Outcome string) :=
              match r with
              | Returned out => Returned (String (ascii_of_N byte) out)
              | Raised e => Raised e
              end in
            if (quad_pos =? 0)%N then a2b_base64 rest 1 v 0 written
            else if (quad_pos =? 1)%N then
              emit (N.lor (N.shiftl leftchar 2) (N.shiftr v 4))
                (a2b_base64 rest 2 (N.land v 15) 0 (written + 1))
            else if (quad_pos =? 2)%N then
              emit (N.lor (N.shiftl leftchar 4) (N.shiftr v 2))
                (a2b_base64 rest 3 (N.land v 3) 0 (written + 1))
            else
              emit (N.lor (N.shiftl leftchar 6) v)
                (a2b_base64 rest 0 0 0 (written + 1))
        end
  end.

(** [b64s_decode]: the padding is put back by the length of the text. *)
Definition b64s_decode (data : string) : Outcome string :=
  match (String.length data mod 4)%nat with
  | 0%nat => a2b_base64 data 0 0 0 0
  | 2%nat => a2b_base64 (data ++ "==") 0 0 0 0
  | 3%nat => a2b_base64 (data ++ "=") 0 0 0 0
  | _ => Raised (PyException "ValueError" "invalid base64 input")
  end.

(** [ab64_decode] *)
Definition ab64_decode (data : string) : Outcome string :=
  b64s_decode (replace "." "+" data).

(** The rounds field as [parse_mc3] reads it: no padding zeros, then
    [int]. *)
Definition parse_rounds (rounds : string) : Outcome Z :=
  match rounds with
  | EmptyString => Raised (MalformedHashError "empty rounds field")
  | String "0" (String _ _) => Raised ZeroPaddedRoundsError
  | _ =>
      match parse_int rounds with
      | IntValue r => Returned r
      | IntInvalid =>
          Raised (PyException "ValueError"
                    ("invalid literal for int() with base 10: " ++ repr rounds))
      | IntTooLong digits =>
          Raised (PyException "ValueError"
                    ("Exceeds the limit (4300 digits) for integer string " ++
                     "conversion: value has " ++ decimal (Z.of_nat digits) ++
                     " digits; use sys.set_int_max_str_digits() to " ++
                     "increase the limit"))
      end
  end.

(** The rounds as the handler takes them: from 1 to 2^32 - 1. *)
Definition norm_rounds (r : Z) : Outcome Z :=
  if r <? pbkdf2_sha256_min_rounds then
    Raised (PyException "ValueError"
              ("pbkdf2_sha256: rounds (" ++ decimal r ++
               ") is too low, must be at least 1"))
  else if pbkdf2_sha256_max_rounds <? r then
    Raised (PyException "ValueError"
              ("pbkdf2_sha256: rounds (" ++ decimal r ++
               ") is too high, must be at most 4294967295"))
  else Returned r.

(** A hash read by the handler: rounds, salt, and the checksum if the
    text has one. *)
Record pbkdf2_sha256 := mk_pbkdf2_sha256 {
  pbkdf2_rounds : Z;
  pbkdf2_salt : string;
  pbkdf2_checksum : option string
}.

(** The handler's constructor: the checksum has 32 bytes, the salt at
    most 1024, the rounds are in range; checked in this order. *)
Definition pbkdf2_sha256_init (r : Z) (s : string) (chk : option string)
  : Outcome pbkdf2_sha256 :=
  let checked :=
    match chk with
    | Some c =>
        if (String.length c =? pbkdf2_sha256_checksum_size)%nat
        then Returned tt
        else Raised ChecksumSizeError
    | None => Returned tt
    end in
  match checked with
  | Raised e => Raised e
  | Returned _ =>
      if (pbkdf2_sha256_max_salt_size <? String.length s)%nat
      then Raised (PyException "ValueError"
                     "salt too large (pbkdf2_sha256 requires <= 1024 bytes)")
      else
        match norm_rounds r with
        | Raised e => Raised e
        | Returned r' =>
            Returned {| pbkdf2_rounds := r';
                        pbkdf2_salt := s;
                        pbkdf2_checksum := chk |}
        end
  end.

(** [from_string] on the text after the identifier: [parse_mc3] takes
    it apart at the [$] signs, salt and checksum are decoded, and the
    handler is constructed.  An empty checksum counts as none. *)
Definition pbkdf2_sha256_from_string (rest : string) : Outcome pbkdf2_sha256 :=
  let parts :=
    match split "$" rest with
    | [r; s; chk] => Some (r, s, chk)
    | [r; s] => Some (r, s, EmptyString)
    | _ => None
    end in
  match parts with
  | None => Raised (MalformedHashError "")
  | Some (r, s, chk) =>
      match parse_rounds r with
      | Raised e => Raised e
      | Returned r' =>
          match ab64_decode s with
          | Raised e => Raised e
          | Returned s' =>
              match chk with
              | EmptyString => pbkdf2_sha256_init r' s' None
              | _ =>
                  match ab64_decode chk with
                  | Raised e => Raised e
                  | Returned chk' => pbkdf2_sha256_init r' s' (Some chk')
                  end
              end
          end
      end
  end.

(** Characters of adapted base64, and the texts made of them. *)
Definition is_ab64_char (c : ascii) : bool :=
  let n := N_of_ascii c in
  (((65 <=? n) && (n <=? 90)) || ((97 <=? n) && (n <=? 122)) ||
   ((48 <=? n) && (n <=? 57)) || (n =? 46) || (n =? 47))%N.

Fixpoint is_ab64 (s : string) : bool :=
  match s with
  | EmptyString => true
  | String c s' => is_ab64_char c && is_ab64 s'
  end.

(** *** [datetime] arithmetic *)

(** The first and the last instant a [datetime] holds, 0001-01-01
    00:00:00 and 9999-12-31 23:59:59.999999, in microseconds since the
    epoch. *)
Definition datetime_min : Z := -62135596800000000.
Definition datetime_max : Z := 253402300799999999.

(** [t + delta] for a [datetime] and a [timedelta]: outside the range of
    [datetime] the sum raises. *)
Definition datetime_add (t delta : Z) : Outcome Z :=
  if (datetime_min <=? t + delta) && (t + delta <=? datetime_max)
  then Returned (t + delta)
  else Raised (PyException "OverflowError" "date value out of range").

(** ** backend/main.py: what the endpoints return *)

(** [schemas.Token] *)
Record Token := mk_Token {
  access_token : jwt_token;
  token_type : string
}.

(** [StockPriceResponse], with [price: float | None]. *)
Record StockPriceResponse := mk_StockPriceResponse {
  symbol : string;
  price : option float
}.

(** Python's [str.upper] on ASCII text. *)
Definition upper_char (c : ascii) : ascii :=
  let n := N_of_ascii c in
  if ((97 <=? n) && (n <=? 122))%N then ascii_of_N (n - 32) else c.

Fixpoint upper (s : string) : string :=
  match s with
  | EmptyString => EmptyString
  | String c s' => String (upper_char c) (upper s')
  end.

Section Backend.

(** The digests come from passlib and python-jose, the quote from
    yfinance, the validation of an address from pydantic:
    [pbkdf2_hmac_sha256 secret salt rounds] is the digest of 32 bytes of
    a password under the bytes of a salt, [hmac_sign algorithm key input]
    the signature of a token's first two segments, [Ticker_info symbol]
    the provider's [info] dictionary or the exception it raises,
    [EmailStr value] the address as the validator normalises it (the
    domain in lower case) or the error of validation. *)
Variable pbkdf2_hmac_sha256 : string -> string -> Z -> string.
Variable hmac_sign : string -> string -> jws_header * gmap string json -> string.
Variable Ticker_info : string -> Outcome (gmap string float).
Variable EmailStr : string -> Outcome string.

(** The handler's [hash] on a secret of allowed size, with the salt the
    call draws: the digest under that salt and the default rounds,
    written by [to_string] as [$pbkdf2-sha256$rounds$salt$checksum]. *)
Definition pbkdf2_sha256_hash (salt secret : string) : string :=
  pbkdf2_sha256_ident ++ decimal pbkdf2_sha256_default_rounds ++ "$" ++
  ab64_encode salt ++ "$" ++
  ab64_encode (pbkdf2_hmac_sha256 secret salt pbkdf2_sha256_default_rounds).

(** [pwd_context.hash(password)], with the salt the call draws. *)
Definition get_password_hash (salt password : string) : Outcome string :=
  match validate_secret password with
  | Raised e => Raised e
  | Returned _ => Returned (pbkdf2_sha256_hash salt password)
  end.

(** The handler's [verify] on a hash already identified: the size of
    the secret is checked, the hash is read by [from_string], and the
    digest of the secret under the salt and rounds read is compared
    with the checksum read, bytes with bytes. *)
Definition pbkdf2_sha256_verify (secret rest : string) : Outcome bool :=
  match validate_secret secret with
  | Raised e => Raised e
  | Returned _ =>
      match pbkdf2_sha256_from_string rest with
      | Raised e => Raised e
      | Returned h =>
          match pbkdf2_checksum h with
          | None => Raised MissingDigestError
          | Some chk =>
              Returned
                (String.eqb
                   (pbkdf2_hmac_sha256 secret (pbkdf2_salt h) (pbkdf2_rounds h))
                   chk)
          end
      end
  end.

(** [pwd_context.verify(plain_password, hashed_password)]: the hash is
    identified by its prefix and verified by its handler. *)
Definition verify_password (plain_password hashed_password : string)
  : Outcome bool :=
  match strip_prefix pbkdf2_sha256_ident hashed_password with
  | None => Raised UnknownHashError
  | Some rest => pbkdf2_sha256_verify plain_password rest
  end.

(** [jwt.encode(claims, key, algorithm=...)] *)
Definition jwt_encode (claims : gmap string pyval) (key algorithm : string)
  : Outcome jwt_token :=
  match json_payload (convert_time_claims claims) with
  | Some payload =>
      let header := {| alg := algorithm; typ := "JWT" |} in
      Returned
        {| jwt_header := header;
           jwt_claims := payload;
           jwt_signature := hmac_sign algorithm key (header, payload) |}
  | None =>
      Raised (PyException "TypeError"
                "Object of type datetime is not JSON serializable")
  end.

(** [jws.verify(token, key, algorithms)]: the payload of a token whose
    signature is the one the key gives. *)
Definition jws_verify (token : jwt_token) (key algorithm : string)
  : Outcome (gmap string json) :=
  if String.eqb (alg (jwt_header token)) algorithm &&
     String.eqb
       (hmac_sign algorithm key (jwt_header token, jwt_claims token))
       (jwt_signature token)
  then Returned (jwt_claims token)
  else Raised (PyException "JWSError" "Signature verification failed.").

(** [datetime.utcnow() + timedelta(minutes=ACCESS_TOKEN_EXPIRE_MINUTES)]:
    the clock reads the present, which half an hour does not carry out
    of the range of [datetime]. *)
Definition default_expiry (now : Z) : Z :=
  now + timedelta_minutes ACCESS_TOKEN_EXPIRE_MINUTES.

(** [create_access_token(data, expires_delta)] at clock reading [now];
    a [timedelta] of zero is false in Python, and the sum of the clock
    and a lifetime given may leave the range of [datetime]. *)
Definition create_access_token
  (data : gmap string json) (expires_delta : option Z) (now : Z)
  : Outcome jwt_token :=
  let to_encode := PyJson <$> data in
  match (match expires_delta with
         | Some d =>
             if d =? 0 then Returned (default_expiry now)
             else datetime_add now d
         | None => Returned (default_expiry now)
         end) with
  | Raised e => Raised e
  | Returned expire =>
      let to_encode := <["exp" := PyDatetime expire]> to_encode in
      jwt_encode to_encode SECRET_KEY ALGORITHM
  end.

(** ** backend/main.py: the endpoints *)

Definition register_user (user_in : UserCreate) : M User :=
  us <- filter_email (uc_email user_in) query_User ;;
  let existing := first us in
  match existing with
  | Some _ =>
      raise (HTTPException HTTP_400_BAD_REQUEST "Email already registered")
  | None =>
      env <- ask ;;
      hashed_pw <- lift (get_password_hash (env_salt env)
                           (uc_password user_in)) ;;
      db_add (AddUser (uc_email user_in) hashed_pw) ;;;
      keys <- db_commit ;;
      db_refresh_User keys
  end.

Definition login (payload : LoginRequest) : M Token :=
  us <- filter_email (lr_email payload) query_User ;;
  let user := first us in
  match user with
  | None =>
      raise (HTTPException HTTP_400_BAD_REQUEST "Incorrect email or password")
  | Some u =>
      ok <- lift (verify_password (lr_password payload)
                    (user_hashed_password u)) ;;
      if negb ok
      then raise (HTTPException HTTP_400_BAD_REQUEST
                    "Incorrect email or password")
      else
        env <- ask ;;
        tok <- lift (create_access_token
                       {[ "sub" := JStr (user_email u) ]} None (env_now env)) ;;
        ret {| access_token := tok; token_type := "bearer" |}
  end.

Definition create_transaction (tx : TransactionCreate) : M Transaction :=
  db_add (AddTransaction (tc_type tx) (tc_category tx) (tc_amount tx)
            (tc_date tx)) ;;;
  keys <- db_commit ;;
  db_refresh_Transaction keys.

Definition list_transactions : M (list Transaction) :=
  ts <- query_Transaction ;;
  ret (order_by_date_desc ts).

Definition delete_transaction (id : Z) : M unit :=
  ts <- filter_id id query_Transaction ;;
  match first ts with
  | None => raise (HTTPException 404 "Transaction not found")
  | Some tx =>
      db_delete tx ;;;
      _ <- db_commit ;;
      ret tt
  end.

Definition get_stock_price (sym : string) : Outcome StockPriceResponse :=
  match Ticker_info sym with
  | Returned info =>
      match info !! "currentPrice" with
      | None =>
          Raised (HTTPException 404
                    ("Could not find price for symbol '" ++ sym ++ "'"))
      | Some current_price =>
          Returned {| symbol := upper sym; price := Some current_price |}
      end
  | Raised (HTTPException status_code detail) =>
      Raised (HTTPException status_code detail)
  | Raised (PyException _ message) =>
      Raised (HTTPException 500 ("Error fetching stock price: " ++ message))
  end.

(** The routes that take [db: Session = Depends(get_db)]. *)
Definition POST_auth_register (user_in : UserCreate) :=
  Depends_get_db (register_user user_in).
Definition POST_auth_login (payload : LoginRequest) :=
  Depends_get_db (login payload).
Definition POST_transactions (tx : TransactionCreate) :=
  Depends_get_db (create_transaction tx).
Definition GET_transactions :=
  Depends_get_db list_transactions.
Definition DELETE_transactions (id : Z) :=
  Depends_get_db (delete_transaction id).

(** The body of [POST /auth/login] as it is sent.  Its validation
    against [LoginRequest] runs once the session is there: [email] is
    an [EmailStr], so the endpoint gets the address as the validator
    normalised it; [password] is text taken as it is.  ([UserCreate]
    declares [email: str], which [register_user] gets as sent.) *)
Definition LoginRequest_validate (email password : string)
  : Outcome LoginRequest :=
  match EmailStr email with
  | Returned normalized =>
      Returned {| lr_email := normalized; lr_password := password |}
  | Raised e => Raised e
  end.

Definition POST_auth_login_body (email password : string) :=
  Depends_get_db
    (payload <- lift (LoginRequest_validate email password) ;; login payload).

End Backend.

(** ** Vocabulary of the statements *)

(** [date_desc a b]: row [a] may come before row [b] in a listing by
    falling date. *)
Definition date_desc (a b : Transaction) : Prop :=
  date_leb (tx_date b) (tx_date a) = true.

(** The session a request starts with. *)
Definition fresh_session (w : World) : Session :=
  {| rows := database w; unit_of_work := [] |}.

(** The process after a request whose session ended as [s']. *)
Definition after_request (w : World) (s' : Session) : World :=
  {| database := rows s';
     live_sessions := delete (sessions_made w) (live_sessions w);
     sessions_made := S (sessions_made w);
     session_log :=
       session_log w ++
       [SessionOpened (sessions_made w); SessionClosed (sessions_made w)] |}.

(** The event closes (opens) session [sid]. *)
Definition is_close_of (sid : nat) (ev : session_event) : bool :=
  match ev with
  | SessionClosed k => Nat.eqb k sid
  | SessionOpened _ => false
  end.

Definition is_open_of (sid : nat) (ev : session_event) : bool :=
  match ev with
  | SessionOpened k => Nat.eqb k sid
  | SessionClosed _ => false
  end.

(** How many times the log closes (opens) session [sid]. *)
Definition closes_of (sid : nat) (log : list session_event) : nat :=
  length (List.filter (is_close_of sid) log).

Definition opens_of (sid : nat) (log : list session_event) : nat :=
  length (List.filter (is_open_of sid) log).

(** The row [create_transaction] stores for a payload. *)
Definition new_Transaction (d : Database) (tx : TransactionCreate)
  : Transaction :=
  {| tx_id := next_rowid (map tx_id (transactions d));
     tx_type := tc_type tx;
     tx_category := tc_category tx;
     tx_amount := sqlite_real (tc_amount tx);
     tx_date := Date_bind (tc_date tx) |}.

(** The store with one more row in a table. *)
Definition with_Transaction (d : Database) (t : Transaction) : Database :=
  {| users := users d; transactions := transactions d ++ [t] |}.

Definition with_User (d : Database) (u : User) : Database :=
  {| users := users d ++ [u]; transactions := transactions d |}.

(** The store without the transactions of key [id]. *)
Definition without_Transaction (d : Database) (id : Z) : Database :=
  {| users := users d;
     transactions :=
       List.filter (fun t => negb (tx_id t =? id)) (transactions d) |}.

(** A session that has committed the store to [d] and holds no work. *)
Definition committed (d : Database) : Session :=
  {| rows := d; unit_of_work := [] |}.

(** The character is one of [a] to [z]. *)
Definition is_lower_char (c : ascii) : bool :=
  let n := N_of_ascii c in ((97 <=? n) && (n <=? 122))%N.

(** The text has a lower-case letter. *)
Fixpoint has_lower (s : string) : bool :=
  match s with
  | EmptyString => false
  | String c s' => is_lower_char c || has_lower s'
  end.

(** The row [register_user] stores for a payload. *)
Definition new_User (hashed_pw : string) (env : Env) (d : Database)
  (user_in : UserCreate) : User :=
  {| user_id := next_rowid (map user_id (users d));
     user_email := uc_email user_in;
     user_hashed_password := hashed_pw;
     user_created_at := current_timestamp (env_now env) |}.

(** Some stored user has this email. *)
Definition email_registered (d : Database) (email : string) : Prop :=
  In email (map user_email (users d)).

(** ** Sample data

    Stand-ins for the digests and the provider, and a small store, on
    which the statements that have premises are exercised. *)
Module Sample.

(** Bytes, by their values. *)
Definition bytes (values : list Z) : string :=
  string_of_list_ascii (map (fun v => ascii_of_N (Z.to_N v)) values).

(** Two salts of 16 bytes. *)
Definition salt_a : string := "0123456789abcdef".
Definition salt_b : string := "fedcba9876543210".

(** PBKDF2-HMAC-SHA256 of 29000 rounds and 32 bytes on the passwords and
    salts of the samples, and a fixed text of 32 bytes elsewhere. *)
Definition pbkdf2 (secret salt : string) (rounds : Z) : string :=
  if String.eqb secret "hunter2" && String.eqb salt salt_a && (rounds =? 29000)
  then bytes [233; 58; 116; 14; 60; 154; 247; 69; 116; 95; 227; 91; 114; 245;
              161; 4; 43; 17; 235; 179; 169; 151; 67; 23; 72; 104; 213; 76;
              87; 245; 116; 82]
  else if String.eqb secret "letmein" && String.eqb salt salt_a &&
          (rounds =? 29000)
  then bytes [11; 228; 204; 38; 60; 111; 136; 219; 238; 173; 220; 231; 21;
              167; 65; 159; 63; 215; 32; 203; 111; 206; 169; 109; 70; 5; 18;
              71; 195; 255; 219; 195]
  else if String.eqb secret "hunter2" && String.eqb salt salt_b &&
          (rounds =? 29000)
  then bytes [174; 226; 9; 218; 173; 112; 198; 96; 156; 230; 161; 229; 138;
              216; 254; 21; 73; 166; 75; 241; 69; 87; 232; 138; 169; 236; 32;
              231; 70; 108; 42; 46]
  else "00000000000000000000000000000000".

(** A password one character longer than passlib takes. *)
Definition long_password : string :=
  string_of_list_ascii (repeat "a"%char 4097).

(** A validator of addresses that puts the domain in lower case and
    refuses a text without [@]. *)
Fixpoint lower (s : string) : string :=
  match s with
  | EmptyString => EmptyString
  | String c s' =>
      let n := N_of_ascii c in
      String (if ((65 <=? n) && (n <=? 90))%N then ascii_of_N (n + 32) else c)
        (lower s')
  end.

Definition EmailStr (value : string) : Outcome string :=
  match split "@" value with
  | [local_part; domain] => Returned (local_part ++ "@" ++ lower domain)
  | _ => Raised (PyException "RequestValidationError"
                   "value is not a valid email address")
  end.

(** A provider that prices one symbol. *)
Definition Ticker_info (sym : string) : Outcome (gmap string float) :=
  if String.eqb sym "aapl"
  then Returned {[ "currentPrice" := 189.5%float ]}
  else Returned ∅.

(** A salt and a clock reading, and another salt ten minutes later. *)
Definition env : Env :=
  {| env_salt := salt_a; env_now := 1700000000000000 |}.

Definition env_b : Env :=
  {| env_salt := salt_b; env_now := 1700000600000000 |}.

(** A store of one user, whose password is "hunter2" (hashed under
    [salt_a]), and two transactions. *)
Definition alice : User :=
  {| user_id := 1;
     user_email := "alice@example.com";
     user_hashed_password :=
       "$pbkdf2-sha256$29000$MDEyMzQ1Njc4OWFiY2RlZg$" ++
       "6Tp0Djya90V0X.NbcvWhBCsR67Opl0MXSGjVTFf1dFI";
     user_created_at := 1700000000 |}.

Definition rent : Transaction :=
  {| tx_id := 1; tx_type := "Expense"; tx_category := "Rent";
     tx_amount := 900%float; tx_date := mk_date 2025 1 1 |}.

Definition salary : Transaction :=
  {| tx_id := 2; tx_type := "Income"; tx_category := "Salary";
     tx_amount := 2500%float; tx_date := mk_date 2025 1 31 |}.

Definition store : Database :=
  {| users := [alice]; transactions := [rent; salary] |}.

(** The process at rest over a store. *)
Definition world (d : Database) : World :=
  {| database := d;
     live_sessions := ∅;
     sessions_made := 0;
     session_log := [] |}.

(** A payload of the given day, at half past three in the afternoon. *)
Definition payload (category : string) (y m d : Z) : TransactionCreate :=
  {| tc_type := "Expense";
     tc_category := category;
     tc_amount := 250%float;
     tc_date := {| dt_date := mk_date y m d;
                   hour := 15; minute := 30; second := 0;
                   microsecond := 0 |} |}.

(** The payload of 2025-01-10 15:30 with NaN for its amount. *)
Definition nan_payload : TransactionCreate :=
  {| tc_type := "Expense";
     tc_category := "Food";
     tc_amount := nan;
     tc_date := {| dt_date := mk_date 2025 1 10;
                   hour := 15; minute := 30; second := 0;
                   microsecond := 0 |} |}.

End Sample.

(** ** backend/main.py: the other routes, and the application *)

(** [health_check] *)
Definition health_check : gmap string string := {[ "status" := "ok" ]}.

(** [db_test] *)
Definition db_test : M (gmap string string) :=
  ret {[ "message" := "DB session created successfully" ]}.

(** [get_transactions_debug]: [.all()] of the table, counted. *)
Definition get_transactions_debug : M (gmap string Z) :=
  txs <- query_Transaction ;;
  ret {[ "count" := Z.of_nat (length txs) ]}.

Definition GET_db_test := Depends_get_db db_test.
Definition GET_transactions_debug := Depends_get_db get_transactions_debug.

(** A request, by the route it is for, with what the route takes from
    it after validation. *)
Inductive request :=
  | GetHealth
  | PostAuthRegister (user_in : UserCreate)
  | PostAuthLogin (payload : LoginRequest)
  | GetDbTest
  | GetTransactionsDebug
  | PostTransactions (tx : TransactionCreate)
  | GetTransactions
  | DeleteTransactions (tx_id : Z)
  | GetStockPrice (sym : string).

(** What an endpoint returns. *)
Inductive response :=
  | RespStatus (body : gmap string string)
  | RespUser (u : User)
  | RespToken (t : Token)
  | RespCount (body : gmap string Z)
  | RespTransaction (t : Transaction)
  | RespTransactions (l : list Transaction)
  | RespNone
  | RespStockPrice (r : StockPriceResponse).

(** The outcome of one route with its value wrapped. *)
Definition answer {A} (wrap : A -> response) (r : Outcome A * World)
  : Outcome response * World :=
  match r with
  | (Returned a, w) => (Returned (wrap a), w)
  | (Raised e, w) => (Raised e, w)
  end.

(** The process as first started: [create_all] has made the two tables
    of a new store file, and no session was made yet. *)
Definition initial_world : World :=
  {| database := empty_database;
     live_sessions := ∅;
     sessions_made := 0;
     session_log := [] |}.

Section Application.

Variable pbkdf2_hmac_sha256 : string -> string -> Z -> string.
Variable hmac_sign : string -> string -> jws_header * gmap string json -> string.
Variable Ticker_info : string -> Outcome (gmap string float).

(** The application [app]: each request goes to the endpoint of its
    route; [/health] and [/stock-price] take no session. *)
Definition app (req : request) (env : Env) (w : World)
  : Outcome response * World :=
  match req with
  | GetHealth => (Returned (RespStatus health_check), w)
  | PostAuthRegister user_in =>
      answer RespUser (POST_auth_register pbkdf2_hmac_sha256 user_in env w)
  | PostAuthLogin payload =>
      answer RespToken
        (POST_auth_login pbkdf2_hmac_sha256 hmac_sign payload env w)
  | GetDbTest => answer RespStatus (GET_db_test env w)
  | GetTransactionsDebug => answer RespCount (GET_transactions_debug env w)
  | PostTransactions tx => answer RespTransaction (POST_transactions tx env w)
  | GetTransactions => answer RespTransactions (GET_transactions env w)
  | DeleteTransactions id =>
      answer (fun _ : unit => RespNone) (DELETE_transactions id env w)
  | GetStockPrice sym =>
      match get_stock_price Ticker_info sym with
      | Returned r => (Returned (RespStockPrice r), w)
      | Raised e => (Raised e, w)
      end
  end.

(** The process after a sequence of requests, each with what it reads
    from outside. *)
Fixpoint serve (reqs : list (request * Env)) (w : World) : World :=
  match reqs with
  | [] => w
  | (req, env) :: reqs' => serve reqs' (snd (app req env w))
  end.

End Application.

(** A store as the application keeps it: keys and emails are not
    repeated, keys are positive, and no amount is NaN. *)
Definition store_ok (d : Database) : Prop :=
  NoDup (map tx_id (transactions d)) /\
  NoDup (map user_id (users d)) /\
  NoDup (map user_email (users d)) /\
  Forall (fun t => 0 < tx_id t /\ is_nan (tx_amount t) = false)
    (transactions d) /\
  Forall (fun u => 0 < user_id u) (users d).

(** The session log of [n] requests that took a session, one after the
    other. *)
Fixpoint bracketed_log (n : nat) : list session_event :=
  match n with
  | O => []
  | S k => bracketed_log k ++ [SessionOpened k; SessionClosed k]
  end.

(** The salt has the size passlib draws. *)
Definition salt_sized (salt : string) : Prop :=
  String.length salt = pbkdf2_sha256_default_salt_size.

(** Every request draws a salt of that size. *)
Definition salts_sized (reqs : list (request * Env)) : Prop :=
  Forall (fun re => salt_sized (env_salt (snd re))) reqs.

(** The hash was made by [get_password_hash] from some password and a
    salt of that size. *)
Definition hash_of_password
  (pbkdf2_hmac_sha256 : string -> string -> Z -> string) (h : string) : Prop :=
  exists salt password,
    salt_sized salt /\
    h = pbkdf2_sha256_hash pbkdf2_hmac_sha256 salt password.

(** The digest PBKDF2 gives has the 32 bytes asked of it. *)
Definition digest_sized
  (pbkdf2_hmac_sha256 : string -> string -> Z -> string) : Prop :=
  forall secret salt rounds,
    String.length (pbkdf2_hmac_sha256 secret salt rounds) =
    pbkdf2_sha256_checksum_size.

(** The routes declared with [db: Session = Depends(get_db)]. *)
Definition takes_session (req : request) : bool :=
  match req with
  | GetHealth | GetStockPrice _ => false
  | _ => true
  end.

(** The lifetime [create_access_token] adds to the clock: the one given
    unless it is absent or zero. *)
Definition effective_lifetime (expires_delta : option Z) : Z :=
  match expires_delta with
  | Some d => if d =? 0 then timedelta_minutes ACCESS_TOKEN_EXPIRE_MINUTES else d
  | None => timedelta_minutes ACCESS_TOKEN_EXPIRE_MINUTES
  end.

(** The routes whose endpoint calls [db.add] or [db.delete]. *)
Definition writes_store (req : request) : bool :=
  match req with
  | PostAuthRegister _ | PostTransactions _ | DeleteTransactions _ => true
  | _ => false
  end.

(** ** frontend/app.py: the Streamlit script *)

(** Streamlit runs the script from top to bottom at every interaction.
    Between two runs it keeps [st.session_state]; a run reads the value
    of each widget it draws, sends requests to the backend through
    [requests], and shows alerts.  An exception nothing catches ends the
    run; what the run has assigned before stays assigned.

    The session state is the dictionary of the four keys the script
    itself assigns (the entries Streamlit keeps for keyed widgets are not
    part of it).  [requests], [pandas], [plotly] and [yfinance] are taken
    abstractly; the visible behaviour of [Response.raise_for_status] is
    written out. *)

Definition BACKEND_URL : string := "http://127.0.0.1:8000".

(** The truth value Python gives a decoded JSON value. *)
Definition truthy (j : json) : bool :=
  match j with
  | JNull => false
  | JBool b => b
  | JInt n => negb (n =? 0)
  | JFloat x => negb (PrimFloat.eqb x 0%float)
  | JStr s => negb (String.eqb s "")
  | JArray items => match items with [] => false | _ => true end
  | JObject members => match members with [] => false | _ => true end
  end.

(** [type(j).__name__] *)
Definition type_name (j : json) : string :=
  match j with
  | JNull => "NoneType"
  | JBool _ => "bool"
  | JInt _ => "int"
  | JFloat _ => "float"
  | JStr _ => "str"
  | JArray _ => "list"
  | JObject _ => "dict"
  end.

(** The value under a key of a decoded object; of a key written twice
    the last value counts. *)
Fixpoint object_get (key : string) (members : list (string * json))
  : option json :=
  match members with
  | [] => None
  | (k, v) :: rest =>
      match object_get key rest with
      | Some v' => Some v'
      | None => if String.eqb k key then Some v else None
      end
  end.

(** [data.get(key, default)]: only a dictionary has the method. *)
Definition dict_get (data : json) (key : string) (otherwise : json)
  : Outcome json :=
  match data with
  | JObject members =>
      match object_get key members with
      | Some v => Returned v
      | None => Returned otherwise
      end
  | _ =>
      Raised (PyException "AttributeError"
                ("'" ++ type_name data ++ "' object has no attribute 'get'"))
  end.

(** The [TypeError] of a text indexed by a text (its message is that of
    Python 3.11 and later). *)
Definition text_index_error : exn :=
  PyException "TypeError" "string indices must be integers, not 'str'".

(** [tx["id"]] *)
Definition subscript_id (tx : json) : Outcome json :=
  match tx with
  | JObject members =>
      match object_get "id" members with
      | Some v => Returned v
      | None => Raised (PyException "KeyError" "'id'")
      end
  | JArray _ =>
      Raised (PyException "TypeError"
                "list indices must be integers or slices, not str")
  | JStr _ => Raised text_index_error
  | _ =>
      Raised (PyException "TypeError"
                ("'" ++ type_name tx ++ "' object is not subscriptable"))
  end.

(** [[tx["id"] for tx in items]] over the items of a list. *)
Fixpoint ids_of_items (items : list json) : Outcome (list json) :=
  match items with
  | [] => Returned []
  | tx :: rest =>
      match subscript_id tx with
      | Raised e => Raised e
      | Returned v =>
          match ids_of_items rest with
          | Raised e => Raised e
          | Returned vs => Returned (v :: vs)
          end
      end
  end.

(** [[tx["id"] for tx in transactions]]: a list is gone through item by
    item; a dictionary and a text yield texts, which have no such index;
    nothing else can be gone through. *)
Definition ids_of (transactions : json) : Outcome (list json) :=
  match transactions with
  | JArray items => ids_of_items items
  | JObject members =>
      match members with
      | [] => Returned []
      | _ => Raised text_index_error
      end
  | JStr s =>
      if String.eqb s "" then Returned [] else Raised text_index_error
  | _ =>
      Raised (PyException "TypeError"
                ("'" ++ type_name transactions ++ "' object is not iterable"))
  end.

(** [n] in [width] decimal digits, zeros in front. *)
Fixpoint zero_padded (width : nat) (n : Z) : string :=
  match width with
  | O => ""
  | S w => zero_padded w (n / 10) ++ String (digit_char (n mod 10)) ""
  end.

(** [str(d)] of a [datetime.date]: its ISO text. *)
Definition isoformat (d : date) : string :=
  zero_padded 4 (year d) ++ "-" ++ zero_padded 2 (month d) ++ "-" ++
  zero_padded 2 (day d).

(** *** Requests *)

Inductive http_method := GET | POST | DELETE.

(** What a call of [requests.get], [requests.post] or [requests.delete]
    is given. *)
Record http_request := mk_http_request {
  method : http_method;
  url : string;
  json_body : option json;
  headers : gmap string string
}.

(** A [requests.Response]: status line, final URL, and what [.json()]
    gives: the decoded body, or the text of the [JSONDecodeError] it
    raises (a [RequestException]). *)
Record Response := mk_Response {
  resp_status_code : Z;
  resp_reason : string;
  resp_url : string;
  resp_json : json + string
}.

(** The outcome of a call: a response, or a [RequestException] with its
    text. *)
Inductive sent :=
  | Received (resp : Response)
  | RequestException (message : string).

(** [Response.raise_for_status]: the text of the [HTTPError] it raises,
    if it raises. *)
Definition raise_for_status (resp : Response) : option string :=
  if (400 <=? resp_status_code resp) && (resp_status_code resp <? 500) then
    Some (zero_padded 3 (resp_status_code resp) ++ " Client Error: " ++
          resp_reason resp ++ " for url: " ++ resp_url resp)
  else if (500 <=? resp_status_code resp) && (resp_status_code resp <? 600) then
    Some (zero_padded 3 (resp_status_code resp) ++ " Server Error: " ++
          resp_reason resp ++ " for url: " ++ resp_url resp)
  else None.

(** The body of the [try] of [api_get] and [api_post] after the call:
    the decoded body and [None], or, for a [RequestException] of the
    call, of [raise_for_status] or of [.json()], [None] and its text. *)
Definition json_or_error (r : sent) : json * option string :=
  match r with
  | RequestException e => (JNull, Some e)
  | Received resp =>
      match raise_for_status resp with
      | Some e => (JNull, Some e)
      | None =>
          match resp_json resp with
          | inl data => (data, None)
          | inr e => (JNull, Some e)
          end
      end
  end.

(** The same of [api_delete], which does not read the body. *)
Definition done_or_error (r : sent) : bool * option string :=
  match r with
  | RequestException e => (false, Some e)
  | Received resp =>
      match raise_for_status resp with
      | Some e => (false, Some e)
      | None => (true, None)
      end
  end.

(** *** The page *)

(** The alerts a run shows. *)
Inductive alert :=
  | st_error (body : string)
  | st_warning (body : string)
  | st_success (body : string)
  | st_info (body : string)
  | sidebar_success (body : string)
  | sidebar_info (body : string).

(** The browser session: the session state, and what has been sent and
    shown so far. *)
Record Browser := mk_Browser {
  session_state : gmap string json;
  requests_sent : list http_request;
  alerts : list alert
}.

(** The browser after one more request. *)
Definition sending (b : Browser) (req : http_request) : Browser :=
  {| session_state := session_state b;
     requests_sent := requests_sent b ++ [req];
     alerts := alerts b |}.

(** A browser session just opened. *)
Definition new_browser : Browser :=
  {| session_state := ∅; requests_sent := []; alerts := [] |}.

(** The values of the widgets in one run: the sidebar's page and Logout
    button; the fields and button of the Login tab and of the Register
    tab; the fields of the form [add_tx_form] and its submit button; the
    refresh button, the row picked for deletion and the delete button. *)
Record Widgets := mk_Widgets {
  page : string;
  logout_button : bool;
  login_email : string;
  login_password : string;
  login_button : bool;
  reg_email : string;
  reg_password : string;
  reg_password2 : string;
  register_button : bool;
  add_tx_type : string;
  add_tx_category : string;
  add_tx_amount : float;
  add_tx_date : date;
  submitted : bool;
  refresh_button : bool;
  selected_row : nat;
  delete_button : bool
}.

(** A step of the script. *)
Definition UI (A : Type) : Type := Browser -> Outcome A * Browser.

Definition ui_ret {A} (a : A) : UI A := fun b => (Returned a, b).

Definition ui_bind {A B} (m : UI A) (k : A -> UI B) : UI B :=
  fun b =>
    match m b with
    | (Returned a, b') => k a b'
    | (Raised e, b') => (Raised e, b')
    end.

Definition ui_lift {A} (o : Outcome A) : UI A := fun b => (o, b).

Declare Scope ui_scope.
Delimit Scope ui_scope with ui.
Notation "x <- m ;; k" := (ui_bind m (fun x => k))
  (at level 100, m at next level, right associativity) : ui_scope.
Notation "m ;;; k" := (ui_bind m (fun _ => k))
  (at level 100, right associativity) : ui_scope.

(** [st.session_state.key]; every key the script reads is assigned by
    the defaults at the head of the script before. *)
Definition state_get (key : string) (s : gmap string json) : json :=
  default JNull (s !! key).

Definition read (key : string) : UI json :=
  fun b => (Returned (state_get key (session_state b)), b).

(** [st.session_state.key = value] *)
Definition assign (key : string) (value : json) : UI unit :=
  fun b =>
    (Returned tt,
     {| session_state := <[key := value]> (session_state b);
        requests_sent := requests_sent b;
        alerts := alerts b |}).

(** [if key not in st.session_state: st.session_state.key = value] *)
Definition assign_default (key : string) (value : json) : UI unit :=
  fun b =>
    match session_state b !! key with
    | Some _ => (Returned tt, b)
    | None => assign key value b
    end.

Definition show (a : alert) : UI unit :=
  fun b =>
    (Returned tt,
     {| session_state := session_state b;
        requests_sent := requests_sent b;
        alerts := alerts b ++ [a] |}).

Definition show_all (l : list alert) : UI unit :=
  fun b =>
    (Returned tt,
     {| session_state := session_state b;
        requests_sent := requests_sent b;
        alerts := alerts b ++ l |}).

(** The truth value of the second component the helpers return: [None],
    or the text of the exception. *)
Definition truthy_err (err : option string) : bool :=
  match err with
  | Some e => negb (String.eqb e "")
  | None => false
  end.

(** That component inside an f-string. *)
Definition err_text (err : option string) : string :=
  match err with
  | Some e => e
  | None => "None"
  end.

(** [st.selectbox(label, options)]: the option picked, the first one
    when the pick is not among them, [None] when there is none. *)
Definition selectbox (options : list json) (picked : nat) : json :=
  match options !! picked with
  | Some v => v
  | None => default JNull (head options)
  end.

Section Frontend.

Local Open Scope ui_scope.

(** The backend as the page meets it: the outcome of the call number
    [n] of the session, which sends the given request. *)
Variable requests_request : nat -> http_request -> sent.

(** [str(j)] for a decoded JSON value that is not text. *)
Variable str_json : json -> string.

(** [pd.DataFrame(transactions)] and [st.dataframe]: they show the
    table or raise. *)
Variable DataFrame : json -> Outcome unit.

(** The filters, metrics and charts of the dashboard drawn from the
    transactions held: the alerts shown, or an exception. *)
Variable dashboard_charts : json -> Outcome (list alert).

(** The stock tracker, which asks [yfinance] and not the backend. *)
Variable stock_tracker : Outcome (list alert).

(** A value inside an f-string. *)
Definition str (j : json) : string :=
  match j with
  | JStr s => s
  | _ => str_json j
  end.

(** [get_auth_headers] *)
Definition get_auth_headers : UI (gmap string string) :=
  access_token <- read "access_token" ;;
  if truthy access_token
  then ui_ret {[ "Authorization" := "Bearer " ++ str access_token ]}
  else ui_ret ∅.

(** A call of [requests]: the request is sent and its outcome is what
    the backend makes of it. *)
Definition requests_call (req : http_request) : UI sent :=
  fun b =>
    (Returned (requests_request (length (requests_sent b)) req),
     sending b req).

(** [api_get] *)
Definition api_get (path : string) : UI (json * option string) :=
  auth_headers <- get_auth_headers ;;
  r <- requests_call {| method := GET; url := BACKEND_URL ++ path;
                        json_body := None; headers := auth_headers |} ;;
  ui_ret (json_or_error r).

(** [api_post] *)
Definition api_post (path : string) (payload : json)
  : UI (json * option string) :=
  auth_headers <- get_auth_headers ;;
  r <- requests_call {| method := POST; url := BACKEND_URL ++ path;
                        json_body := Some payload; headers := auth_headers |} ;;
  ui_ret (json_or_error r).

(** [api_delete] *)
Definition api_delete (path : string) : UI (bool * option string) :=
  auth_headers <- get_auth_headers ;;
  r <- requests_call {| method := DELETE; url := BACKEND_URL ++ path;
                        json_body := None; headers := auth_headers |} ;;
  ui_ret (done_or_error r).

(** [load_transactions_into_state] *)
Definition load_transactions_into_state : UI unit :=
  r <- api_get "/transactions" ;;
  if truthy_err (snd r)
  then show (st_error ("Failed to load transactions from backend: " ++
                       err_text (snd r)))
  else assign "transactions" (fst r).

(** The defaults at the head of the script. *)
Definition session_defaults : UI unit :=
  assign_default "access_token" JNull ;;;
  assign_default "user_email" JNull ;;;
  assign_default "is_authenticated" (JBool false) ;;;
  assign_default "transactions" (JArray []).

(** The sidebar under the page selector. *)
Definition sidebar (w : Widgets) : UI unit :=
  is_authenticated <- read "is_authenticated" ;;
  if truthy is_authenticated then
    user_email <- read "user_email" ;;
    show (sidebar_success ("Logged in as: " ++ str user_email)) ;;;
    if logout_button w then
      assign "access_token" JNull ;;;
      assign "user_email" JNull ;;;
      assign "is_authenticated" (JBool false) ;;;
      assign "transactions" (JArray []) ;;;
      show (sidebar_info "Logged out.")
    else ui_ret tt
  else show (sidebar_info "Not logged in.").

(** The Login tab. *)
Definition login_tab (w : Widgets) : UI unit :=
  if login_button w then
    if String.eqb (login_email w) "" || String.eqb (login_password w) "" then
      show (st_warning "Please enter both email and password.")
    else
      r <- api_post "/auth/login"
             (JObject [("email", JStr (login_email w));
                       ("password", JStr (login_password w))]) ;;
      if truthy_err (snd r) then
        show (st_error ("Login failed: " ++ err_text (snd r)))
      else
        token <- ui_lift (dict_get (fst r) "access_token" JNull) ;;
        if negb (truthy token) then
          show (st_error "Login response did not contain an access_token.")
        else
          assign "access_token" token ;;;
          assign "user_email" (JStr (login_email w)) ;;;
          assign "is_authenticated" (JBool true) ;;;
          show (st_success "✅ Logged in successfully!")
  else ui_ret tt.

(** The Register tab. *)
Definition register_tab (w : Widgets) : UI unit :=
  if register_button w then
    if String.eqb (reg_email w) "" || String.eqb (reg_password w) "" ||
       String.eqb (reg_password2 w) "" then
      show (st_warning "Please fill all fields.")
    else if negb (String.eqb (reg_password w) (reg_password2 w)) then
      show (st_warning "Passwords do not match.")
    else
      r <- api_post "/auth/register"
             (JObject [("email", JStr (reg_email w));
                       ("password", JStr (reg_password w))]) ;;
      if truthy_err (snd r) then
        show (st_error ("Registration failed: " ++ err_text (snd r)))
      else
        show (st_success "🎉 Registration successful! You can now log in.")
  else ui_ret tt.

(** The page "Home". *)
Definition home_page : UI unit :=
  r <- api_get "/health" ;;
  if truthy_err (snd r) then
    show (st_error ("Backend health check failed: " ++ err_text (snd r)))
  else
    status <- ui_lift (dict_get (fst r) "status" (JStr "unknown")) ;;
    show (st_success ("Backend status: " ++ str status)).

(** The page "Add Transaction": the form, the refresh button, and the
    table with its delete section. *)
Definition add_transaction_page (w : Widgets) : UI unit :=
  (if submitted w then
     if String.eqb (add_tx_category w) "" ||
        PrimFloat.leb (add_tx_amount w) 0%float then
       show (st_warning "Please provide a valid category and amount > 0.")
     else
       r <- api_post "/transactions"
              (JObject [("type", JStr (add_tx_type w));
                        ("category", JStr (add_tx_category w));
                        ("amount", JFloat (add_tx_amount w));
                        ("date", JStr (isoformat (add_tx_date w)))]) ;;
       if truthy_err (snd r) then
         show (st_error ("Failed to create transaction: " ++ err_text (snd r)))
       else
         show (st_success "✅ Transaction added successfully.") ;;;
         load_transactions_into_state
   else ui_ret tt) ;;;
  (if refresh_button w then load_transactions_into_state else ui_ret tt) ;;;
  transactions <- read "transactions" ;;
  if truthy transactions then
    _ <- ui_lift (DataFrame transactions) ;;
    ids <- ui_lift (ids_of transactions) ;;
    if delete_button w then
      r <- api_delete ("/transactions/" ++ str (selectbox ids (selected_row w))) ;;
      if truthy_err (snd r) || negb (fst r) then
        show (st_error ("Failed to delete: " ++ err_text (snd r)))
      else
        show (st_success ("✅ Deleted transaction with id=" ++
                          str (selectbox ids (selected_row w)))) ;;;
        load_transactions_into_state
    else ui_ret tt
  else show (st_info "No transactions yet. Add your first one above.").

(** The page "Dashboard". *)
Definition dashboard_page : UI unit :=
  transactions <- read "transactions" ;;
  (if negb (truthy transactions) then load_transactions_into_state
   else ui_ret tt) ;;;
  transactions <- read "transactions" ;;
  if negb (truthy transactions) then
    show (st_warning "No transactions found in backend. Add some first.")
  else
    shown <- ui_lift (dashboard_charts transactions) ;;
    show_all shown.

(** One run of the script. *)
Definition script (w : Widgets) : UI unit :=
  session_defaults ;;;
  sidebar w ;;;
  if String.eqb (page w) "Login / Register" then
    login_tab w ;;;
    register_tab w
  else
    is_authenticated <- read "is_authenticated" ;;
    if negb (truthy is_authenticated) then
      show (st_warning
              "You must be logged in to access this page. Go to 'Login / Register' first.")
    else if String.eqb (page w) "Home" then home_page
    else if String.eqb (page w) "Add Transaction" then add_transaction_page w
    else if String.eqb (page w) "Dashboard" then dashboard_page
    else if String.eqb (page w) "Stock Tracker" then
      shown <- ui_lift stock_tracker ;;
      show_all shown
    else ui_ret tt.

(** The browser after a sequence of runs. *)
Fixpoint runs (ws : list Widgets) (b : Browser) : Browser :=
  match ws with
  | [] => b
  | w :: ws' => runs ws' (snd (script w b))
  end.

End Frontend.

(** The headers [get_auth_headers] builds in a session state. *)
Definition auth_headers_in (str_json : json -> string) (s : gmap string json)
  : gmap string string :=
  match fst (get_auth_headers str_json
               {| session_state := s; requests_sent := []; alerts := [] |}) with
  | Returned h => h
  | Raised _ => ∅
  end.

(** The session state is that of a user who is logged out, or that of a
    user who is logged in under a token and an email. *)
Definition logged_out (s : gmap string json) : Prop :=
  s !! "is_authenticated" = Some (JBool false) /\
  s !! "access_token" = Some JNull /\
  s !! "user_email" = Some JNull /\
  s !! "transactions" = Some (JArray []).

Definition logged_in (s : gmap string json) : Prop :=
  s !! "is_authenticated" = Some (JBool true) /\
  (exists token, s !! "access_token" = Some token /\ truthy token = true) /\
  (exists email, s !! "user_email" = Some (JStr email) /\ email <> "") /\
  is_Some (s !! "transactions").

(** The request carries a bearer token in its [Authorization] header
    and no other header. *)
Definition authorized (req : http_request) : Prop :=
  exists token, headers req = {[ "Authorization" := "Bearer " ++ token ]}.

(** A request to one of the two routes of [/auth], with an email and a
    password that are not empty. *)
Definition auth_request (req : http_request) : Prop :=
  method req = POST /\
  exists route email password,
    (route = "/auth/login" \/ route = "/auth/register") /\
    url req = BACKEND_URL ++ route /\
    json_body req =
      Some (JObject [("email", JStr email); ("password", JStr password)]) /\
    email <> "" /\ password <> "".

(** A request for the transactions or the health of the backend. *)
Definition data_request (req : http_request) : Prop :=
  (method req = GET /\ url req = BACKEND_URL ++ "/health" /\
   json_body req = None) \/
  (method req = GET /\ url req = BACKEND_URL ++ "/transactions" /\
   json_body req = None) \/
  (method req = POST /\ url req = BACKEND_URL ++ "/transactions" /\
   exists type category amount d,
     json_body req =
       Some (JObject [("type", JStr type); ("category", JStr category);
                      ("amount", JFloat amount); ("date", JStr (isoformat d))]) /\
     category <> "" /\ PrimFloat.leb amount 0%float = false) \/
  (method req = DELETE /\ json_body req = None /\
   exists id, url req = BACKEND_URL ++ "/transactions/" ++ id).

(** The session state of a run that has passed the defaults. *)
Definition session_ok (s : gmap string json) : Prop :=
  logged_out s \/ logged_in s.

(** A request for data under a bearer token. *)
Definition data_ok (req : http_request) : Prop :=
  authorized req /\ data_request req.

(** A request the page may send: to [/auth] with an email and a
    password, or for data under a bearer token. *)
Definition request_ok (req : http_request) : Prop :=
  auth_request req \/ data_ok req.

(** From [b] to [b'] the requests sent have grown by requests that
    satisfy [P]. *)
Definition extends (P : http_request -> Prop) (b b' : Browser) : Prop :=
  exists new, requests_sent b' = (requests_sent b ++ new)%list /\ Forall P new.

(** The step keeps the session state within [I] and sends requests
    within [P] only, whether it returns or raises. *)
Definition keeps {A} (I : gmap string json -> Prop)
  (P : http_request -> Prop) (m : UI A) : Prop :=
  forall b,
    I (session_state b) ->
    I (session_state (snd (m b))) /\ extends P b (snd (m b)).

Module SamplePage.

(** A backend that answers every request with the status 500. *)
Definition failing (n : nat) (req : http_request) : sent :=
  Received {| resp_status_code := 500;
              resp_reason := "Internal Server Error";
              resp_url := url req;
              resp_json := inr "Expecting value: line 1 column 1 (char 0)" |}.

(** A backend that answers every request with a token. *)
Definition granting (n : nat) (req : http_request) : sent :=
  Received {| resp_status_code := 200;
              resp_reason := "OK";
              resp_url := url req;
              resp_json := inl (JObject [("access_token", JStr "t0k3n");
                                         ("token_type", JStr "bearer")]) |}.

(** The text of the integers 0 to 9, of [None] and of the truth
    values. *)
Definition str_json (j : json) : string :=
  match j with
  | JInt n => if (0 <=? n) && (n <? 10) then zero_padded 1 n else "?"
  | JBool true => "True"
  | JBool false => "False"
  | JNull => "None"
  | _ => "?"
  end.

(** Tables and charts that are drawn without an alert. *)
Definition DataFrame (j : json) : Outcome unit := Returned tt.
Definition dashboard_charts (j : json) : Outcome (list alert) := Returned [].
Definition stock_tracker : Outcome (list alert) := Returned [].

(** A user who looks at a page and presses nothing. *)
Definition looking_at (name : string) : Widgets :=
  {| page := name; logout_button := false;
     login_email := ""; login_password := ""; login_button := false;
     reg_email := ""; reg_password := ""; reg_password2 := "";
     register_button := false;
     add_tx_type := "Income"; add_tx_category := "";
     add_tx_amount := 0%float; add_tx_date := mk_date 2025 1 10;
     submitted := false; refresh_button := false;
     selected_row := 0%nat; delete_button := false |}.

(** Alice presses Login. *)
Definition alice_logs_in : Widgets :=
  {| page := "Login / Register"; logout_button := false;
     login_email := "alice@example.com"; login_password := "hunter2";
     login_button := true;
     reg_email := ""; reg_password := ""; reg_password2 := "";
     register_button := false;
     add_tx_type := "Income"; add_tx_category := "";
     add_tx_amount := 0%float; add_tx_date := mk_date 2025 1 10;
     submitted := false; refresh_button := false;
     selected_row := 0%nat; delete_button := false |}.

(** Bob presses Register, the confirmation mistyped. *)
Definition bob_registers : Widgets :=
  {| page := "Login / Register"; logout_button := false;
     login_email := ""; login_password := ""; login_button := false;
     reg_email := "bob@example.com"; reg_password := "hunter2";
     reg_password2 := "hunter3";
     register_button := true;
     add_tx_type := "Income"; add_tx_category := "";
     add_tx_amount := 0%float; add_tx_date := mk_date 2025 1 10;
     submitted := false; refresh_button := false;
     selected_row := 0%nat; delete_button := false |}.

(** Alice presses the delete button of the page "Add Transaction". *)
Definition alice_deletes : Widgets :=
  {| page := "Add Transaction"; logout_button := false;
     login_email := ""; login_password := ""; login_button := false;
     reg_email := ""; reg_password := ""; reg_password2 := "";
     register_button := false;
     add_tx_type := "Income"; add_tx_category := "";
     add_tx_amount := 0%float; add_tx_date := mk_date 2025 1 10;
     submitted := false; refresh_button := false;
     selected_row := 0%nat; delete_button := true |}.

(** Her session, which holds one row. *)
Definition alice_session : Browser :=
  {| session_state :=
       {[ "access_token" := JStr "t0k3n";
          "user_email" := JStr "alice@example.com";
          "is_authenticated" := JBool true;
          "transactions" :=
            JArray [JObject [("id", JInt 3); ("type", JStr "Expense");
                             ("category", JStr "Rent");
                             ("amount", JFloat 900%float);
                             ("date", JStr "2025-01-01")]] ]};
     requests_sent := [];
     alerts := [] |}.

End SamplePage.

(** * Properties *)

(** ** Dates and the ordering of a query *)

Lemma date_leb_spec (a b : date) :
  date_leb a b = true <->
  year a < year b \/
  (year a = year b /\
   (month a < month b \/ (month a = month b /\ day a <= day b))).
Proof.
  unfold date_leb, date_compare.
  destruct (Z.compare_spec (year a) (year b));
    destruct (Z.compare_spec (month a) (month b));
    destruct (Z.compare_spec (day a) (day b));
    split; intros; try discriminate; try reflexivity; lia.
Qed.

Lemma date_leb_total (a b : date) :
  date_leb a b = false -> date_leb b a = true.
Proof.
  intros Hab. apply date_leb_spec.
  destruct (date_leb b a) eqn:Hba.
  - apply date_leb_spec in Hba. exact Hba.
  - assert (Ha : ~ date_leb a b = true) by congruence.
    assert (Hb : ~ date_leb b a = true) by congruence.
    rewrite date_leb_spec in Ha, Hb. lia.
Qed.

Lemma date_leb_trans (a b c : date) :
  date_leb a b = true -> date_leb b c = true -> date_leb a c = true.
Proof. rewrite !date_leb_spec. lia. Qed.

Lemma date_leb_antisym (a b : date) :
  date_leb a b = true -> date_leb b a = true -> a = b.
Proof.
  rewrite !date_leb_spec. destruct a, b; simpl. intros.
  f_equal; lia.
Qed.

Lemma insert_desc_Permutation (t : Transaction) (l : list Transaction) :
  Permutation (insert_desc t l) (t :: l).
Proof.
  induction l as [|u l IH]; simpl.
  - reflexivity.
  - destruct (date_leb (tx_date t) (tx_date u)).
    + rewrite IH. apply perm_swap.
    + reflexivity.
Qed.

Lemma insert_desc_sorted (t : Transaction) (l : list Transaction) :
  StronglySorted date_desc l -> StronglySorted date_desc (insert_desc t l).
Proof.
  induction 1 as [|u l Hs IH Hall]; simpl.
  - repeat constructor.
  - destruct (date_leb (tx_date t) (tx_date u)) eqn:Htu.
    + constructor; [exact IH|].
      eapply Permutation_Forall.
      * symmetry. apply insert_desc_Permutation.
      * constructor; [exact Htu | exact Hall].
    + apply date_leb_total in Htu.
      constructor.
      * constructor; assumption.
      * constructor; [exact Htu|].
        eapply List.Forall_impl; [|exact Hall].
        intros v Huv. unfold date_desc in *.
        eapply date_leb_trans; eassumption.
Qed.

Lemma order_by_date_desc_Permutation (l : list Transaction) :
  Permutation (order_by_date_desc l) l.
Proof.
  unfold order_by_date_desc.
  rewrite (Permutation_rev l) at 2.
  induction (rev l) as [|t r IH]; simpl.
  - reflexivity.
  - rewrite insert_desc_Permutation. constructor. exact IH.
Qed.

Lemma order_by_date_desc_sorted (l : list Transaction) :
  StronglySorted date_desc (order_by_date_desc l).
Proof.
  unfold order_by_date_desc.
  induction (rev l) as [|t r IH]; simpl.
  - constructor.
  - apply insert_desc_sorted. exact IH.
Qed.

(** Listings of dates by falling date are determined by their elements. *)
Lemma falling_dates_unique (l1 l2 : list date) :
  StronglySorted (fun a b => date_leb b a = true) l1 ->
  StronglySorted (fun a b => date_leb b a = true) l2 ->
  Permutation l1 l2 ->
  l1 = l2.
Proof.
  intros H1; revert l2.
  induction H1 as [|a l1 Hs1 IH Hall1]; intros l2 H2 Hp.
  - apply Permutation_nil in Hp. subst. reflexivity.
  - destruct l2 as [|b l2].
    + symmetry in Hp. apply Permutation_nil in Hp. discriminate.
    + inversion H2 as [|b' l2' Hs2 Hall2]; subst.
      rewrite List.Forall_forall in Hall1, Hall2.
      assert (Hab : a = b).
      { apply date_leb_antisym.
        - assert (Hin : In a (b :: l2))
            by (eapply Permutation_in; [exact Hp | left; reflexivity]).
          destruct Hin as [->|Hin]; [apply date_leb_spec; lia|].
          apply (Hall2 a Hin).
        - assert (Hin : In b (a :: l1))
            by (eapply Permutation_in;
                [symmetry; exact Hp | left; reflexivity]).
          destruct Hin as [->|Hin]; [apply date_leb_spec; lia|].
          apply (Hall1 b Hin). }
      subst b. f_equal. apply IH; [exact Hs2|].
      eapply Permutation_cons_inv. exact Hp.
Qed.

Lemma date_desc_map (l : list Transaction) :
  StronglySorted date_desc l ->
  StronglySorted (fun a b => date_leb b a = true) (map tx_date l).
Proof.
  induction 1 as [|a l Hs IH Hall]; simpl; constructor.
  - exact IH.
  - rewrite List.Forall_forall in *. intros d Hd.
    apply in_map_iff in Hd. destruct Hd as [t [<- Ht]].
    apply (Hall t Ht).
Qed.

(** Two listings of the same rows by falling date carry the same dates
    position by position: how ties are broken does not show in them. *)
Lemma sorted_dates_unique (l1 l2 : list Transaction) :
  StronglySorted date_desc l1 -> StronglySorted date_desc l2 ->
  Permutation l1 l2 ->
  map tx_date l1 = map tx_date l2.
Proof.
  intros H1 H2 Hp.
  apply falling_dates_unique; try (apply date_desc_map; assumption).
  apply Permutation_map. exact Hp.
Qed.

(** ** The request scope *)

Lemma Depends_get_db_run {A} (endpoint : M A) (env : Env) (w : World) :
  Depends_get_db endpoint env w =
  (fst (endpoint env (fresh_session w)),
   after_request w (snd (endpoint env (fresh_session w)))).
Proof.
  unfold Depends_get_db, get_db_next, SessionLocal, on_session. simpl.
  rewrite lookup_insert_eq. fold (fresh_session w).
  destruct (endpoint env (fresh_session w)) as [r s'].
  destruct r as [a|e]; simpl; unfold close, after_request; simpl;
    rewrite lookup_insert_eq, !delete_insert_eq, <- app_assoc; reflexivity.
Qed.

Lemma closes_of_app (sid : nat) (l1 l2 : list session_event) :
  closes_of sid (l1 ++ l2) = (closes_of sid l1 + closes_of sid l2)%nat.
Proof. unfold closes_of. rewrite List.filter_app, length_app. reflexivity. Qed.

Lemma opens_of_app (sid : nat) (l1 l2 : list session_event) :
  opens_of sid (l1 ++ l2) = (opens_of sid l1 + opens_of sid l2)%nat.
Proof. unfold opens_of. rewrite List.filter_app, length_app. reflexivity. Qed.

(** ** Primary keys *)

Lemma next_rowid_above (ids : list Z) (i : Z) :
  In i ids -> i < next_rowid ids.
Proof.
  unfold next_rowid. induction ids as [|j ids IH]; simpl.
  - intros [].
  - intros [->|Hin]; [lia|]. specialize (IH Hin). lia.
Qed.

Lemma next_rowid_fresh (ids : list Z) : ~ In (next_rowid ids) ids.
Proof. intros Hin. apply next_rowid_above in Hin. lia. Qed.

Lemma next_rowid_positive (ids : list Z) : 0 < next_rowid ids.
Proof.
  unfold next_rowid. induction ids as [|j ids IH]; simpl; lia.
Qed.

Lemma find_new_Transaction (l : list Transaction) (t : Transaction) :
  tx_id t = next_rowid (map tx_id l) ->
  find (fun u => tx_id u =? next_rowid (map tx_id l)) (l ++ [t]) = Some t.
Proof.
  intros Hk. rewrite <- Hk.
  assert (Hfresh : forall u, In u l -> tx_id u <> tx_id t).
  { intros u Hu. rewrite Hk.
    pose proof (next_rowid_above (map tx_id l) (tx_id u) (in_map _ _ _ Hu)).
    lia. }
  clear Hk. induction l as [|u l IH]; simpl.
  - rewrite Z.eqb_refl. reflexivity.
  - destruct (Z.eqb_spec (tx_id u) (tx_id t)) as [Heq|_].
    + exfalso. apply (Hfresh u); [left; reflexivity | exact Heq].
    + apply IH. intros v Hv. apply Hfresh. right. exact Hv.
Qed.

Lemma find_new_User (l : list User) (u : User) :
  user_id u = next_rowid (map user_id l) ->
  find (fun v => user_id v =? next_rowid (map user_id l)) (l ++ [u]) = Some u.
Proof.
  intros Hk. rewrite <- Hk.
  assert (Hfresh : forall v, In v l -> user_id v <> user_id u).
  { intros v Hv. rewrite Hk.
    pose proof (next_rowid_above (map user_id l) (user_id v) (in_map _ _ _ Hv)).
    lia. }
  clear Hk. induction l as [|v l IH]; simpl.
  - rewrite Z.eqb_refl. reflexivity.
  - destruct (Z.eqb_spec (user_id v) (user_id u)) as [Heq|_].
    + exfalso. apply (Hfresh v); [left; reflexivity | exact Heq].
    + apply IH. intros x Hx. apply Hfresh. right. exact Hx.
Qed.

(** ** Queries by key and by email *)

Lemma first_filter_None {A} (f : A -> bool) (l : list A) :
  first (List.filter f l) = None <-> (forall x, In x l -> f x = false).
Proof.
  unfold first. induction l as [|a l IH]; simpl.
  - split; [intros _ x [] | reflexivity].
  - destruct (f a) eqn:Ha; simpl.
    + split; [discriminate|].
      intros H. specialize (H a (or_introl eq_refl)). congruence.
    + rewrite IH. split.
      * intros H x [->|Hx]; [exact Ha | apply H; exact Hx].
      * intros H x Hx. apply H. right. exact Hx.
Qed.

Lemma first_filter_Some {A} (f : A -> bool) (l : list A) (x : A) :
  first (List.filter f l) = Some x -> In x l /\ f x = true.
Proof.
  unfold first. intros H.
  assert (Hin : In x (List.filter f l)).
  { destruct (List.filter f l); [discriminate|].
    injection H as ->. left. reflexivity. }
  apply List.filter_In in Hin. exact Hin.
Qed.

Lemma email_unregistered_first (e : string) (us : list User) :
  ~ In e (map user_email us) ->
  first (List.filter (fun u => String.eqb (user_email u) e) us) = None.
Proof.
  intros Hn. apply first_filter_None. intros u Hu.
  apply String.eqb_neq. intros Heq. apply Hn. rewrite <- Heq.
  apply in_map. exact Hu.
Qed.

Lemma email_registered_first (e : string) (us : list User) :
  In e (map user_email us) ->
  exists u,
    first (List.filter (fun u => String.eqb (user_email u) e) us) = Some u /\
    In u us /\ user_email u = e.
Proof.
  intros Hin.
  destruct (first (List.filter (fun u => String.eqb (user_email u) e) us))
    as [u|] eqn:Hf.
  - exists u. split; [reflexivity|].
    apply first_filter_Some in Hf. destruct Hf as [Hu He].
    apply String.eqb_eq in He. split; assumption.
  - exfalso. rewrite first_filter_None in Hf.
    apply in_map_iff in Hin. destruct Hin as [u [He Hu]].
    specialize (Hf u Hu). apply String.eqb_neq in Hf. contradiction.
Qed.

Lemma email_unregistered_existsb (e : string) (us : list User) :
  ~ In e (map user_email us) ->
  existsb (String.eqb e) (map user_email us) = false.
Proof.
  intros Hn. destruct (existsb (String.eqb e) (map user_email us)) eqn:Hex;
    [|reflexivity].
  apply existsb_exists in Hex. destruct Hex as [x [Hx He]].
  apply String.eqb_eq in He. subst x. contradiction.
Qed.

Lemma id_absent_first (id : Z) (ts : list Transaction) :
  ~ In id (map tx_id ts) ->
  first (List.filter (fun t => tx_id t =? id) ts) = None.
Proof.
  intros Hn. apply first_filter_None. intros t Ht.
  apply Z.eqb_neq. intros Heq. apply Hn. rewrite <- Heq.
  apply in_map. exact Ht.
Qed.

(** Deleting the key just given to a new last row gives the table back. *)
Lemma filter_out_new (l : list Transaction) (t : Transaction) :
  tx_id t = next_rowid (map tx_id l) ->
  List.filter (fun u => negb (tx_id u =? tx_id t)) (l ++ [t]) = l.
Proof.
  intros Hk. rewrite List.filter_app. simpl. rewrite Z.eqb_refl. simpl.
  rewrite app_nil_r.
  assert (Hfresh : forall u, In u l -> tx_id u <> tx_id t).
  { intros u Hu. rewrite Hk.
    pose proof (next_rowid_above (map tx_id l) (tx_id u) (in_map _ _ _ Hu)).
    lia. }
  clear Hk. induction l as [|u l IH]; simpl; [reflexivity|].
  destruct (Z.eqb_spec (tx_id u) (tx_id t)) as [Heq|_]; simpl.
  - exfalso. apply (Hfresh u); [left; reflexivity | exact Heq].
  - f_equal. apply IH. intros v Hv. apply Hfresh. right. exact Hv.
Qed.

(** ** The endpoints on a request's session *)

Lemma create_transaction_run (tx : TransactionCreate) (env : Env) (w : World) :
  is_nan (tc_amount tx) = false ->
  create_transaction tx env (fresh_session w) =
  (Returned (new_Transaction (database w) tx),
   committed (with_Transaction (database w) (new_Transaction (database w) tx))).
Proof.
  intros Hamount.
  unfold create_transaction, bind, db_add, db_commit, db_refresh_Transaction,
    fresh_session. simpl. rewrite Hamount. simpl.
  change (mk_Transaction _ _ _ _ _) with (new_Transaction (database w) tx).
  rewrite (find_new_Transaction (transactions (database w))
             (new_Transaction (database w) tx) eq_refl).
  reflexivity.
Qed.

Lemma list_transactions_run (env : Env) (w : World) :
  list_transactions env (fresh_session w) =
  (Returned (order_by_date_desc (transactions (database w))), fresh_session w).
Proof. reflexivity. Qed.

Lemma delete_transaction_absent (id : Z) (env : Env) (w : World) :
  sqlite_int id = true ->
  ~ In id (map tx_id (transactions (database w))) ->
  delete_transaction id env (fresh_session w) =
  (Raised (HTTPException 404 "Transaction not found"), fresh_session w).
Proof.
  intros Hid Hn.
  unfold delete_transaction, bind, filter_id, query_Transaction. simpl.
  rewrite Hid, (id_absent_first id _ Hn). reflexivity.
Qed.

Lemma delete_transaction_present (id : Z) (env : Env) (w : World) :
  sqlite_int id = true ->
  In id (map tx_id (transactions (database w))) ->
  delete_transaction id env (fresh_session w) =
  (Returned tt, committed (without_Transaction (database w) id)).
Proof.
  intros Hint Hin.
  unfold delete_transaction, bind, filter_id, query_Transaction. simpl.
  rewrite Hint.
  destruct (first (List.filter (fun t => tx_id t =? id)
                     (transactions (database w)))) as [t|] eqn:Hf.
  - apply first_filter_Some in Hf. destruct Hf as [_ Hid].
    apply Z.eqb_eq in Hid.
    unfold db_delete, db_add, db_commit. simpl. rewrite Hid. reflexivity.
  - exfalso. rewrite first_filter_None in Hf.
    apply in_map_iff in Hin. destruct Hin as [t [Hid Ht]].
    specialize (Hf t Ht). apply Z.eqb_neq in Hf. contradiction.
Qed.

(** ** Where the store refuses a value

    The premises of the statements on amounts and keys mark the values
    the store takes; outside them the call raises and the store keeps
    its rows. *)

Lemma sqlite_real_not_nan (x : float) :
  is_nan x = false -> is_nan (sqlite_real x) = false.
Proof.
  intros H. unfold sqlite_real. destruct (PrimFloat.eqb x 0); [reflexivity|exact H].
Qed.

Lemma create_transaction_nan (tx : TransactionCreate) (env : Env) (w : World) :
  is_nan (tc_amount tx) = true ->
  create_transaction tx env (fresh_session w) =
  (Raised (PyException "IntegrityError"
             "NOT NULL constraint failed: transactions.amount"),
   fresh_session w).
Proof.
  intros Hamount.
  unfold create_transaction, bind, db_add, db_commit, fresh_session. simpl.
  rewrite Hamount. reflexivity.
Qed.

Lemma delete_transaction_overflow (id : Z) (env : Env) (w : World) :
  sqlite_int id = false ->
  delete_transaction id env (fresh_session w) =
  (Raised OverflowError, fresh_session w).
Proof.
  intros Hid.
  unfold delete_transaction, bind, filter_id, query_Transaction. simpl.
  rewrite Hid. reflexivity.
Qed.

(** ** The routes *)

Lemma POST_transactions_run (tx : TransactionCreate) (env : Env) (w : World) :
  is_nan (tc_amount tx) = false ->
  POST_transactions tx env w =
  (Returned (new_Transaction (database w) tx),
   after_request w
     (committed (with_Transaction (database w)
                   (new_Transaction (database w) tx)))).
Proof.
  intros Hamount. unfold POST_transactions. rewrite Depends_get_db_run.
  rewrite (create_transaction_run tx env w Hamount). reflexivity.
Qed.

Lemma GET_transactions_run (env : Env) (w : World) :
  GET_transactions env w =
  (Returned (order_by_date_desc (transactions (database w))),
   after_request w (fresh_session w)).
Proof.
  unfold GET_transactions. rewrite Depends_get_db_run.
  rewrite list_transactions_run. reflexivity.
Qed.

Lemma DELETE_transactions_absent (id : Z) (env : Env) (w : World) :
  sqlite_int id = true ->
  ~ In id (map tx_id (transactions (database w))) ->
  DELETE_transactions id env w =
  (Raised (HTTPException 404 "Transaction not found"),
   after_request w (fresh_session w)).
Proof.
  intros Hid Hn. unfold DELETE_transactions. rewrite Depends_get_db_run.
  rewrite (delete_transaction_absent id env w Hid Hn). reflexivity.
Qed.

Lemma DELETE_transactions_present (id : Z) (env : Env) (w : World) :
  sqlite_int id = true ->
  In id (map tx_id (transactions (database w))) ->
  DELETE_transactions id env w =
  (Returned tt,
   after_request w (committed (without_Transaction (database w) id))).
Proof.
  intros Hid Hin. unfold DELETE_transactions. rewrite Depends_get_db_run.
  rewrite (delete_transaction_present id env w Hid Hin). reflexivity.
Qed.

Lemma DELETE_transactions_overflow (id : Z) (env : Env) (w : World) :
  sqlite_int id = false ->
  DELETE_transactions id env w =
  (Raised OverflowError, after_request w (fresh_session w)).
Proof.
  intros Hid. unfold DELETE_transactions. rewrite Depends_get_db_run.
  rewrite (delete_transaction_overflow id env w Hid). reflexivity.
Qed.

Lemma POST_transactions_nan (tx : TransactionCreate) (env : Env) (w : World) :
  is_nan (tc_amount tx) = true ->
  POST_transactions tx env w =
  (Raised (PyException "IntegrityError"
             "NOT NULL constraint failed: transactions.amount"),
   after_request w (fresh_session w)).
Proof.
  intros Hamount. unfold POST_transactions. rewrite Depends_get_db_run.
  rewrite (create_transaction_nan tx env w Hamount). reflexivity.
Qed.

(** C1. [list_transactions] returns every stored transaction, latest date
    first: the listing is a rearrangement of the table in which no row is
    followed by a row of a later date, and the store is left as it was.
    Any other such listing shows the same dates in the same positions, so
    only rows of one date can change places.  In particular, in a store
    without transactions, payloads dated 2024-01-01, 2024-03-01 and
    2024-02-01 that are inserted in that order are listed as the second,
    the third, the first. *)
Theorem list_transactions_date_descending :
  (forall (env : Env) (w : World),
     exists l,
       GET_transactions env w = (Returned l, after_request w (fresh_session w)) /\
       database (after_request w (fresh_session w)) = database w /\
       Permutation l (transactions (database w)) /\
       StronglySorted date_desc l /\
       forall l',
         Permutation l' (transactions (database w)) ->
         StronglySorted date_desc l' ->
         map tx_date l' = map tx_date l) /\
  (forall (e1 e2 e3 e4 : Env) (w : World) (p1 p2 p3 : TransactionCreate),
     transactions (database w) = [] ->
     dt_date (tc_date p1) = mk_date 2024 1 1 ->
     dt_date (tc_date p2) = mk_date 2024 3 1 ->
     dt_date (tc_date p3) = mk_date 2024 2 1 ->
     is_nan (tc_amount p1) = false ->
     is_nan (tc_amount p2) = false ->
     is_nan (tc_amount p3) = false ->
     exists t1 t2 t3 w1 w2 w3 w4,
       POST_transactions p1 e1 w = (Returned t1, w1) /\
       POST_transactions p2 e2 w1 = (Returned t2, w2) /\
       POST_transactions p3 e3 w2 = (Returned t3, w3) /\
       GET_transactions e4 w3 = (Returned [t2; t3; t1], w4) /\
       map tx_date [t2; t3; t1] =
         [mk_date 2024 3 1; mk_date 2024 2 1; mk_date 2024 1 1]).
Proof.
  split.
  - intros env w. exists (order_by_date_desc (transactions (database w))).
    split; [apply GET_transactions_run|].
    split; [reflexivity|].
    split; [apply order_by_date_desc_Permutation|].
    split; [apply order_by_date_desc_sorted|].
    intros l' Hp Hs. apply sorted_dates_unique.
    + exact Hs.
    + apply order_by_date_desc_sorted.
    + rewrite Hp. symmetry. apply order_by_date_desc_Permutation.
  - intros e1 e2 e3 e4 w p1 p2 p3 Hw H1 H2 H3 Ha1 Ha2 Ha3.
    set (t1 := new_Transaction (database w) p1).
    set (w1 := after_request w (committed (with_Transaction (database w) t1))).
    set (t2 := new_Transaction (database w1) p2).
    set (w2 := after_request w1 (committed (with_Transaction (database w1) t2))).
    set (t3 := new_Transaction (database w2) p3).
    set (w3 := after_request w2 (committed (with_Transaction (database w2) t3))).
    exists t1, t2, t3, w1, w2, w3, (after_request w3 (fresh_session w3)).
    split; [exact (POST_transactions_run p1 e1 w Ha1)|].
    split; [exact (POST_transactions_run p2 e2 w1 Ha2)|].
    split; [exact (POST_transactions_run p3 e3 w2 Ha3)|].
    assert (Hd1 : tx_date t1 = mk_date 2024 1 1) by exact H1.
    assert (Hd2 : tx_date t2 = mk_date 2024 3 1) by exact H2.
    assert (Hd3 : tx_date t3 = mk_date 2024 2 1) by exact H3.
    split.
    + rewrite GET_transactions_run. f_equal. f_equal.
      change (transactions (database w3))
        with (((transactions (database w) ++ [t1]) ++ [t2]) ++ [t3])%list.
      rewrite Hw. clearbody t1 t2 t3.
      unfold order_by_date_desc. simpl.
      repeat first [rewrite Hd1 | rewrite Hd2 | rewrite Hd3 | progress simpl].
      reflexivity.
    + clearbody t1 t2 t3. simpl. rewrite Hd1, Hd2, Hd3. reflexivity.
Qed.

(** C4. Deleting an identifier that no stored transaction carries does
    not always raise the 404 [HTTPException]: for an identifier outside
    the 64 bits of a key, binding it to the query raises [OverflowError],
    which reaches the caller as a server error and not as "Transaction
    not found".  The store is left as it was. *)
Theorem delete_transaction_oversize_id
  (id : Z) (env : Env) (w : World)
  (Hid : sqlite_int id = false)
  (Habsent : ~ In id (map tx_id (transactions (database w)))) :
  fst (DELETE_transactions id env w) = Raised OverflowError /\
  fst (DELETE_transactions id env w) <>
    Raised (HTTPException 404 "Transaction not found") /\
  database (snd (DELETE_transactions id env w)) = database w.
Proof.
  rewrite (DELETE_transactions_overflow id env w Hid). simpl.
  split; [reflexivity|]. split; [discriminate | reflexivity].
Qed.

(** C5. Creating a transaction whose amount is not NaN (the table with
    a key left for it) returns the stored row with its new identifier,
    the payload's type and category and the amount as the store gives it
    back, and a listing then contains that row; deleting that identifier
    succeeds, and a listing then contains neither the row nor any row
    with its identifier (the table is again what it was before the
    creation). *)
Theorem create_list_delete_list
  (e1 e2 e3 e4 : Env) (w : World) (tx : TransactionCreate)
  (Hamount : is_nan (tc_amount tx) = false)
  (Hkey : sqlite_int (next_rowid (map tx_id (transactions (database w)))) = true) :
  exists t w1 l1 w2 w3 l2 w4,
    POST_transactions tx e1 w = (Returned t, w1) /\
    tx_type t = tc_type tx /\
    tx_category t = tc_category tx /\
    tx_amount t = sqlite_real (tc_amount tx) /\
    (PrimFloat.eqb (tc_amount tx) 0 = false -> tx_amount t = tc_amount tx) /\
    ~ In (tx_id t) (map tx_id (transactions (database w))) /\
    GET_transactions e2 w1 = (Returned l1, w2) /\
    In t l1 /\
    DELETE_transactions (tx_id t) e3 w2 = (Returned tt, w3) /\
    GET_transactions e4 w3 = (Returned l2, w4) /\
    ~ In t l2 /\
    ~ In (tx_id t) (map tx_id l2) /\
    transactions (database w3) = transactions (database w).
Proof.
  set (t := new_Transaction (database w) tx).
  set (w1 := after_request w (committed (with_Transaction (database w) t))).
  set (w2 := after_request w1 (fresh_session w1)).
  set (w3 := after_request w2
               (committed (without_Transaction (database w2) (tx_id t)))).
  assert (Hfresh : ~ In (tx_id t) (map tx_id (transactions (database w))))
    by apply next_rowid_fresh.
  assert (Hback : transactions (database w3) = transactions (database w)).
  { change (transactions (database w3))
      with (List.filter (fun u => negb (tx_id u =? tx_id t))
              (transactions (database w) ++ [t])%list).
    apply filter_out_new. reflexivity. }
  assert (Hids : ~ In (tx_id t)
                   (map tx_id (order_by_date_desc (transactions (database w3))))).
  { rewrite Hback. intros Hin. apply Hfresh.
    eapply Permutation_in; [|exact Hin].
    apply Permutation_map. apply order_by_date_desc_Permutation. }
  exists t, w1, (order_by_date_desc (transactions (database w1))), w2, w3,
    (order_by_date_desc (transactions (database w3))),
    (after_request w3 (fresh_session w3)).
  split; [exact (POST_transactions_run tx e1 w Hamount)|].
  split; [reflexivity|]. split; [reflexivity|]. split; [reflexivity|].
  split.
  { intros Hnonzero. unfold t, new_Transaction, sqlite_real. simpl.
    rewrite Hnonzero. reflexivity. }
  split; [exact Hfresh|].
  split; [apply GET_transactions_run|].
  split.
  { eapply Permutation_in.
    - symmetry. apply order_by_date_desc_Permutation.
    - change (transactions (database w1))
        with (transactions (database w) ++ [t])%list.
      apply in_or_app. right. left. reflexivity. }
  split.
  { apply DELETE_transactions_present; [exact Hkey|].
    change (transactions (database w2))
      with (transactions (database w) ++ [t])%list.
    rewrite map_app. apply in_or_app. right. left. reflexivity. }
  split; [apply GET_transactions_run|].
  split.
  { intros Hin. apply Hids. apply in_map. exact Hin. }
  split; [exact Hids | exact Hback].
Qed.

(** C9. A payload whose [date] has a time of day and whose amount is
    not NaN is accepted, and the row stored and returned has only its
    calendar date: a later listing contains that row, its response form
    places the date at midnight, and a payload that differs in nothing
    but the time of day has the same effect. *)
Theorem create_transaction_keeps_calendar_date
  (e1 e2 : Env) (w : World) (tx : TransactionCreate)
  (Hamount : is_nan (tc_amount tx) = false) :
  exists t w1 l w2,
    POST_transactions tx e1 w = (Returned t, w1) /\
    tx_date t = dt_date (tc_date tx) /\
    GET_transactions e2 w1 = (Returned l, w2) /\
    In t l /\
    In (TransactionOut_from_orm t) (map TransactionOut_from_orm l) /\
    to_date (TransactionOut_from_orm t) =
      {| dt_date := dt_date (tc_date tx);
         hour := 0; minute := 0; second := 0; microsecond := 0 |} /\
    forall h m s us,
      POST_transactions
        {| tc_type := tc_type tx; tc_category := tc_category tx;
           tc_amount := tc_amount tx;
           tc_date := {| dt_date := dt_date (tc_date tx);
                         hour := h; minute := m; second := s;
                         microsecond := us |} |} e1 w =
      POST_transactions tx e1 w.
Proof.
  set (t := new_Transaction (database w) tx).
  set (w1 := after_request w (committed (with_Transaction (database w) t))).
  assert (Hin : In t (order_by_date_desc (transactions (database w1)))).
  { eapply Permutation_in.
    - symmetry. apply order_by_date_desc_Permutation.
    - change (transactions (database w1))
        with (transactions (database w) ++ [t])%list.
      apply in_or_app. right. left. reflexivity. }
  exists t, w1, (order_by_date_desc (transactions (database w1))),
    (after_request w1 (fresh_session w1)).
  split; [exact (POST_transactions_run tx e1 w Hamount)|].
  split; [reflexivity|].
  split; [apply GET_transactions_run|].
  split; [exact Hin|].
  split; [apply in_map; exact Hin|].
  split; [reflexivity|].
  intros h m s us.
  rewrite (POST_transactions_run tx e1 w Hamount).
  rewrite POST_transactions_run by exact Hamount. reflexivity.
Qed.

(** C8. Whatever the endpoint of a request does with the session it gets
    from [get_db] (return, raise an [HTTPException] such as a validation
    failure, or raise anything else), the request opens one session and
    closes that session once, after the endpoint: the session log grows
    by exactly this opening and this closing, the session is no longer
    open afterwards, and the endpoint's outcome is the request's. *)
Theorem get_db_closes_session_once
  {A : Type} (endpoint : M A) (env : Env) (w : World) :
  let sid := sessions_made w in
  let w' := snd (Depends_get_db endpoint env w) in
  fst (Depends_get_db endpoint env w) = fst (endpoint env (fresh_session w)) /\
  session_log w' = (session_log w ++ [SessionOpened sid; SessionClosed sid])%list /\
  closes_of sid (session_log w') = S (closes_of sid (session_log w)) /\
  opens_of sid (session_log w') = S (opens_of sid (session_log w)) /\
  live_sessions w' !! sid = None /\
  live_sessions w' = delete sid (live_sessions w).
Proof.
  intros sid w'. subst w'. rewrite Depends_get_db_run. simpl.
  fold sid.
  split; [reflexivity|]. split; [reflexivity|].
  split.
  { rewrite closes_of_app. unfold closes_of at 2. simpl.
    rewrite Nat.eqb_refl. simpl. lia. }
  split.
  { rewrite opens_of_app. unfold opens_of at 2. simpl.
    rewrite Nat.eqb_refl. simpl. lia. }
  split; [apply lookup_delete_eq | reflexivity].
Qed.

(** ** Text of a password hash *)

Lemma strip_prefix_app (p s : string) : strip_prefix p (p ++ s) = Some s.
Proof.
  induction p as [|a p IH]; simpl.
  - destruct s; reflexivity.
  - rewrite Ascii.eqb_refl. exact IH.
Qed.

Lemma is_ab64_char_not_dollar (c : ascii) :
  is_ab64_char c = true -> Ascii.eqb c "$" = false.
Proof.
  destruct c as [[] [] [] [] [] [] [] []]; vm_compute; congruence.
Qed.

Lemma split_ab64 (s : string) :
  is_ab64 s = true -> split "$" s = [s].
Proof.
  induction s as [|c s IH]; simpl; [reflexivity|].
  intros H. apply andb_prop in H. destruct H as [Hc Hs].
  rewrite (is_ab64_char_not_dollar c Hc), (IH Hs). reflexivity.
Qed.

Lemma split_ab64_sep (s r : string) :
  is_ab64 s = true ->
  split "$" (s ++ String "$" r) = s :: split "$" r.
Proof.
  induction s as [|c s IH]; simpl; [reflexivity|].
  intros H. apply andb_prop in H. destruct H as [Hc Hs].
  rewrite (is_ab64_char_not_dollar c Hc), (IH Hs). reflexivity.
Qed.

(** ** Adapted base64: decoding what was encoded *)

(** Texts by groups of three characters. *)
Lemma string_ind3 (P : string -> Prop) :
  P EmptyString ->
  (forall a, P (String a EmptyString)) ->
  (forall a b, P (String a (String b EmptyString))) ->
  (forall a b c rest, P rest -> P (String a (String b (String c rest)))) ->
  forall s, P s.
Proof.
  intros H0 H1 H2 H3.
  refine (fix go (s : string) : P s :=
            match s with
            | EmptyString => H0
            | String a EmptyString => H1 a
            | String a (String b EmptyString) => H2 a b
            | String a (String b (String c rest)) => H3 a b c rest (go rest)
            end).
Qed.

Section Base64.
Local Open Scope N_scope.

Lemma land_shiftl_low (a b k : N) :
  b < 2 ^ k -> N.land (a * 2 ^ k) b = 0.
Proof.
  intros Hb. apply N.bits_inj. intros n. rewrite N.land_spec, N.bits_0.
  destruct (N.ltb_spec n k) as [Hlt|Hge].
  - rewrite N.mul_pow2_bits_low by exact Hlt. reflexivity.
  - destruct (N.eq_dec b 0) as [->|Hnz].
    + rewrite N.bits_0. apply andb_false_r.
    + rewrite (N.bits_above_log2 b n); [apply andb_false_r|].
      apply N.log2_lt_pow2; [lia|].
      eapply N.lt_le_trans; [exact Hb|].
      apply N.pow_le_mono_r; lia.
Qed.

Lemma lor_shiftl_add (a b k : N) :
  b < 2 ^ k -> N.lor (N.shiftl a k) b = a * 2 ^ k + b.
Proof.
  intros Hb. rewrite N.shiftl_mul_pow2.
  rewrite <- N.lxor_lor by (apply land_shiftl_low; exact Hb).
  symmetry. apply N.add_nocarry_lxor. apply land_shiftl_low. exact Hb.
Qed.

(** The six-bit groups of three bytes, by division. *)
Lemma sextet_1 (x : N) : N.shiftr x 2 = x / 4.
Proof. apply N.shiftr_div_pow2. Qed.

Lemma sextet_2 (x y : N) :
  y < 256 ->
  N.lor (N.shiftl (N.land x 3) 4) (N.shiftr y 4) = x mod 4 * 16 + y / 16.
Proof.
  intros Hy. change 3 with (N.ones 2). rewrite N.land_ones.
  rewrite N.shiftr_div_pow2. apply (lor_shiftl_add (x mod 2 ^ 2) (y / 2 ^ 4) 4).
  apply N.Div0.div_lt_upper_bound. exact Hy.
Qed.

Lemma sextet_2_last (x : N) : N.shiftl (N.land x 3) 4 = x mod 4 * 16.
Proof.
  change 3 with (N.ones 2). rewrite N.land_ones. apply N.shiftl_mul_pow2.
Qed.

Lemma sextet_3 (y z : N) :
  z < 256 ->
  N.lor (N.shiftl (N.land y 15) 2) (N.shiftr z 6) = y mod 16 * 4 + z / 64.
Proof.
  intros Hz. change 15 with (N.ones 4). rewrite N.land_ones.
  rewrite N.shiftr_div_pow2. apply (lor_shiftl_add (y mod 2 ^ 4) (z / 2 ^ 6) 2).
  apply N.Div0.div_lt_upper_bound. exact Hz.
Qed.

Lemma sextet_3_last (y : N) : N.shiftl (N.land y 15) 2 = y mod 16 * 4.
Proof.
  change 15 with (N.ones 4). rewrite N.land_ones. apply N.shiftl_mul_pow2.
Qed.

Lemma sextet_4 (z : N) : N.land z 63 = z mod 64.
Proof. change 63 with (N.ones 6). apply N.land_ones. Qed.

(** The bytes of four six-bit groups, by division. *)
Lemma octet_1 (s1 s2 : N) :
  s2 < 64 ->
  N.lor (N.shiftl s1 2) (N.shiftr s2 4) = s1 * 4 + s2 / 16.
Proof.
  intros H. rewrite N.shiftr_div_pow2. apply (lor_shiftl_add s1 (s2 / 2 ^ 4) 2).
  apply N.Div0.div_lt_upper_bound. exact H.
Qed.

Lemma octet_2 (s2 s3 : N) :
  s3 < 64 ->
  N.lor (N.shiftl (N.land s2 15) 4) (N.shiftr s3 2) = s2 mod 16 * 16 + s3 / 4.
Proof.
  intros H. change 15 with (N.ones 4). rewrite N.land_ones.
  rewrite N.shiftr_div_pow2.
  apply (lor_shiftl_add (s2 mod 2 ^ 4) (s3 / 2 ^ 2) 4).
  apply N.Div0.div_lt_upper_bound. exact H.
Qed.

Lemma octet_3 (s3 s4 : N) :
  s4 < 64 ->
  N.lor (N.shiftl (N.land s3 3) 6) s4 = s3 mod 4 * 64 + s4.
Proof.
  intros H. change 3 with (N.ones 2). rewrite N.land_ones.
  apply (lor_shiftl_add (s3 mod 2 ^ 2) s4 6). exact H.
Qed.

End Base64.

(** Division and remainder by constants. *)
Ltac div_mod_lia := zify; Z.to_euclidean_division_equations; lia.

(** What holds of each of the 64 characters of base64. *)
Definition b64_char_ok (v : N) : bool :=
  match b64_value (b64_char v) with
  | Some w => (w =? v)%N
  | None => false
  end &&
  negb (Ascii.eqb (b64_char v) "=") &&
  negb (Ascii.eqb (b64_char v) ".") &&
  is_ab64_char (if Ascii.eqb (b64_char v) "+" then "."%char else b64_char v).

Lemma b64_char_facts (v : N) :
  (v < 64)%N -> b64_char_ok v = true.
Proof.
  intros Hv.
  assert (Hall : forallb b64_char_ok (map N.of_nat (seq 0 64)) = true)
    by (vm_compute; reflexivity).
  rewrite forallb_forall in Hall. apply Hall.
  apply in_map_iff. exists (N.to_nat v). split; [apply N2Nat.id|].
  apply in_seq. lia.
Qed.

Lemma b64_char_value (v : N) :
  (v < 64)%N -> b64_value (b64_char v) = Some v.
Proof.
  intros Hv. pose proof (b64_char_facts v Hv) as H. unfold b64_char_ok in H.
  apply andb_prop in H. destruct H as [H _].
  apply andb_prop in H. destruct H as [H _].
  apply andb_prop in H. destruct H as [H _].
  destruct (b64_value (b64_char v)) as [w|]; [|discriminate].
  apply N.eqb_eq in H. congruence.
Qed.

Lemma b64_char_not_pad (v : N) :
  (v < 64)%N -> Ascii.eqb (b64_char v) "=" = false.
Proof.
  intros Hv. pose proof (b64_char_facts v Hv) as H. unfold b64_char_ok in H.
  apply andb_prop in H. destruct H as [H _].
  apply andb_prop in H. destruct H as [H _].
  apply andb_prop in H. destruct H as [_ H].
  apply negb_true_iff in H. exact H.
Qed.

Lemma b64_char_not_dot (v : N) :
  (v < 64)%N -> Ascii.eqb (b64_char v) "." = false.
Proof.
  intros Hv. pose proof (b64_char_facts v Hv) as H. unfold b64_char_ok in H.
  apply andb_prop in H. destruct H as [H _].
  apply andb_prop in H. destruct H as [_ H].
  apply negb_true_iff in H. exact H.
Qed.

Lemma b64_char_ab64 (v : N) :
  (v < 64)%N ->
  is_ab64_char (if Ascii.eqb (b64_char v) "+" then "."%char else b64_char v) =
  true.
Proof.
  intros Hv. pose proof (b64_char_facts v Hv) as H. unfold b64_char_ok in H.
  apply andb_prop in H. destruct H as [_ H]. exact H.
Qed.

(** One step of the decoder on a character of base64. *)
Lemma a2b_base64_char
  (v : N) (rest : string) (quad_pos leftchar pads written : N) :
  (v < 64)%N ->
  a2b_base64 (String (b64_char v) rest) quad_pos leftchar pads written =
  let emit (byte : N) (r : Outcome string) :=
    match r with
    | Returned out => Returned (String (ascii_of_N byte) out)
    | Raised e => Raised e
    end in
  if (quad_pos =? 0)%N then a2b_base64 rest 1 v 0 written
  else if (quad_pos =? 1)%N then
    emit (N.lor (N.shiftl leftchar 2) (N.shiftr v 4))
      (a2b_base64 rest 2 (N.land v 15) 0 (written + 1))
  else if (quad_pos =? 2)%N then
    emit (N.lor (N.shiftl leftchar 4) (N.shiftr v 2))
      (a2b_base64 rest 3 (N.land v 3) 0 (written + 1))
  else
    emit (N.lor (N.shiftl leftchar 6) v)
      (a2b_base64 rest 0 0 0 (written + 1)).
Proof.
  intros Hv. cbn [a2b_base64].
  rewrite (b64_char_not_pad v Hv), (b64_char_value v Hv). reflexivity.
Qed.

(** Four characters of a whole group are decoded to three bytes. *)
Lemma a2b_base64_quad (s1 s2 s3 s4 : N) (rest : string) (written : N) :
  (s1 < 64)%N -> (s2 < 64)%N -> (s3 < 64)%N -> (s4 < 64)%N ->
  a2b_base64
    (String (b64_char s1) (String (b64_char s2)
       (String (b64_char s3) (String (b64_char s4) rest)))) 0 0 0 written =
  match a2b_base64 rest 0 0 0 (written + 1 + 1 + 1) with
  | Returned out =>
      Returned
        (String (ascii_of_N (N.lor (N.shiftl s1 2) (N.shiftr s2 4)))
           (String (ascii_of_N (N.lor (N.shiftl (N.land s2 15) 4) (N.shiftr s3 2)))
              (String (ascii_of_N (N.lor (N.shiftl (N.land s3 3) 6) s4)) out)))
  | Raised e => Raised e
  end.
Proof.
  intros H1 H2 H3 H4.
  rewrite (a2b_base64_char s1 _ _ _ _ _ H1). cbn [N.eqb].
  rewrite (a2b_base64_char s2 _ _ _ _ _ H2). cbn [N.eqb Pos.eqb].
  rewrite (a2b_base64_char s3 _ _ _ _ _ H3). cbn [N.eqb Pos.eqb].
  rewrite (a2b_base64_char s4 _ _ _ _ _ H4). cbn [N.eqb Pos.eqb].
  destruct (a2b_base64 rest 0 0 0 (written + 1 + 1 + 1)); reflexivity.
Qed.

(** Two characters and the padding of a last byte. *)
Lemma a2b_base64_last_one (s1 s2 written : N) :
  (s1 < 64)%N -> (s2 < 64)%N ->
  a2b_base64 (String (b64_char s1) (String (b64_char s2) "==")) 0 0 0 written =
  Returned
    (String (ascii_of_N (N.lor (N.shiftl s1 2) (N.shiftr s2 4))) EmptyString).
Proof.
  intros H1 H2.
  rewrite (a2b_base64_char s1 _ _ _ _ _ H1). cbn [N.eqb].
  rewrite (a2b_base64_char s2 _ _ _ _ _ H2). cbn [N.eqb Pos.eqb].
  reflexivity.
Qed.

(** Three characters and the padding of two last bytes. *)
Lemma a2b_base64_last_two (s1 s2 s3 written : N) :
  (s1 < 64)%N -> (s2 < 64)%N -> (s3 < 64)%N ->
  a2b_base64
    (String (b64_char s1) (String (b64_char s2) (String (b64_char s3) "=")))
    0 0 0 written =
  Returned
    (String (ascii_of_N (N.lor (N.shiftl s1 2) (N.shiftr s2 4)))
       (String (ascii_of_N (N.lor (N.shiftl (N.land s2 15) 4) (N.shiftr s3 2)))
          EmptyString)).
Proof.
  intros H1 H2 H3.
  rewrite (a2b_base64_char s1 _ _ _ _ _ H1). cbn [N.eqb].
  rewrite (a2b_base64_char s2 _ _ _ _ _ H2). cbn [N.eqb Pos.eqb].
  rewrite (a2b_base64_char s3 _ _ _ _ _ H3). cbn [N.eqb Pos.eqb].
  reflexivity.
Qed.

(** A byte is below 256, and so are its parts below their powers. *)
Lemma sextets_bounded (a b c : ascii) :
  let x := N_of_ascii a in
  let y := N_of_ascii b in
  let z := N_of_ascii c in
  (N.shiftr x 2 < 64 /\
   N.lor (N.shiftl (N.land x 3) 4) (N.shiftr y 4) < 64 /\
   N.shiftl (N.land x 3) 4 < 64 /\
   N.lor (N.shiftl (N.land y 15) 2) (N.shiftr z 6) < 64 /\
   N.shiftl (N.land y 15) 2 < 64 /\
   N.land z 63 < 64)%N.
Proof.
  intros x y z.
  pose proof (N_ascii_bounded a) as Hx. pose proof (N_ascii_bounded b) as Hy.
  pose proof (N_ascii_bounded c) as Hz. fold x in Hx. fold y in Hy. fold z in Hz.
  rewrite sextet_1, (sextet_2 x y Hy), sextet_2_last, (sextet_3 y z Hz),
    sextet_3_last, sextet_4.
  clearbody x y z. repeat split; div_mod_lia.
Qed.

(** Three bytes come back from their four six-bit groups. *)
Lemma octets_of_sextets (a b c : ascii) :
  let x := N_of_ascii a in
  let y := N_of_ascii b in
  let z := N_of_ascii c in
  let s1 := N.shiftr x 2 in
  let s2 := N.lor (N.shiftl (N.land x 3) 4) (N.shiftr y 4) in
  let s3 := N.lor (N.shiftl (N.land y 15) 2) (N.shiftr z 6) in
  let s4 := N.land z 63 in
  ascii_of_N (N.lor (N.shiftl s1 2) (N.shiftr s2 4)) = a /\
  ascii_of_N (N.lor (N.shiftl (N.land s2 15) 4) (N.shiftr s3 2)) = b /\
  ascii_of_N (N.lor (N.shiftl (N.land s3 3) 6) s4) = c.
Proof.
  intros x y z s1 s2 s3 s4.
  destruct (sextets_bounded a b c) as (B1 & B2 & _ & B3 & _ & B4).
  fold x y z in B1, B2, B3, B4. fold s1 in B1. fold s2 in B2. fold s3 in B3.
  fold s4 in B4.
  rewrite (octet_1 s1 s2 B2), (octet_2 s2 s3 B3), (octet_3 s3 s4 B4).
  pose proof (N_ascii_bounded a) as Hx. pose proof (N_ascii_bounded b) as Hy.
  pose proof (N_ascii_bounded c) as Hz. fold x in Hx. fold y in Hy. fold z in Hz.
  unfold s1, s2, s3, s4.
  rewrite sextet_1, (sextet_2 x y Hy), (sextet_3 y z Hz), sextet_4.
  rewrite <- (ascii_N_embedding a), <- (ascii_N_embedding b),
    <- (ascii_N_embedding c). fold x y z.
  clearbody x y z. clear s1 s2 s3 s4 B1 B2 B3 B4.
  repeat split; f_equal; div_mod_lia.
Qed.

(** One byte at the end, from its two characters. *)
Lemma octet_of_two_sextets (a : ascii) :
  let x := N_of_ascii a in
  ascii_of_N
    (N.lor (N.shiftl (N.shiftr x 2) 2) (N.shiftr (N.shiftl (N.land x 3) 4) 4)) =
  a.
Proof.
  intros x.
  destruct (sextets_bounded a a a) as (_ & _ & B2 & _).
  fold x in B2. rewrite (octet_1 _ _ B2), sextet_1, sextet_2_last.
  pose proof (N_ascii_bounded a) as Hx. fold x in Hx.
  transitivity (ascii_of_N x); [|apply ascii_N_embedding].
  clearbody x. f_equal. div_mod_lia.
Qed.

(** Two bytes at the end, from their three characters. *)
Lemma octets_of_three_sextets (a b : ascii) :
  let x := N_of_ascii a in
  let y := N_of_ascii b in
  let s1 := N.shiftr x 2 in
  let s2 := N.lor (N.shiftl (N.land x 3) 4) (N.shiftr y 4) in
  let s3 := N.shiftl (N.land y 15) 2 in
  ascii_of_N (N.lor (N.shiftl s1 2) (N.shiftr s2 4)) = a /\
  ascii_of_N (N.lor (N.shiftl (N.land s2 15) 4) (N.shiftr s3 2)) = b.
Proof.
  intros x y s1 s2 s3.
  destruct (sextets_bounded a b b) as (_ & B2 & _ & _ & B3 & _).
  fold x y in B2, B3. fold s2 in B2. fold s3 in B3.
  rewrite (octet_1 s1 s2 B2), (octet_2 s2 s3 B3).
  pose proof (N_ascii_bounded a) as Hx. pose proof (N_ascii_bounded b) as Hy.
  fold x in Hx. fold y in Hy.
  unfold s1, s2, s3. rewrite sextet_1, (sextet_2 x y Hy), sextet_3_last.
  rewrite <- (ascii_N_embedding a), <- (ascii_N_embedding b). fold x y.
  clearbody x y. clear s1 s2 s3 B2 B3.
  split; f_equal; div_mod_lia.
Qed.

Lemma mod_4_step (n : nat) : (S (S (S (S n))) mod 4 = n mod 4)%nat.
Proof.
  change (S (S (S (S n)))) with (4 + n)%nat.
  rewrite <- Nat.Div0.add_mod_idemp_l. reflexivity.
Qed.

(** [b64s_decode(b64s_encode(data)) == data] *)
Lemma b64s_decode_encode (data : string) :
  b64s_decode (b64s_encode data) = Returned data.
Proof.
  unfold b64s_decode.
  assert (Hgen : forall written : N,
    match (String.length (b64s_encode data) mod 4)%nat with
    | 0%nat => a2b_base64 (b64s_encode data) 0 0 0 written
    | 2%nat => a2b_base64 (b64s_encode data ++ "==") 0 0 0 written
    | 3%nat => a2b_base64 (b64s_encode data ++ "=") 0 0 0 written
    | _ => Raised (PyException "ValueError" "invalid base64 input")
    end = Returned data); [|apply Hgen].
  induction data as [|a|a b|a b c rest IH] using string_ind3; intros written.
  - reflexivity.
  - destruct (sextets_bounded a a a) as (B1 & _ & B2 & _).
    cbn [b64s_encode String.length Nat.modulo Nat.divmod snd Nat.sub].
    cbv [String.append]. rewrite (a2b_base64_last_one _ _ written B1 B2).
    rewrite (octet_of_two_sextets a). reflexivity.
  - destruct (sextets_bounded a b b) as (B1 & B2 & _ & _ & B3 & _).
    destruct (octets_of_three_sextets a b) as [Ea Eb].
    cbn [b64s_encode String.length Nat.modulo Nat.divmod snd Nat.sub].
    cbv [String.append]. rewrite (a2b_base64_last_two _ _ _ written B1 B2 B3).
    cbn zeta in Ea, Eb. rewrite Ea, Eb. reflexivity.
  - destruct (sextets_bounded a b c) as (B1 & B2 & _ & B3 & _ & B4).
    destruct (octets_of_sextets a b c) as (Ea & Eb & Ec).
    cbn [b64s_encode String.length]. rewrite mod_4_step.
    specialize (IH (written + 1 + 1 + 1)%N).
    cbn zeta in Ea, Eb, Ec.
    destruct (String.length (b64s_encode rest) mod 4)%nat
      as [|[|[|[|k]]]] eqn:Hlen; try discriminate IH;
      cbv [String.append]; fold String.append;
      rewrite a2b_base64_quad by assumption;
      rewrite IH, Ea, Eb, Ec; reflexivity.
Qed.

(** A character of base64 written in adapted base64 and read back. *)
Lemma replace_b64_char (v : N) :
  (v < 64)%N ->
  let c := if Ascii.eqb (b64_char v) "+" then "."%char else b64_char v in
  (if Ascii.eqb c "." then "+"%char else c) = b64_char v.
Proof.
  intros Hv. cbv zeta.
  destruct (Ascii.eqb_spec (b64_char v) "+") as [->|_]; [reflexivity|].
  rewrite (b64_char_not_dot v Hv). reflexivity.
Qed.

Lemma replace_b64s_encode (data : string) :
  replace "." "+" (replace "+" "." (b64s_encode data)) = b64s_encode data.
Proof.
  induction data as [|a|a b|a b c rest IH] using string_ind3.
  - reflexivity.
  - destruct (sextets_bounded a a a) as (B1 & _ & B2 & _).
    cbn [b64s_encode replace]. rewrite !replace_b64_char by assumption.
    reflexivity.
  - destruct (sextets_bounded a b b) as (B1 & B2 & _ & _ & B3 & _).
    cbn [b64s_encode replace]. rewrite !replace_b64_char by assumption.
    reflexivity.
  - destruct (sextets_bounded a b c) as (B1 & B2 & _ & B3 & _ & B4).
    cbn [b64s_encode replace]. rewrite !replace_b64_char by assumption.
    rewrite IH. reflexivity.
Qed.

(** [ab64_decode(ab64_encode(data)) == data] *)
Lemma ab64_decode_encode (data : string) :
  ab64_decode (ab64_encode data) = Returned data.
Proof.
  unfold ab64_decode, ab64_encode.
  rewrite replace_b64s_encode. apply b64s_decode_encode.
Qed.

Lemma ab64_encode_inj (data1 data2 : string) :
  ab64_encode data1 = ab64_encode data2 -> data1 = data2.
Proof.
  intros H. apply (f_equal ab64_decode) in H.
  rewrite !ab64_decode_encode in H. congruence.
Qed.

(** What [ab64_encode] writes is adapted-base64 text. *)
Lemma ab64_encode_is_ab64 (data : string) :
  is_ab64 (ab64_encode data) = true.
Proof.
  unfold ab64_encode.
  induction data as [|a|a b|a b c rest IH] using string_ind3.
  - reflexivity.
  - destruct (sextets_bounded a a a) as (B1 & _ & B2 & _).
    cbn [b64s_encode replace is_ab64]. rewrite !b64_char_ab64 by assumption.
    reflexivity.
  - destruct (sextets_bounded a b b) as (B1 & B2 & _ & _ & B3 & _).
    cbn [b64s_encode replace is_ab64]. rewrite !b64_char_ab64 by assumption.
    reflexivity.
  - destruct (sextets_bounded a b c) as (B1 & B2 & _ & B3 & _ & B4).
    cbn [b64s_encode replace is_ab64]. rewrite !b64_char_ab64 by assumption.
    rewrite IH. reflexivity.
Qed.

Lemma ab64_encode_not_empty (data : string) :
  data <> EmptyString -> ab64_encode data <> EmptyString.
Proof.
  intros Hne Hempty. apply Hne. apply ab64_encode_inj. exact Hempty.
Qed.

Lemma validate_secret_ok (secret : string) :
  (String.length secret <= MAX_PASSWORD_SIZE)%nat ->
  validate_secret secret = Returned tt.
Proof.
  intros H. unfold validate_secret.
  apply Nat.leb_le in H. rewrite H. reflexivity.
Qed.

Lemma validate_secret_too_long (secret : string) :
  (MAX_PASSWORD_SIZE < String.length secret)%nat ->
  validate_secret secret = Raised PasswordSizeError.
Proof.
  intros H. unfold validate_secret.
  apply Nat.leb_gt in H. rewrite H. reflexivity.
Qed.

(** ** Claims of a token *)

Lemma json_payload_fmap (m : gmap string json) :
  json_payload (PyJson <$> m) = Some m.
Proof.
  unfold json_payload. rewrite bool_decide_eq_true_2.
  - f_equal. apply map_eq. intros k.
    rewrite lookup_omap, lookup_fmap. destruct (m !! k); reflexivity.
  - intros k v Hk. rewrite lookup_fmap in Hk.
    destruct (m !! k); simpl in Hk; [|discriminate].
    injection Hk as <-. simpl. eauto.
Qed.

Lemma convert_time_claims_exp (data : gmap string json) (t : Z) :
  convert_time_claims (<["exp" := PyDatetime t]> (PyJson <$> data)) =
  PyJson <$> <["exp" := JInt (timegm t)]> data.
Proof.
  unfold convert_time_claims. simpl.
  rewrite lookup_insert_eq, insert_insert_eq.
  rewrite (lookup_insert_ne _ "exp" "iat") by discriminate.
  rewrite lookup_fmap.
  assert (H1 :
    match PyJson <$> data !! "iat" with
    | Some (PyDatetime t0) =>
        <["iat" := PyJson (JInt (timegm t0))]>
          (<["exp" := PyJson (JInt (timegm t))]> (PyJson <$> data))
    | _ => <["exp" := PyJson (JInt (timegm t))]> (PyJson <$> data)
    end = <["exp" := PyJson (JInt (timegm t))]> (PyJson <$> data))
    by (destruct (data !! "iat"); reflexivity).
  rewrite H1. clear H1.
  rewrite (lookup_insert_ne _ "exp" "nbf") by discriminate.
  rewrite lookup_fmap.
  assert (H2 :
    match PyJson <$> data !! "nbf" with
    | Some (PyDatetime t0) =>
        <["nbf" := PyJson (JInt (timegm t0))]>
          (<["exp" := PyJson (JInt (timegm t))]> (PyJson <$> data))
    | _ => <["exp" := PyJson (JInt (timegm t))]> (PyJson <$> data)
    end = <["exp" := PyJson (JInt (timegm t))]> (PyJson <$> data))
    by (destruct (data !! "nbf"); reflexivity).
  rewrite H2. clear H2.
  rewrite fmap_insert. reflexivity.
Qed.

Lemma timegm_bounds (t : Z) :
  timegm t * 1000000 <= t < (timegm t + 1) * 1000000.
Proof.
  unfold timegm.
  pose proof (Z.div_mod t 1000000 ltac:(lia)).
  pose proof (Z.mod_pos_bound t 1000000 ltac:(lia)). lia.
Qed.

(** ** Upper case *)

Lemma upper_char_changes (c : ascii) :
  is_lower_char c = true -> upper_char c <> c.
Proof.
  destruct c as [[] [] [] [] [] [] [] []]; vm_compute; congruence.
Qed.

Lemma upper_changes (s : string) :
  has_lower s = true -> upper s <> s.
Proof.
  induction s as [|c s IH]; simpl; [discriminate|].
  intros H Heq. injection Heq as Hc Hs.
  apply orb_prop in H. destruct H as [H|H].
  - exact (upper_char_changes c H Hc).
  - exact (IH H Hs).
Qed.

Lemma upper_has_no_lower (s : string) : has_lower (upper s) = false.
Proof.
  induction s as [|c s IH]; simpl; [reflexivity|].
  rewrite IH, orb_false_r.
  destruct c as [[] [] [] [] [] [] [] []]; vm_compute; reflexivity.
Qed.

Section BackendProperties.

Variable pbkdf2_hmac_sha256 : string -> string -> Z -> string.
Variable hmac_sign : string -> string -> jws_header * gmap string json -> string.
Variable Ticker_info : string -> Outcome (gmap string float).

(** The digest of a password has 32 bytes. *)
Hypothesis pbkdf2_size : digest_sized pbkdf2_hmac_sha256.

(** The text [pbkdf2_sha256_hash] writes after the identifier, taken
    apart at the [$] signs. *)
Lemma pbkdf2_sha256_hash_parts (salt chk : string) :
  split "$" (decimal pbkdf2_sha256_default_rounds ++ "$" ++
             ab64_encode salt ++ "$" ++ ab64_encode chk) =
  ["29000"; ab64_encode salt; ab64_encode chk].
Proof.
  change (decimal pbkdf2_sha256_default_rounds) with "29000".
  change ("29000" ++ "$" ++ ab64_encode salt ++ "$" ++ ab64_encode chk)
    with ("29000" ++
          String "$" (ab64_encode salt ++ String "$" (ab64_encode chk))).
  rewrite (split_ab64_sep "29000") by reflexivity.
  rewrite split_ab64_sep by apply ab64_encode_is_ab64.
  rewrite split_ab64 by apply ab64_encode_is_ab64.
  reflexivity.
Qed.

(** The text [pbkdf2_sha256_hash] writes, read by [from_string]. *)
Lemma pbkdf2_sha256_from_string_hash (salt secret : string) :
  (String.length salt <= pbkdf2_sha256_max_salt_size)%nat ->
  exists rest,
    pbkdf2_sha256_hash pbkdf2_hmac_sha256 salt secret =
      pbkdf2_sha256_ident ++ rest /\
    pbkdf2_sha256_from_string rest =
      Returned
        {| pbkdf2_rounds := pbkdf2_sha256_default_rounds;
           pbkdf2_salt := salt;
           pbkdf2_checksum :=
             Some (pbkdf2_hmac_sha256 secret salt
                     pbkdf2_sha256_default_rounds) |}.
Proof.
  intros Hsalt. eexists. split; [reflexivity|].
  unfold pbkdf2_sha256_from_string. rewrite pbkdf2_sha256_hash_parts.
  set (chk := pbkdf2_hmac_sha256 secret salt pbkdf2_sha256_default_rounds).
  change (parse_rounds "29000") with (Returned pbkdf2_sha256_default_rounds).
  cbv iota beta. rewrite !ab64_decode_encode.
  assert (Hchk : String.length chk = pbkdf2_sha256_checksum_size)
    by apply pbkdf2_size.
  destruct (ab64_encode chk) eqn:Henc.
  { exfalso. apply (ab64_encode_not_empty chk); [|exact Henc].
    intros ->. discriminate Hchk. }
  unfold pbkdf2_sha256_init. rewrite Hchk, Nat.eqb_refl.
  apply Nat.ltb_ge in Hsalt. rewrite Hsalt. reflexivity.
Qed.

(** [verify_password] against the hash made for a password. *)
Lemma verify_password_made_hash (salt password candidate : string) :
  (String.length salt <= pbkdf2_sha256_max_salt_size)%nat ->
  (String.length candidate <= MAX_PASSWORD_SIZE)%nat ->
  verify_password pbkdf2_hmac_sha256 candidate
    (pbkdf2_sha256_hash pbkdf2_hmac_sha256 salt password) =
  Returned
    (String.eqb
       (pbkdf2_hmac_sha256 candidate salt pbkdf2_sha256_default_rounds)
       (pbkdf2_hmac_sha256 password salt pbkdf2_sha256_default_rounds)).
Proof.
  intros Hsalt Hsize.
  destruct (pbkdf2_sha256_from_string_hash salt password Hsalt)
    as [rest [Htext Hread]].
  unfold verify_password. rewrite Htext, strip_prefix_app.
  unfold pbkdf2_sha256_verify.
  rewrite (validate_secret_ok candidate Hsize), Hread. reflexivity.
Qed.

Lemma salt_sized_max (salt : string) :
  salt_sized salt ->
  (String.length salt <= pbkdf2_sha256_max_salt_size)%nat.
Proof.
  unfold salt_sized. intros ->. unfold pbkdf2_sha256_default_salt_size,
    pbkdf2_sha256_max_salt_size. lia.
Qed.

(** Hashes of one password under two salts. *)
Lemma pbkdf2_sha256_hash_salt_inj (salt1 salt2 password : string) :
  pbkdf2_sha256_hash pbkdf2_hmac_sha256 salt1 password =
  pbkdf2_sha256_hash pbkdf2_hmac_sha256 salt2 password ->
  salt1 = salt2.
Proof.
  intros Heq. unfold pbkdf2_sha256_hash in Heq.
  apply (inj (String.app pbkdf2_sha256_ident)) in Heq.
  apply (f_equal (split "$")) in Heq.
  rewrite !pbkdf2_sha256_hash_parts in Heq.
  apply ab64_encode_inj. congruence.
Qed.

(** C6. For a password of at most 4096 characters, two calls of
    [get_password_hash] that draw different salts return different hash
    strings, and whichever salt (of 16 bytes) a call draws,
    [verify_password] accepts the password against the hash the call
    returned. *)
Theorem get_password_hash_salted_and_verified
  (password : string)
  (Hsize : (String.length password <= MAX_PASSWORD_SIZE)%nat) :
  (forall salt1 salt2,
     salt1 <> salt2 ->
     exists h1 h2,
       get_password_hash pbkdf2_hmac_sha256 salt1 password = Returned h1 /\
       get_password_hash pbkdf2_hmac_sha256 salt2 password = Returned h2 /\
       h1 <> h2) /\
  (forall salt,
     salt_sized salt ->
     exists h,
       get_password_hash pbkdf2_hmac_sha256 salt password = Returned h /\
       verify_password pbkdf2_hmac_sha256 password h = Returned true).
Proof.
  unfold get_password_hash. rewrite (validate_secret_ok password Hsize).
  split.
  - intros salt1 salt2 Hne. eexists. eexists.
    split; [reflexivity|]. split; [reflexivity|].
    intros Heq. apply Hne.
    exact (pbkdf2_sha256_hash_salt_inj salt1 salt2 password Heq).
  - intros salt Hsalt. eexists. split; [reflexivity|].
    rewrite (verify_password_made_hash salt password password
               (salt_sized_max salt Hsalt) Hsize).
    rewrite String.eqb_refl. reflexivity.
Qed.

(** C7. Without an explicit lifetime, [create_access_token] returns a
    token whose claims are the given ones with [exp] set to the whole
    second of the instant 30 minutes after the clock reading, signed
    under [SECRET_KEY] with [ALGORITHM]; verifying it with that key
    gives these claims back.  A token for subject "a@b.com" so yields
    that subject, and an expiry less than one second short of 30
    minutes after issuance. *)
Theorem create_access_token_default_expiry
  (data : gmap string json) (now : Z) :
  let exp := timegm (now + 30 * 60 * 1000000) in
  let header := {| alg := "HS256"; typ := "JWT" |} in
  let signed (claims : gmap string json) :=
    {| jwt_header := header;
       jwt_claims := claims;
       jwt_signature :=
         hmac_sign "HS256" "super-secret-key-change-me" (header, claims) |} in
  let claims := <["exp" := JInt exp]> data in
  let claims_ab : gmap string json :=
    <["exp" := JInt exp]> {[ "sub" := JStr "a@b.com" ]} in
  create_access_token hmac_sign data None now = Returned (signed claims) /\
  jws_verify hmac_sign (signed claims) SECRET_KEY ALGORITHM = Returned claims /\
  claims !! "exp" = Some (JInt exp) /\
  delete "exp" claims = delete "exp" data /\
  now + 30 * 60 * 1000000 - 1000000 < exp * 1000000 <= now + 30 * 60 * 1000000 /\
  create_access_token hmac_sign {[ "sub" := JStr "a@b.com" ]} None now =
    Returned (signed claims_ab) /\
  jws_verify hmac_sign (signed claims_ab) SECRET_KEY ALGORITHM =
    Returned claims_ab /\
  claims_ab !! "sub" = Some (JStr "a@b.com") /\
  claims_ab !! "exp" = Some (JInt exp).
Proof.
  intros exp header signed claims claims_ab.
  assert (Hrun : forall d : gmap string json,
    create_access_token hmac_sign d None now =
    Returned (signed (<["exp" := JInt exp]> d))).
  { intros d. unfold create_access_token, jwt_encode.
    rewrite convert_time_claims_exp, json_payload_fmap. reflexivity. }
  assert (Hverify : forall c : gmap string json,
    jws_verify hmac_sign (signed c) SECRET_KEY ALGORITHM = Returned c).
  { intros c. unfold jws_verify. simpl. rewrite String.eqb_refl. reflexivity. }
  split; [apply Hrun|].
  split; [apply Hverify|].
  split; [apply lookup_insert_eq|].
  split; [apply delete_insert_eq|].
  split.
  { pose proof (timegm_bounds (now + 30 * 60 * 1000000)). subst exp. lia. }
  split; [apply Hrun|].
  split; [apply Hverify|].
  split.
  { subst claims_ab. rewrite lookup_insert_ne by discriminate.
    apply lookup_singleton_eq. }
  apply lookup_insert_eq.
Qed.

(** C10. When the provider has a current price for the symbol asked,
    [get_stock_price] answers with the symbol in upper case and that
    price; a symbol with a lower-case letter is therefore not returned
    as it was sent. *)
Theorem get_stock_price_upper_symbol
  (sym : string) (info : gmap string float) (current_price : float)
  (Hinfo : Ticker_info sym = Returned info)
  (Hprice : info !! "currentPrice" = Some current_price) :
  get_stock_price Ticker_info sym =
    Returned {| symbol := upper sym; price := Some current_price |} /\
  (has_lower sym = true -> upper sym <> sym) /\
  has_lower (upper sym) = false.
Proof.
  unfold get_stock_price. rewrite Hinfo, Hprice.
  split; [reflexivity|].
  split; [apply upper_changes | apply upper_has_no_lower].
Qed.

End BackendProperties.

Section AuthProperties.

Variable pbkdf2_hmac_sha256 : string -> string -> Z -> string.
Variable hmac_sign : string -> string -> jws_header * gmap string json -> string.

Hypothesis pbkdf2_size : digest_sized pbkdf2_hmac_sha256.

Lemma register_user_conflict (user_in : UserCreate) (env : Env) (w : World) :
  email_registered (database w) (uc_email user_in) ->
  register_user pbkdf2_hmac_sha256 user_in env (fresh_session w) =
  (Raised (HTTPException 400 "Email already registered"), fresh_session w).
Proof.
  intros Hin. unfold register_user, bind, filter_email, query_User. simpl.
  destruct (email_registered_first _ _ Hin) as [u [Hf _]].
  rewrite Hf. reflexivity.
Qed.

Lemma register_user_new (user_in : UserCreate) (env : Env) (w : World) :
  ~ email_registered (database w) (uc_email user_in) ->
  (String.length (uc_password user_in) <= MAX_PASSWORD_SIZE)%nat ->
  let u := new_User
             (pbkdf2_sha256_hash pbkdf2_hmac_sha256 (env_salt env)
                (uc_password user_in))
             env (database w) user_in in
  register_user pbkdf2_hmac_sha256 user_in env (fresh_session w) =
  (Returned u, committed (with_User (database w) u)).
Proof.
  intros Hn Hsize u.
  unfold register_user, bind, filter_email, query_User. simpl.
  rewrite (email_unregistered_first _ _ Hn).
  unfold ask, lift, get_password_hash.
  rewrite (validate_secret_ok _ Hsize).
  unfold db_add, db_commit, db_refresh_User. simpl.
  rewrite (email_unregistered_existsb _ _ Hn). simpl.
  change (mk_User _ _ _ _) with u.
  rewrite (find_new_User (users (database w)) u eq_refl).
  reflexivity.
Qed.

Lemma register_user_too_long (user_in : UserCreate) (env : Env) (w : World) :
  ~ email_registered (database w) (uc_email user_in) ->
  (MAX_PASSWORD_SIZE < String.length (uc_password user_in))%nat ->
  register_user pbkdf2_hmac_sha256 user_in env (fresh_session w) =
  (Raised PasswordSizeError, fresh_session w).
Proof.
  intros Hn Hsize.
  unfold register_user, bind, filter_email, query_User. simpl.
  rewrite (email_unregistered_first _ _ Hn).
  unfold ask, lift, get_password_hash.
  rewrite (validate_secret_too_long _ Hsize). reflexivity.
Qed.

Lemma login_unknown_email (payload : LoginRequest) (env : Env) (w : World) :
  ~ email_registered (database w) (lr_email payload) ->
  login pbkdf2_hmac_sha256 hmac_sign payload env (fresh_session w) =
  (Raised (HTTPException 400 "Incorrect email or password"), fresh_session w).
Proof.
  intros Hn. unfold login, bind, filter_email, query_User. simpl.
  rewrite (email_unregistered_first _ _ Hn). reflexivity.
Qed.

Lemma login_wrong_password (payload : LoginRequest) (env : Env) (w : World) :
  email_registered (database w) (lr_email payload) ->
  (forall u, In u (users (database w)) ->
             user_email u = lr_email payload ->
             verify_password pbkdf2_hmac_sha256 (lr_password payload)
               (user_hashed_password u) = Returned false) ->
  login pbkdf2_hmac_sha256 hmac_sign payload env (fresh_session w) =
  (Raised (HTTPException 400 "Incorrect email or password"), fresh_session w).
Proof.
  intros Hin Hwrong. unfold login, bind, filter_email, query_User. simpl.
  destruct (email_registered_first _ _ Hin) as [u [Hf [Hu He]]].
  rewrite Hf. unfold lift. rewrite (Hwrong u Hu He). reflexivity.
Qed.

(** A secret over the size passlib takes, against a hash it made. *)
Lemma verify_password_too_long (h candidate : string) :
  hash_of_password pbkdf2_hmac_sha256 h ->
  (MAX_PASSWORD_SIZE < String.length candidate)%nat ->
  verify_password pbkdf2_hmac_sha256 candidate h = Raised PasswordSizeError.
Proof.
  intros [salt [password [_ ->]]] Hsize.
  unfold verify_password, pbkdf2_sha256_hash.
  rewrite strip_prefix_app. unfold pbkdf2_sha256_verify.
  rewrite (validate_secret_too_long candidate Hsize). reflexivity.
Qed.

Lemma login_long_password (payload : LoginRequest) (env : Env) (w : World) :
  email_registered (database w) (lr_email payload) ->
  Forall (fun u => hash_of_password pbkdf2_hmac_sha256 (user_hashed_password u))
    (users (database w)) ->
  (MAX_PASSWORD_SIZE < String.length (lr_password payload))%nat ->
  login pbkdf2_hmac_sha256 hmac_sign payload env (fresh_session w) =
  (Raised PasswordSizeError, fresh_session w).
Proof.
  intros Hin Hall Hsize. unfold login, bind, filter_email, query_User. simpl.
  destruct (email_registered_first _ _ Hin) as [u [Hf [Hu He]]].
  rewrite Hf. unfold lift. rewrite List.Forall_forall in Hall.
  rewrite (verify_password_too_long _ _ (Hall u Hu) Hsize). reflexivity.
Qed.

(** C2. Registering an email that a stored user already has raises the
    400 [HTTPException] "Email already registered" and leaves the store
    as it was, so no second user of that email exists; registering an
    email no stored user has, with a password of at most 4096
    characters, returns a new user of that email with a fresh
    identifier, the table of users being the old one followed by it.
    The password field of the new user is the pbkdf2_sha256 hash text of
    the password under the salt drawn: the identifier, 29000 rounds, the
    salt and the PBKDF2 digest of the password in adapted base64.
    [verify_password] accepts the password against it and refuses every
    candidate whose digest differs. *)
Theorem register_user_conflict_or_new
  (user_in : UserCreate) (env : Env) (w : World) :
  (email_registered (database w) (uc_email user_in) ->
   fst (POST_auth_register pbkdf2_hmac_sha256 user_in env w) =
     Raised (HTTPException 400 "Email already registered") /\
   database (snd (POST_auth_register pbkdf2_hmac_sha256 user_in env w)) =
     database w) /\
  (~ email_registered (database w) (uc_email user_in) ->
   (String.length (uc_password user_in) <= MAX_PASSWORD_SIZE)%nat ->
   salt_sized (env_salt env) ->
   exists u,
     fst (POST_auth_register pbkdf2_hmac_sha256 user_in env w) = Returned u /\
     user_email u = uc_email user_in /\
     user_hashed_password u =
       "$pbkdf2-sha256$29000$" ++ ab64_encode (env_salt env) ++ "$" ++
       ab64_encode
         (pbkdf2_hmac_sha256 (uc_password user_in) (env_salt env) 29000) /\
     verify_password pbkdf2_hmac_sha256 (uc_password user_in)
       (user_hashed_password u) = Returned true /\
     (forall candidate,
        (String.length candidate <= MAX_PASSWORD_SIZE)%nat ->
        pbkdf2_hmac_sha256 candidate (env_salt env) 29000 <>
          pbkdf2_hmac_sha256 (uc_password user_in) (env_salt env) 29000 ->
        verify_password pbkdf2_hmac_sha256 candidate
          (user_hashed_password u) = Returned false) /\
     ~ In (user_id u) (map user_id (users (database w))) /\
     users (database
              (snd (POST_auth_register pbkdf2_hmac_sha256 user_in env w))) =
       (users (database w) ++ [u])%list /\
     transactions
       (database
          (snd (POST_auth_register pbkdf2_hmac_sha256 user_in env w))) =
       transactions (database w)).
Proof.
  unfold POST_auth_register. rewrite Depends_get_db_run. split.
  - intros Hin. rewrite (register_user_conflict user_in env w Hin).
    split; reflexivity.
  - intros Hn Hsize Hsalt.
    rewrite (register_user_new user_in env w Hn Hsize). simpl.
    eexists. split; [reflexivity|].
    split; [reflexivity|]. split; [reflexivity|].
    change (user_hashed_password (new_User ?h _ _ _)) with h.
    pose proof (salt_sized_max _ Hsalt) as Hmax.
    split.
    { rewrite (verify_password_made_hash pbkdf2_hmac_sha256 pbkdf2_size
                 _ _ _ Hmax Hsize).
      rewrite String.eqb_refl. reflexivity. }
    split.
    { intros candidate Hcand Hdiffer.
      rewrite (verify_password_made_hash pbkdf2_hmac_sha256 pbkdf2_size
                 _ _ _ Hmax Hcand).
      apply String.eqb_neq in Hdiffer.
      unfold pbkdf2_sha256_default_rounds. rewrite Hdiffer. reflexivity. }
    split; [apply next_rowid_fresh|].
    split; reflexivity.
Qed.

(** C3. A login with the email of a stored user and a login with an
    email no stored user has do not always end the same way: with a
    password of more than 4096 characters the first raises passlib's
    [PasswordSizeError] from [verify_password] (a server error for the
    caller), the second the 400 [HTTPException] "Incorrect email or
    password"; the outcome tells whether the email is registered. *)
Theorem login_long_password_tells_registered
  (registered unknown : LoginRequest) (env1 env2 : Env) (w : World)
  (Hregistered : email_registered (database w) (lr_email registered))
  (Hhashes :
     Forall (fun u => hash_of_password pbkdf2_hmac_sha256
                        (user_hashed_password u))
       (users (database w)))
  (Hlong : (MAX_PASSWORD_SIZE < String.length (lr_password registered))%nat)
  (Hunknown : ~ email_registered (database w) (lr_email unknown)) :
  fst (POST_auth_login pbkdf2_hmac_sha256 hmac_sign registered env1 w) =
    Raised PasswordSizeError /\
  fst (POST_auth_login pbkdf2_hmac_sha256 hmac_sign unknown env2 w) =
    Raised (HTTPException 400 "Incorrect email or password") /\
  fst (POST_auth_login pbkdf2_hmac_sha256 hmac_sign registered env1 w) <>
    fst (POST_auth_login pbkdf2_hmac_sha256 hmac_sign unknown env2 w).
Proof.
  unfold POST_auth_login. rewrite !Depends_get_db_run.
  rewrite (login_long_password registered env1 w Hregistered Hhashes Hlong).
  rewrite (login_unknown_email unknown env2 w Hunknown). simpl.
  split; [reflexivity|]. split; [reflexivity | discriminate].
Qed.

End AuthProperties.

(** ** The statements on the sample data *)

Lemma Sample_pbkdf2_sized : digest_sized Sample.pbkdf2.
Proof.
  intros secret salt rounds. unfold Sample.pbkdf2.
  repeat destruct (_ && _); reflexivity.
Qed.

Lemma Sample_alice_hash :
  user_hashed_password Sample.alice =
  pbkdf2_sha256_hash Sample.pbkdf2 Sample.salt_a "hunter2".
Proof. vm_compute. reflexivity. Qed.

Lemma Sample_store_hashes :
  Forall (fun u => hash_of_password Sample.pbkdf2 (user_hashed_password u))
    (users Sample.store).
Proof.
  constructor; [|constructor].
  exists Sample.salt_a, "hunter2". split; [reflexivity | exact Sample_alice_hash].
Qed.

Lemma Sample_long_password_size :
  (MAX_PASSWORD_SIZE < String.length Sample.long_password)%nat.
Proof. apply Nat.ltb_lt. vm_compute. reflexivity. Qed.

(** The listing of the sample store shows the dates of the listing that
    puts the salary first, and three payloads posted into an empty store
    come back latest first. *)
Lemma list_transactions_date_descending_witness :
  (exists l,
     GET_transactions Sample.env (Sample.world Sample.store) =
       (Returned l,
        after_request (Sample.world Sample.store)
          (fresh_session (Sample.world Sample.store))) /\
     map tx_date [Sample.salary; Sample.rent] = map tx_date l) /\
  (exists t1 t2 t3 w1 w2 w3 w4,
     POST_transactions (Sample.payload "Food" 2024 1 1) Sample.env
       (Sample.world empty_database) = (Returned t1, w1) /\
     POST_transactions (Sample.payload "Rent" 2024 3 1) Sample.env w1 =
       (Returned t2, w2) /\
     POST_transactions (Sample.payload "Fuel" 2024 2 1) Sample.env w2 =
       (Returned t3, w3) /\
     GET_transactions Sample.env w3 = (Returned [t2; t3; t1], w4) /\
     map tx_date [t2; t3; t1] =
       [mk_date 2024 3 1; mk_date 2024 2 1; mk_date 2024 1 1]).
Proof.
  split.
  - destruct (proj1 list_transactions_date_descending Sample.env
                (Sample.world Sample.store))
      as [l [Hrun [_ [_ [_ Hties]]]]].
    exists l. split; [exact Hrun|].
    apply Hties.
    + simpl. apply perm_swap.
    + repeat constructor.
  - apply (proj2 list_transactions_date_descending
             Sample.env Sample.env Sample.env Sample.env
             (Sample.world empty_database)
             (Sample.payload "Food" 2024 1 1)
             (Sample.payload "Rent" 2024 3 1)
             (Sample.payload "Fuel" 2024 2 1));
      reflexivity.
Defined.

(** Registering Alice's email again is refused and the store kept;
    registering another email adds a user whose password field is the
    hash text of the password. *)
Lemma register_user_conflict_or_new_witness :
  (fst (POST_auth_register Sample.pbkdf2
          {| uc_email := "alice@example.com"; uc_password := "again" |}
          Sample.env (Sample.world Sample.store)) =
     Raised (HTTPException 400 "Email already registered") /\
   database
     (snd (POST_auth_register Sample.pbkdf2
             {| uc_email := "alice@example.com"; uc_password := "again" |}
             Sample.env (Sample.world Sample.store))) = Sample.store) /\
  (exists u,
     fst (POST_auth_register Sample.pbkdf2
            {| uc_email := "bob@example.com"; uc_password := "hunter2" |}
            Sample.env_b (Sample.world Sample.store)) = Returned u /\
     user_email u = "bob@example.com" /\
     user_hashed_password u =
       "$pbkdf2-sha256$29000$ZmVkY2JhOTg3NjU0MzIxMA$" ++
       "ruIJ2q1wxmCc5qHlitj.FUmmS/FFV.iKqewg50ZsKi4" /\
     users
       (database
          (snd (POST_auth_register Sample.pbkdf2
                  {| uc_email := "bob@example.com"; uc_password := "hunter2" |}
                  Sample.env_b (Sample.world Sample.store)))) =
       [Sample.alice; u]).
Proof.
  split.
  - apply (proj1 (register_user_conflict_or_new Sample.pbkdf2
                    Sample_pbkdf2_sized
                    {| uc_email := "alice@example.com"; uc_password := "again" |}
                    Sample.env (Sample.world Sample.store))).
    left. reflexivity.
  - destruct (proj2 (register_user_conflict_or_new Sample.pbkdf2
                       Sample_pbkdf2_sized
                       {| uc_email := "bob@example.com";
                          uc_password := "hunter2" |}
                       Sample.env_b (Sample.world Sample.store)))
      as [u [Hrun [Hemail [Hhash [_ [_ [_ [Husers _]]]]]]]].
    + intros [H|[]]. discriminate H.
    + apply Nat.leb_le. reflexivity.
    + reflexivity.
    + exists u. split; [exact Hrun|]. split; [exact Hemail|].
      split; [|exact Husers].
      rewrite Hhash. vm_compute. reflexivity.
Defined.

(** Registering an unused email with a password of 4097 characters
    raises [PasswordSizeError]: no user is returned and none is
    stored. *)
Lemma register_user_refuses_long_password :
  ~ email_registered Sample.store "bob@example.com" /\
  fst (POST_auth_register Sample.pbkdf2
         {| uc_email := "bob@example.com";
            uc_password := Sample.long_password |}
         Sample.env (Sample.world Sample.store)) = Raised PasswordSizeError /\
  ~ (exists u,
       fst (POST_auth_register Sample.pbkdf2
              {| uc_email := "bob@example.com";
                 uc_password := Sample.long_password |}
              Sample.env (Sample.world Sample.store)) = Returned u) /\
  users
    (database
       (snd (POST_auth_register Sample.pbkdf2
               {| uc_email := "bob@example.com";
                  uc_password := Sample.long_password |}
               Sample.env (Sample.world Sample.store)))) =
    users Sample.store.
Proof.
  assert (Hn : ~ email_registered Sample.store "bob@example.com").
  { intros [H|[]]. discriminate H. }
  split; [exact Hn|].
  unfold POST_auth_register. rewrite Depends_get_db_run.
  rewrite (register_user_too_long Sample.pbkdf2
             {| uc_email := "bob@example.com";
                uc_password := Sample.long_password |}
             Sample.env (Sample.world Sample.store) Hn
             Sample_long_password_size).
  split; [reflexivity|]. split; [|reflexivity].
  intros [u Hu]. discriminate Hu.
Qed.

(** Alice's email with a password of 4097 characters ends in
    [PasswordSizeError], an unknown email with the same password in the
    400. *)
Lemma login_long_password_tells_registered_witness :
  fst (POST_auth_login Sample.pbkdf2 (fun _ _ _ => "c2ln")
         {| lr_email := "alice@example.com";
            lr_password := Sample.long_password |}
         Sample.env (Sample.world Sample.store)) = Raised PasswordSizeError /\
  fst (POST_auth_login Sample.pbkdf2 (fun _ _ _ => "c2ln")
         {| lr_email := "mallory@example.com";
            lr_password := Sample.long_password |}
         Sample.env (Sample.world Sample.store)) =
    Raised (HTTPException 400 "Incorrect email or password").
Proof.
  destruct (login_long_password_tells_registered Sample.pbkdf2
              (fun _ _ _ => "c2ln")
              {| lr_email := "alice@example.com";
                 lr_password := Sample.long_password |}
              {| lr_email := "mallory@example.com";
                 lr_password := Sample.long_password |}
              Sample.env Sample.env (Sample.world Sample.store))
    as [Hregistered [Hunknown _]].
  - left. reflexivity.
  - exact Sample_store_hashes.
  - exact Sample_long_password_size.
  - intros [H|[]]. discriminate H.
  - split; [exact Hregistered | exact Hunknown].
Defined.

(** The identifier 2^63 is carried by no sample transaction and is
    refused by the store, not by the 404. *)
Lemma delete_transaction_oversize_id_witness :
  fst (DELETE_transactions (2 ^ 63) Sample.env (Sample.world Sample.store)) =
    Raised OverflowError /\
  fst (DELETE_transactions (2 ^ 63) Sample.env (Sample.world Sample.store)) <>
    Raised (HTTPException 404 "Transaction not found").
Proof.
  destruct (delete_transaction_oversize_id (2 ^ 63) Sample.env
              (Sample.world Sample.store)) as [Hrun [Hnot _]].
  - reflexivity.
  - simpl. lia.
  - split; [exact Hrun | exact Hnot].
Defined.

(** A payload posted into the sample store is listed, then deleted. *)
Lemma create_list_delete_list_witness :
  exists t w1 l1 w2 w3 l2 w4,
    POST_transactions (Sample.payload "Food" 2025 1 10) Sample.env
      (Sample.world Sample.store) = (Returned t, w1) /\
    tx_amount t = 250%float /\
    GET_transactions Sample.env w1 = (Returned l1, w2) /\
    In t l1 /\
    DELETE_transactions (tx_id t) Sample.env w2 = (Returned tt, w3) /\
    GET_transactions Sample.env w3 = (Returned l2, w4) /\
    ~ In t l2.
Proof.
  destruct (create_list_delete_list Sample.env Sample.env Sample.env Sample.env
              (Sample.world Sample.store) (Sample.payload "Food" 2025 1 10)
              eq_refl eq_refl)
    as [t [w1 [l1 [w2 [w3 [l2 [w4 H]]]]]]].
  exists t, w1, l1, w2, w3, l2, w4.
  destruct H as (H1 & _ & _ & _ & Hamount & _ & H2 & H3 & H4 & H5 & H6 & _).
  specialize (Hamount eq_refl).
  tauto.
Defined.

(** A payload whose amount is NaN is refused by the store: no row is
    returned, and a listing shows the rows there were. *)
Lemma create_list_delete_list_nan :
  fst (POST_transactions Sample.nan_payload Sample.env
         (Sample.world Sample.store)) =
    Raised (PyException "IntegrityError"
              "NOT NULL constraint failed: transactions.amount") /\
  ~ (exists t w1,
       POST_transactions Sample.nan_payload Sample.env
         (Sample.world Sample.store) = (Returned t, w1)) /\
  fst (GET_transactions Sample.env
         (snd (POST_transactions Sample.nan_payload Sample.env
                 (Sample.world Sample.store)))) =
    Returned [Sample.salary; Sample.rent].
Proof.
  rewrite (POST_transactions_nan Sample.nan_payload Sample.env
             (Sample.world Sample.store) eq_refl).
  split; [reflexivity|]. split.
  - intros [t [w1 H]]. discriminate H.
  - reflexivity.
Qed.

(** The payload of 2025-01-10 15:30 is stored under 2025-01-10. *)
Lemma create_transaction_keeps_calendar_date_witness :
  exists t w1,
    POST_transactions (Sample.payload "Food" 2025 1 10) Sample.env
      (Sample.world Sample.store) = (Returned t, w1) /\
    tx_date t = mk_date 2025 1 10.
Proof.
  destruct (create_transaction_keeps_calendar_date Sample.env Sample.env
              (Sample.world Sample.store) (Sample.payload "Food" 2025 1 10)
              eq_refl)
    as [t [w1 [l [w2 [Hrun [Hdate _]]]]]].
  exists t, w1. split; [exact Hrun | exact Hdate].
Defined.

(** A payload with a time of day whose amount is NaN is not accepted:
    the store refuses it and keeps its rows. *)
Lemma create_transaction_keeps_calendar_date_nan :
  hour (tc_date Sample.nan_payload) = 15 /\
  minute (tc_date Sample.nan_payload) = 30 /\
  ~ (exists t w1,
       POST_transactions Sample.nan_payload Sample.env
         (Sample.world Sample.store) = (Returned t, w1)) /\
  database
    (snd (POST_transactions Sample.nan_payload Sample.env
            (Sample.world Sample.store))) = Sample.store.
Proof.
  split; [reflexivity|]. split; [reflexivity|].
  rewrite (POST_transactions_nan Sample.nan_payload Sample.env
             (Sample.world Sample.store) eq_refl).
  split; [|reflexivity].
  intros [t [w1 H]]. discriminate H.
Qed.

(** Two salts, one password. *)
Lemma get_password_hash_salted_and_verified_witness :
  (exists h1 h2,
     get_password_hash Sample.pbkdf2 Sample.salt_a "hunter2" = Returned h1 /\
     get_password_hash Sample.pbkdf2 Sample.salt_b "hunter2" = Returned h2 /\
     h1 <> h2) /\
  (exists h,
     get_password_hash Sample.pbkdf2 Sample.salt_a "hunter2" = Returned h /\
     verify_password Sample.pbkdf2 "hunter2" h = Returned true).
Proof.
  destruct (get_password_hash_salted_and_verified Sample.pbkdf2
              Sample_pbkdf2_sized "hunter2") as [Hsalt Hverify].
  - apply Nat.leb_le. reflexivity.
  - split.
    + apply Hsalt. discriminate.
    + apply Hverify. reflexivity.
Defined.

(** A password of 4097 characters gets no hash: [get_password_hash]
    raises [PasswordSizeError]. *)
Lemma get_password_hash_refuses_long_password :
  get_password_hash Sample.pbkdf2 Sample.salt_a Sample.long_password =
    Raised PasswordSizeError /\
  ~ (exists h,
       get_password_hash Sample.pbkdf2 Sample.salt_a Sample.long_password =
         Returned h /\
       verify_password Sample.pbkdf2 Sample.long_password h = Returned true).
Proof.
  assert (Hrun :
    get_password_hash Sample.pbkdf2 Sample.salt_a Sample.long_password =
    Raised PasswordSizeError).
  { unfold get_password_hash.
    rewrite (validate_secret_too_long _ Sample_long_password_size).
    reflexivity. }
  split; [exact Hrun|].
  intros [h [Hh _]]. rewrite Hrun in Hh. discriminate Hh.
Qed.

(** The provider prices "aapl"; the answer names "AAPL". *)
Lemma get_stock_price_upper_symbol_witness :
  get_stock_price Sample.Ticker_info "aapl" =
    Returned {| symbol := "AAPL"; price := Some 189.5%float |} /\
  ("AAPL" <> "aapl").
Proof.
  destruct (get_stock_price_upper_symbol Sample.Ticker_info "aapl"
              {[ "currentPrice" := 189.5%float ]} 189.5%float
              eq_refl eq_refl) as [Hrun [Hchanged _]].
  split; [exact Hrun | apply Hchanged; reflexivity].
Defined.

(** * Further properties of the backend *)

(** ** Text taken apart and put together *)

Lemma strip_prefix_Some (p s rest : string) :
  strip_prefix p s = Some rest -> s = p ++ rest.
Proof.
  revert s. induction p as [|a p IH]; intros s H.
  - destruct s; simpl in H; injection H as <-; reflexivity.
  - destruct s as [|b s]; simpl in H; [discriminate|].
    destruct (Ascii.eqb_spec a b) as [->|_]; [|discriminate].
    change (String b s = String b (p ++ rest)).
    f_equal. apply IH. exact H.
Qed.

Lemma split_nonempty (sep : ascii) (s : string) : split sep s <> [].
Proof.
  destruct s as [|c s]; simpl; [discriminate|].
  destruct (Ascii.eqb c sep); [discriminate|].
  destruct (split sep s); discriminate.
Qed.

(** [sep.join(s.split(sep)) == s] *)
Lemma concat_split (sep : ascii) (s : string) :
  String.concat (String sep EmptyString) (split sep s) = s.
Proof.
  induction s as [|c s IH]; simpl; [reflexivity|].
  destruct (Ascii.eqb_spec c sep) as [->|Hne].
  - pose proof (split_nonempty sep s) as Hs.
    destruct (split sep s) as [|h t] eqn:E; [contradiction|].
    simpl. simpl in IH. rewrite IH. reflexivity.
  - pose proof (split_nonempty sep s) as Hs.
    destruct (split sep s) as [|h t] eqn:E; [contradiction|].
    simpl in IH. destruct t as [|h' t'].
    + simpl. rewrite <- IH. reflexivity.
    + simpl. rewrite <- IH. reflexivity.
Qed.

(** ** Tables under the statements of a flush *)

Lemma NoDup_map_filter {A B} (f : A -> B) (p : A -> bool) (l : list A) :
  NoDup (map f l) -> NoDup (map f (List.filter p l)).
Proof.
  induction l as [|a l IH]; simpl; intros H; [constructor|].
  apply NoDup_cons in H. destruct H as [Hn Hd].
  destruct (p a); simpl.
  - apply NoDup_cons. split; [|apply IH; exact Hd].
    intros Hin. apply Hn. apply list_elem_of_In in Hin.
    apply list_elem_of_In. apply in_map_iff in Hin.
    destruct Hin as [x [Hx Hin]]. apply List.filter_In in Hin.
    apply in_map_iff. exists x. tauto.
  - apply IH. exact Hd.
Qed.

Lemma NoDup_snoc {A} (l : list A) (x : A) :
  NoDup l -> ~ In x l -> NoDup (l ++ [x]).
Proof.
  intros Hl Hx. apply NoDup_app. split; [exact Hl|].
  split.
  - intros y Hy Hyx. apply list_elem_of_In in Hyx.
    destruct Hyx as [->|[]]. apply Hx. apply list_elem_of_In. exact Hy.
  - apply NoDup_singleton.
Qed.

Lemma Forall_filter_keep {A} (P : A -> Prop) (p : A -> bool) (l : list A) :
  Forall P l -> Forall P (List.filter p l).
Proof.
  intros H. apply List.Forall_forall. intros x Hx.
  apply List.filter_In in Hx. destruct Hx as [Hx _].
  rewrite List.Forall_forall in H. apply H. exact Hx.
Qed.

(** Under keys that are not repeated a deletion takes one row. *)
Lemma filter_out_key_length (l : list Transaction) (id : Z) :
  NoDup (map tx_id l) -> In id (map tx_id l) ->
  S (length (List.filter (fun t => negb (tx_id t =? id)) l)) = length l.
Proof.
  induction l as [|t l IH]; simpl; intros Hd Hin; [contradiction|].
  apply NoDup_cons in Hd. destruct Hd as [Hn Hd].
  destruct (Z.eqb_spec (tx_id t) id) as [Heq|Hne]; simpl.
  - f_equal. subst id.
    assert (Hall : forall u, In u l -> negb (tx_id u =? tx_id t) = true).
    { intros u Hu. apply negb_true_iff. apply Z.eqb_neq. intros Heq.
      apply Hn. apply list_elem_of_In. rewrite <- Heq. apply in_map. exact Hu. }
    clear -Hall. induction l as [|u l IH]; simpl; [reflexivity|].
    rewrite (Hall u (or_introl eq_refl)). simpl. f_equal.
    apply IH. intros v Hv. apply Hall. right. exact Hv.
  - f_equal. apply IH; [exact Hd|].
    destruct Hin as [Heq|Hin]; [contradiction | exact Hin].
Qed.

(** ** The endpoints that only read, and what each route leaves *)

Lemma snd_answer {A} (wrap : A -> response) (r : Outcome A * World) :
  snd (answer wrap r) = snd r.
Proof. destruct r as [[a|e] w]; reflexivity. Qed.

Lemma Depends_get_db_database {A} (endpoint : M A) (env : Env) (w : World) :
  database (snd (Depends_get_db endpoint env w)) =
  rows (snd (endpoint env (fresh_session w))).
Proof. rewrite Depends_get_db_run. reflexivity. Qed.

Section ApplicationProperties.

Variable pbkdf2_hmac_sha256 : string -> string -> Z -> string.
Variable hmac_sign : string -> string -> jws_header * gmap string json -> string.
Variable Ticker_info : string -> Outcome (gmap string float).

(** [login] reads the session and leaves it as it is. *)
Lemma login_session (payload : LoginRequest) (env : Env) (s : Session) :
  snd (login pbkdf2_hmac_sha256 hmac_sign payload env s) = s.
Proof.
  unfold login, bind, filter_email, query_User, lift, ask, raise, ret. simpl.
  destruct (first _) as [u|]; [|reflexivity].
  destruct (verify_password _ _ _) as [[|]|e]; simpl; try reflexivity;
    destruct (create_access_token _ _ _ _); reflexivity.
Qed.

Lemma register_user_rows (user_in : UserCreate) (env : Env) (w : World) :
  rows (snd (register_user pbkdf2_hmac_sha256 user_in env (fresh_session w))) =
    database w \/
  (~ email_registered (database w) (uc_email user_in) /\
   (String.length (uc_password user_in) <= MAX_PASSWORD_SIZE)%nat /\
   rows (snd (register_user pbkdf2_hmac_sha256 user_in env (fresh_session w))) =
     with_User (database w)
       (new_User (pbkdf2_sha256_hash pbkdf2_hmac_sha256 (env_salt env)
                    (uc_password user_in))
          env (database w) user_in)).
Proof.
  destruct (in_dec string_dec (uc_email user_in)
              (map user_email (users (database w)))) as [Hin|Hn].
  - left.
    rewrite (register_user_conflict pbkdf2_hmac_sha256 user_in env w Hin).
    reflexivity.
  - destruct (le_lt_dec (String.length (uc_password user_in)) MAX_PASSWORD_SIZE)
      as [Hsize|Hsize].
    + right. split; [exact Hn|]. split; [exact Hsize|].
      rewrite (register_user_new pbkdf2_hmac_sha256 user_in env w Hn Hsize).
      reflexivity.
    + left.
      rewrite (register_user_too_long pbkdf2_hmac_sha256 user_in env w Hn Hsize).
      reflexivity.
Qed.

Lemma create_transaction_rows (tx : TransactionCreate) (env : Env) (w : World) :
  (is_nan (tc_amount tx) = true /\
   rows (snd (create_transaction tx env (fresh_session w))) = database w) \/
  (is_nan (tc_amount tx) = false /\
   rows (snd (create_transaction tx env (fresh_session w))) =
     with_Transaction (database w) (new_Transaction (database w) tx)).
Proof.
  destruct (is_nan (tc_amount tx)) eqn:Hamount.
  - left. split; [reflexivity|].
    rewrite (create_transaction_nan tx env w Hamount). reflexivity.
  - right. split; [reflexivity|].
    rewrite (create_transaction_run tx env w Hamount). reflexivity.
Qed.

Lemma delete_transaction_rows (id : Z) (env : Env) (w : World) :
  rows (snd (delete_transaction id env (fresh_session w))) = database w \/
  (sqlite_int id = true /\
   In id (map tx_id (transactions (database w))) /\
   rows (snd (delete_transaction id env (fresh_session w))) =
     without_Transaction (database w) id).
Proof.
  destruct (sqlite_int id) eqn:Hid.
  - destruct (in_dec Z.eq_dec id (map tx_id (transactions (database w))))
      as [Hin|Hn].
    + right. split; [reflexivity|]. split; [exact Hin|].
      rewrite (delete_transaction_present id env w Hid Hin). reflexivity.
    + left. rewrite (delete_transaction_absent id env w Hid Hn). reflexivity.
  - left. rewrite (delete_transaction_overflow id env w Hid). reflexivity.
Qed.

(** What a request leaves of the process: nothing changed when the
    route takes no session; otherwise the session of the request was
    opened and closed, and the store is what the endpoint committed. *)
Lemma app_world (req : request) (env : Env) (w : World) :
  (takes_session req = false /\
   snd (app pbkdf2_hmac_sha256 hmac_sign Ticker_info req env w) = w) \/
  (takes_session req = true /\
   exists s',
     snd (app pbkdf2_hmac_sha256 hmac_sign Ticker_info req env w) =
       after_request w s').
Proof.
  destruct req; simpl;
    try (right; split; [reflexivity|]; rewrite snd_answer;
         unfold POST_auth_register, POST_auth_login, GET_db_test,
           GET_transactions_debug, POST_transactions, GET_transactions,
           DELETE_transactions;
         rewrite Depends_get_db_run; eexists; reflexivity).
  - left. split; reflexivity.
  - left. split; [reflexivity|].
    destruct (get_stock_price Ticker_info sym); reflexivity.
Qed.

Lemma app_database (req : request) (env : Env) (w : World) :
  database (snd (app pbkdf2_hmac_sha256 hmac_sign Ticker_info req env w)) =
  match req with
  | PostAuthRegister user_in =>
      rows (snd (register_user pbkdf2_hmac_sha256 user_in env (fresh_session w)))
  | PostTransactions tx =>
      rows (snd (create_transaction tx env (fresh_session w)))
  | DeleteTransactions id =>
      rows (snd (delete_transaction id env (fresh_session w)))
  | _ => database w
  end.
Proof.
  destruct req; simpl; rewrite ?snd_answer;
    unfold POST_auth_register, POST_auth_login, GET_db_test,
      GET_transactions_debug, POST_transactions, GET_transactions,
      DELETE_transactions;
    rewrite ?Depends_get_db_database; try reflexivity.
  - rewrite login_session. reflexivity.
  - destruct (get_stock_price Ticker_info sym); reflexivity.
Qed.

End ApplicationProperties.

(** ** Reading routes, failing requests, and the store they leave *)

Section StoreProperties.

Variable pbkdf2_hmac_sha256 : string -> string -> Z -> string.
Variable hmac_sign : string -> string -> jws_header * gmap string json -> string.
Variable Ticker_info : string -> Outcome (gmap string float).

(** X1. The routes that neither add nor delete ([/health],
    [/auth/login], [/db-test], [/transactions-debug], [GET /transactions],
    [/stock-price]) leave the store as it was, whatever they answer. *)
Theorem reading_routes_keep_store
  (req : request) (env : Env) (w : World)
  (Hreads : writes_store req = false) :
  database (snd (app pbkdf2_hmac_sha256 hmac_sign Ticker_info req env w)) =
  database w.
Proof.
  rewrite app_database. destruct req; try reflexivity; discriminate Hreads.
Qed.

(** X2. A request that ends in an exception leaves the store as it was:
    no route commits and then raises. *)
Theorem raising_request_keeps_store
  (req : request) (env : Env) (w : World) (e : exn)
  (Hraised :
     fst (app pbkdf2_hmac_sha256 hmac_sign Ticker_info req env w) = Raised e) :
  database (snd (app pbkdf2_hmac_sha256 hmac_sign Ticker_info req env w)) =
  database w.
Proof.
  rewrite app_database. destruct req; try reflexivity.
  - destruct (register_user_rows pbkdf2_hmac_sha256 user_in env w)
      as [Hrows|[Hn [Hsize _]]]; [exact Hrows|].
    exfalso. simpl in Hraised. unfold POST_auth_register in Hraised.
    rewrite Depends_get_db_run in Hraised.
    rewrite (register_user_new pbkdf2_hmac_sha256 user_in env w Hn Hsize)
      in Hraised.
    discriminate Hraised.
  - destruct (create_transaction_rows tx env w) as [[_ Hrows]|[Hamount _]];
      [exact Hrows|].
    exfalso. simpl in Hraised.
    rewrite (POST_transactions_run tx env w Hamount) in Hraised.
    discriminate Hraised.
  - destruct (delete_transaction_rows tx_id0 env w)
      as [Hrows|[Hid [Hin _]]]; [exact Hrows|].
    exfalso. simpl in Hraised.
    rewrite (DELETE_transactions_present tx_id0 env w Hid Hin) in Hraised.
    discriminate Hraised.
Qed.

(** One request keeps a store well formed. *)
Lemma app_keeps_store_ok (req : request) (env : Env) (w : World) :
  store_ok (database w) ->
  store_ok
    (database (snd (app pbkdf2_hmac_sha256 hmac_sign Ticker_info req env w))).
Proof.
  intros Hok. rewrite app_database. destruct req; try exact Hok.
  - destruct (register_user_rows pbkdf2_hmac_sha256 user_in env w)
      as [->|[Hn [_ ->]]]; [exact Hok|].
    destruct Hok as [Ht [Hu [He [Hft Hfu]]]].
    unfold store_ok, with_User. simpl. rewrite !map_app. simpl.
    split; [exact Ht|].
    split; [apply NoDup_snoc; [exact Hu | apply next_rowid_fresh]|].
    split; [apply NoDup_snoc; [exact He | exact Hn]|].
    split; [exact Hft|].
    apply Forall_app. split; [exact Hfu|].
    constructor; [|constructor]. simpl. apply next_rowid_positive.
  - destruct (create_transaction_rows tx env w) as [[_ ->]|[Hamount ->]];
      [exact Hok|].
    destruct Hok as [Ht [Hu [He [Hft Hfu]]]].
    unfold store_ok, with_Transaction. simpl. rewrite !map_app. simpl.
    split; [apply NoDup_snoc; [exact Ht | apply next_rowid_fresh]|].
    split; [exact Hu|]. split; [exact He|].
    split; [|exact Hfu].
    apply Forall_app. split; [exact Hft|].
    constructor; [|constructor]. simpl.
    split; [apply next_rowid_positive | apply sqlite_real_not_nan; exact Hamount].
  - destruct (delete_transaction_rows tx_id0 env w) as [->|[_ [_ ->]]];
      [exact Hok|].
    destruct Hok as [Ht [Hu [He [Hft Hfu]]]].
    unfold store_ok, without_Transaction. simpl.
    split; [apply NoDup_map_filter; exact Ht|].
    split; [exact Hu|]. split; [exact He|].
    split; [apply Forall_filter_keep; exact Hft | exact Hfu].
Qed.

(** X3. Whatever requests the application has served since it was
    started on a new store, the store is well formed: no two
    transactions and no two users share a key, no two users share an
    email, every key is positive, and no amount is NaN. *)
Theorem served_store_is_well_formed (reqs : list (request * Env)) :
  store_ok
    (database (serve pbkdf2_hmac_sha256 hmac_sign Ticker_info reqs
                 initial_world)).
Proof.
  assert (Hgen : forall w, store_ok (database w) ->
    store_ok
      (database (serve pbkdf2_hmac_sha256 hmac_sign Ticker_info reqs w))).
  { induction reqs as [|[req env] reqs IH]; intros w Hok; simpl.
    - exact Hok.
    - apply IH. apply app_keeps_store_ok. exact Hok. }
  apply Hgen. unfold store_ok, initial_world, empty_database. simpl.
  repeat split; constructor.
Qed.

Lemma bracketed_log_serve (reqs : list (request * Env)) (w : World) :
  live_sessions w = ∅ ->
  session_log w = bracketed_log (sessions_made w) ->
  let w' := serve pbkdf2_hmac_sha256 hmac_sign Ticker_info reqs w in
  live_sessions w' = ∅ /\
  session_log w' = bracketed_log (sessions_made w') /\
  sessions_made w' =
    (sessions_made w +
     length (List.filter takes_session (map fst reqs)))%nat.
Proof.
  revert w. induction reqs as [|[req env] reqs IH]; intros w Hlive Hlog; simpl.
  - split; [exact Hlive|]. split; [exact Hlog | lia].
  - destruct (app_world pbkdf2_hmac_sha256 hmac_sign Ticker_info req env w)
      as [[Hno Hw]|[Hyes [s' Hw]]]; rewrite Hw, ?Hno, ?Hyes.
    + apply IH; assumption.
    + destruct (IH (after_request w s')) as [H1 [H2 H3]].
      * simpl. rewrite Hlive. apply delete_empty.
      * simpl. rewrite Hlog. reflexivity.
      * split; [exact H1|]. split; [exact H2|].
        rewrite H3. simpl. lia.
Qed.

(** X4. After any sequence of requests no session is open, and the log
    of sessions is one opening followed by its closing for each request
    of a route that takes a session, in order; [/health] and
    [/stock-price] open none. *)
Theorem served_sessions_are_closed (reqs : list (request * Env)) :
  let w := serve pbkdf2_hmac_sha256 hmac_sign Ticker_info reqs initial_world in
  live_sessions w = ∅ /\
  session_log w = bracketed_log (sessions_made w) /\
  sessions_made w = length (List.filter takes_session (map fst reqs)).
Proof.
  apply (bracketed_log_serve reqs initial_world); reflexivity.
Qed.

End StoreProperties.

(** ** Passwords, tokens and logging in *)

Section LoginProperties.

Variable pbkdf2_hmac_sha256 : string -> string -> Z -> string.
Variable hmac_sign : string -> string -> jws_header * gmap string json -> string.
Variable Ticker_info : string -> Outcome (gmap string float).
Variable EmailStr : string -> Outcome string.

Hypothesis pbkdf2_size : digest_sized pbkdf2_hmac_sha256.

(** X5. Against the hash [get_password_hash] made for a password (under
    a salt of 16 bytes), [verify_password] raises for a candidate of
    more than 4096 characters and for no other: for a candidate within
    that size it answers whether the digest of the candidate under the
    salt and rounds of the hash is the digest stored, so a candidate
    whose digest differs is refused. *)
Theorem verify_password_compares_digests
  (salt password candidate h : string)
  (Hsalt : salt_sized salt)
  (Hmade : get_password_hash pbkdf2_hmac_sha256 salt password = Returned h) :
  ((String.length candidate <= MAX_PASSWORD_SIZE)%nat ->
   verify_password pbkdf2_hmac_sha256 candidate h =
     Returned
       (String.eqb
          (pbkdf2_hmac_sha256 candidate salt pbkdf2_sha256_default_rounds)
          (pbkdf2_hmac_sha256 password salt pbkdf2_sha256_default_rounds)) /\
   (pbkdf2_hmac_sha256 candidate salt pbkdf2_sha256_default_rounds <>
      pbkdf2_hmac_sha256 password salt pbkdf2_sha256_default_rounds ->
    verify_password pbkdf2_hmac_sha256 candidate h = Returned false)) /\
  ((MAX_PASSWORD_SIZE < String.length candidate)%nat ->
   verify_password pbkdf2_hmac_sha256 candidate h = Raised PasswordSizeError).
Proof.
  unfold get_password_hash in Hmade.
  destruct (validate_secret password); [|discriminate Hmade].
  injection Hmade as <-.
  split.
  - intros Hsize.
    rewrite (verify_password_made_hash pbkdf2_hmac_sha256 pbkdf2_size
               salt password candidate (salt_sized_max salt Hsalt) Hsize).
    split; [reflexivity|].
    intros Hdiffer. apply String.eqb_neq in Hdiffer. rewrite Hdiffer.
    reflexivity.
  - intros Hsize.
    apply (verify_password_too_long pbkdf2_hmac_sha256); [|exact Hsize].
    exists salt, password. split; [exact Hsalt | reflexivity].
Qed.

(** [create_access_token] without a lifetime. *)
Lemma create_access_token_run (data : gmap string json) (now : Z) :
  let header := {| alg := ALGORITHM; typ := "JWT" |} in
  let claims :=
    <["exp" := JInt (timegm (now + effective_lifetime None))]> data in
  create_access_token hmac_sign data None now =
  Returned {| jwt_header := header;
              jwt_claims := claims;
              jwt_signature := hmac_sign ALGORITHM SECRET_KEY (header, claims) |}.
Proof.
  unfold create_access_token, jwt_encode, effective_lifetime, default_expiry.
  rewrite convert_time_claims_exp, json_payload_fmap. reflexivity.
Qed.

(** [create_access_token] with a lifetime that keeps the expiry within
    the range of [datetime]. *)
Lemma create_access_token_explicit
  (data : gmap string json) (now d : Z) :
  d <> 0 ->
  datetime_min <= now + d <= datetime_max ->
  let header := {| alg := ALGORITHM; typ := "JWT" |} in
  let claims := <["exp" := JInt (timegm (now + d))]> data in
  create_access_token hmac_sign data (Some d) now =
  Returned {| jwt_header := header;
              jwt_claims := claims;
              jwt_signature := hmac_sign ALGORITHM SECRET_KEY (header, claims) |}.
Proof.
  intros Hd [Hmin Hmax]. unfold create_access_token, datetime_add.
  apply Z.eqb_neq in Hd. rewrite Hd.
  apply Z.leb_le in Hmin. apply Z.leb_le in Hmax. rewrite Hmin, Hmax.
  cbn [andb]. unfold jwt_encode.
  rewrite convert_time_claims_exp, json_payload_fmap. reflexivity.
Qed.

(** X6. An explicit lifetime sets the expiry to the whole second of the
    clock plus that lifetime when that instant is one a [datetime]
    holds (the years 1 to 9999), and raises [OverflowError] when it is
    not; the lifetime zero Python takes for absent: the token then lives
    the default 30 minutes and is the very token issued without a
    lifetime. *)
Theorem create_access_token_lifetime
  (data : gmap string json) (now d : Z) :
  create_access_token hmac_sign data (Some 0) now =
    create_access_token hmac_sign data None now /\
  (d <> 0 ->
   datetime_min <= now + d <= datetime_max ->
   exists tok,
     create_access_token hmac_sign data (Some d) now = Returned tok /\
     jwt_claims tok !! "exp" = Some (JInt (timegm (now + d))) /\
     delete "exp" (jwt_claims tok) = delete "exp" data /\
     jws_verify hmac_sign tok SECRET_KEY ALGORITHM =
       Returned (jwt_claims tok)) /\
  (d <> 0 ->
   ~ (datetime_min <= now + d <= datetime_max) ->
   create_access_token hmac_sign data (Some d) now =
     Raised (PyException "OverflowError" "date value out of range")).
Proof.
  split; [reflexivity|]. split.
  - intros Hd Hrange. rewrite (create_access_token_explicit data now d Hd Hrange).
    eexists. split; [reflexivity|]. simpl.
    split; [apply lookup_insert_eq|].
    split; [apply delete_insert_eq|].
    unfold jws_verify. simpl. rewrite !String.eqb_refl. reflexivity.
  - intros Hd Hrange. unfold create_access_token, datetime_add.
    apply Z.eqb_neq in Hd. rewrite Hd.
    destruct ((datetime_min <=? now + d) && (now + d <=? datetime_max))
      eqn:Hin; [|reflexivity].
    exfalso. apply Hrange. apply andb_prop in Hin. destruct Hin as [H1 H2].
    apply Z.leb_le in H1. apply Z.leb_le in H2. split; assumption.
Qed.

(** [login] on a session whose table holds a user of the email. *)
Lemma login_registered (payload : LoginRequest) (env : Env) (w : World)
  (u : User) :
  first (List.filter (fun v => String.eqb (user_email v) (lr_email payload))
           (users (database w))) = Some u ->
  fst (login pbkdf2_hmac_sha256 hmac_sign payload env (fresh_session w)) =
  match verify_password pbkdf2_hmac_sha256 (lr_password payload)
          (user_hashed_password u) with
  | Returned true =>
      match create_access_token hmac_sign {[ "sub" := JStr (user_email u) ]}
              None (env_now env) with
      | Returned tok => Returned {| access_token := tok; token_type := "bearer" |}
      | Raised e => Raised e
      end
  | Returned false =>
      Raised (HTTPException 400 "Incorrect email or password")
  | Raised e => Raised e
  end.
Proof.
  intros Hf. unfold login, bind, filter_email, query_User, lift, ask. simpl.
  rewrite Hf.
  destruct (verify_password _ _ _) as [[|]|e]; simpl; try reflexivity;
    destruct (create_access_token _ _ _ _); reflexivity.
Qed.

(** The route on a body is the route on the payload validation gives. *)
Lemma POST_auth_login_body_run (email password : string) (env : Env)
  (w : World) :
  POST_auth_login_body pbkdf2_hmac_sha256 hmac_sign EmailStr email password
    env w =
  match EmailStr email with
  | Returned normalized =>
      POST_auth_login pbkdf2_hmac_sha256 hmac_sign
        {| lr_email := normalized; lr_password := password |} env w
  | Raised e => (Raised e, after_request w (fresh_session w))
  end.
Proof.
  unfold POST_auth_login_body, POST_auth_login.
  rewrite Depends_get_db_run. unfold bind, lift, LoginRequest_validate.
  destruct (EmailStr email) as [normalized|e];
    [rewrite Depends_get_db_run|]; reflexivity.
Qed.

(** X7. After an unused email is registered with a password of at most
    4096 characters, a login that sends the same email and password
    succeeds when the validation of [LoginRequest] leaves the email as
    it was sent: it returns a bearer token signed under [SECRET_KEY]
    whose subject is the email and whose expiry is 30 minutes after the
    login, and it leaves the store as the registration made it.  When
    the validation normalises the email to an address no stored user
    has, the login is refused with the 400 [HTTPException]; when it
    refuses the email, its error is the outcome. *)
Theorem register_then_login
  (user_in : UserCreate) (env1 env2 : Env) (w : World)
  (Hunused : ~ email_registered (database w) (uc_email user_in))
  (Hsize : (String.length (uc_password user_in) <= MAX_PASSWORD_SIZE)%nat)
  (Hsalt : salt_sized (env_salt env1)) :
  let w1 := snd (POST_auth_register pbkdf2_hmac_sha256 user_in env1 w) in
  let login_sent :=
    POST_auth_login_body pbkdf2_hmac_sha256 hmac_sign EmailStr
      (uc_email user_in) (uc_password user_in) env2 w1 in
  (EmailStr (uc_email user_in) = Returned (uc_email user_in) ->
   exists tok,
     fst login_sent =
       Returned {| access_token := tok; token_type := "bearer" |} /\
     jws_verify hmac_sign tok SECRET_KEY ALGORITHM =
       Returned (jwt_claims tok) /\
     jwt_claims tok !! "sub" = Some (JStr (uc_email user_in)) /\
     jwt_claims tok !! "exp" =
       Some (JInt (timegm (env_now env2 + 30 * 60 * 1000000))) /\
     database (snd login_sent) = database w1) /\
  (forall normalized,
     EmailStr (uc_email user_in) = Returned normalized ->
     ~ email_registered (database w1) normalized ->
     fst login_sent =
       Raised (HTTPException 400 "Incorrect email or password")) /\
  (forall e,
     EmailStr (uc_email user_in) = Raised e -> fst login_sent = Raised e).
Proof.
  intros w1 login_sent. unfold login_sent.
  rewrite POST_auth_login_body_run.
  set (u := new_User
              (pbkdf2_sha256_hash pbkdf2_hmac_sha256 (env_salt env1)
                 (uc_password user_in))
              env1 (database w) user_in).
  assert (Hw1 : database w1 = with_User (database w) u).
  { unfold w1, POST_auth_register. rewrite Depends_get_db_database.
    rewrite (register_user_new pbkdf2_hmac_sha256 user_in env1 w Hunused Hsize).
    reflexivity. }
  split; [|split].
  - intros Hvalid. rewrite Hvalid.
    set (payload :=
           {| lr_email := uc_email user_in;
              lr_password := uc_password user_in |}).
    assert (Hfirst :
      first (List.filter
               (fun v => String.eqb (user_email v) (lr_email payload))
               (users (database w1))) = Some u).
    { rewrite Hw1. simpl. rewrite List.filter_app. unfold first.
      assert (Hnone : List.filter
                (fun v => String.eqb (user_email v) (uc_email user_in))
                (users (database w)) = []).
      { pose proof (email_unregistered_first _ _ Hunused) as Hf.
        unfold first in Hf.
        destruct (List.filter _ (users (database w)));
          [reflexivity|discriminate]. }
      rewrite Hnone. simpl. rewrite String.eqb_refl. reflexivity. }
    unfold POST_auth_login. rewrite Depends_get_db_run. simpl fst. simpl snd.
    rewrite login_session.
    rewrite (login_registered payload env2 w1 u Hfirst).
    change (user_hashed_password u)
      with (pbkdf2_sha256_hash pbkdf2_hmac_sha256 (env_salt env1)
              (uc_password user_in)).
    change (lr_password payload) with (uc_password user_in).
    rewrite (verify_password_made_hash pbkdf2_hmac_sha256 pbkdf2_size
               _ _ _ (salt_sized_max _ Hsalt) Hsize), String.eqb_refl.
    rewrite create_access_token_run. eexists.
    split; [reflexivity|]. simpl.
    split.
    { unfold jws_verify. simpl. rewrite !String.eqb_refl. reflexivity. }
    split.
    { rewrite lookup_insert_ne by discriminate. apply lookup_singleton_eq. }
    split; [apply lookup_insert_eq | reflexivity].
  - intros normalized Hvalid Hunknown. rewrite Hvalid.
    unfold POST_auth_login. rewrite Depends_get_db_run.
    rewrite (login_unknown_email pbkdf2_hmac_sha256 hmac_sign
               {| lr_email := normalized;
                  lr_password := uc_password user_in |} env2 w1 Hunknown).
    reflexivity.
  - intros e Hinvalid. rewrite Hinvalid. reflexivity.
Qed.

(** One request keeps the hashes of the stored users well made. *)
Lemma app_keeps_hashes (req : request) (env : Env) (w : World) :
  salt_sized (env_salt env) ->
  Forall (fun u => hash_of_password pbkdf2_hmac_sha256 (user_hashed_password u))
    (users (database w)) ->
  Forall (fun u => hash_of_password pbkdf2_hmac_sha256 (user_hashed_password u))
    (users (database
              (snd (app pbkdf2_hmac_sha256 hmac_sign Ticker_info req env w)))).
Proof.
  intros Hsalt Hall. rewrite app_database. destruct req; try exact Hall.
  - destruct (register_user_rows pbkdf2_hmac_sha256 user_in env w)
      as [->|[_ [_ ->]]]; [exact Hall|].
    simpl. apply Forall_app. split; [exact Hall|].
    constructor; [|constructor]. simpl.
    exists (env_salt env), (uc_password user_in). split; [exact Hsalt|reflexivity].
  - destruct (create_transaction_rows tx env w) as [[_ ->]|[_ ->]]; exact Hall.
  - destruct (delete_transaction_rows tx_id0 env w) as [->|[_ [_ ->]]];
      exact Hall.
Qed.

Lemma served_hashes (reqs : list (request * Env)) (w : World) :
  salts_sized reqs ->
  Forall (fun u => hash_of_password pbkdf2_hmac_sha256 (user_hashed_password u))
    (users (database w)) ->
  Forall (fun u => hash_of_password pbkdf2_hmac_sha256 (user_hashed_password u))
    (users (database
              (serve pbkdf2_hmac_sha256 hmac_sign Ticker_info reqs w))).
Proof.
  revert w. induction reqs as [|[req env] reqs IH]; intros w Hs Hall; simpl.
  - exact Hall.
  - apply Forall_cons in Hs. destruct Hs as [Hs1 Hs].
    apply IH; [exact Hs|]. apply app_keeps_hashes; assumption.
Qed.

(** X8. On a store the application has built (since it was started on a
    new store, each registration drawing a salt of 16 bytes), a login
    with a password of at most 4096 characters never ends in a server
    error: it returns a bearer token or raises the 400 [HTTPException]
    "Incorrect email or password".  With a longer password the login
    raises passlib's [PasswordSizeError] when the email is registered,
    and the 400 when it is not. *)
Theorem login_on_served_store
  (reqs : list (request * Env)) (payload : LoginRequest) (env : Env)
  (Hsalts : salts_sized reqs) :
  let w := serve pbkdf2_hmac_sha256 hmac_sign Ticker_info reqs initial_world in
  ((String.length (lr_password payload) <= MAX_PASSWORD_SIZE)%nat ->
   (exists tok,
      fst (POST_auth_login pbkdf2_hmac_sha256 hmac_sign payload env w) =
        Returned {| access_token := tok; token_type := "bearer" |}) \/
   fst (POST_auth_login pbkdf2_hmac_sha256 hmac_sign payload env w) =
     Raised (HTTPException 400 "Incorrect email or password")) /\
  ((MAX_PASSWORD_SIZE < String.length (lr_password payload))%nat ->
   (email_registered (database w) (lr_email payload) ->
    fst (POST_auth_login pbkdf2_hmac_sha256 hmac_sign payload env w) =
      Raised PasswordSizeError) /\
   (~ email_registered (database w) (lr_email payload) ->
    fst (POST_auth_login pbkdf2_hmac_sha256 hmac_sign payload env w) =
      Raised (HTTPException 400 "Incorrect email or password"))).
Proof.
  intros w.
  assert (Hall :
    Forall (fun u => hash_of_password pbkdf2_hmac_sha256 (user_hashed_password u))
      (users (database w))).
  { apply served_hashes; [exact Hsalts | constructor]. }
  unfold POST_auth_login. rewrite Depends_get_db_run. simpl fst.
  split.
  - intros Hsize.
    destruct (first (List.filter
                       (fun v => String.eqb (user_email v) (lr_email payload))
                       (users (database w)))) as [u|] eqn:Hf.
    + rewrite (login_registered payload env w u Hf).
      apply first_filter_Some in Hf. destruct Hf as [Hu _].
      rewrite List.Forall_forall in Hall.
      destruct (Hall u Hu) as [salt [password [Hsalt ->]]].
      rewrite (verify_password_made_hash pbkdf2_hmac_sha256 pbkdf2_size
                 _ _ _ (salt_sized_max _ Hsalt) Hsize).
      destruct (String.eqb _ _).
      * left. rewrite create_access_token_run. eexists. reflexivity.
      * right. reflexivity.
    + right. unfold login, bind, filter_email, query_User. simpl.
      rewrite Hf. reflexivity.
  - intros Hsize. split.
    + intros Hin.
      rewrite (login_long_password pbkdf2_hmac_sha256 hmac_sign payload env w
                 Hin Hall Hsize).
      reflexivity.
    + intros Hn.
      rewrite (login_unknown_email pbkdf2_hmac_sha256 hmac_sign payload env w
                 Hn).
      reflexivity.
Qed.

(** X22. A login with the email of a stored user and a password that
    [verify_password] refuses (it returns [False] for the hash of every
    stored user of that email), and a login with an email no stored
    user has, end the same way: each raises the 400 [HTTPException]
    with the detail "Incorrect email or password", and each leaves the
    store as it was. *)
Theorem login_failures_indistinguishable
  (wrong_password unknown_email : LoginRequest) (env1 env2 : Env) (w : World)
  (Hregistered : email_registered (database w) (lr_email wrong_password))
  (Hwrong :
     forall u, In u (users (database w)) ->
               user_email u = lr_email wrong_password ->
               verify_password pbkdf2_hmac_sha256
                 (lr_password wrong_password)
                 (user_hashed_password u) = Returned false)
  (Hunknown : ~ email_registered (database w) (lr_email unknown_email)) :
  fst (POST_auth_login pbkdf2_hmac_sha256 hmac_sign wrong_password env1 w) =
    Raised (HTTPException 400 "Incorrect email or password") /\
  fst (POST_auth_login pbkdf2_hmac_sha256 hmac_sign unknown_email env2 w) =
    Raised (HTTPException 400 "Incorrect email or password") /\
  POST_auth_login pbkdf2_hmac_sha256 hmac_sign wrong_password env1 w =
    POST_auth_login pbkdf2_hmac_sha256 hmac_sign unknown_email env2 w /\
  database
    (snd (POST_auth_login pbkdf2_hmac_sha256 hmac_sign wrong_password env1 w)) =
    database w.
Proof.
  unfold POST_auth_login. rewrite !Depends_get_db_run.
  rewrite (login_wrong_password pbkdf2_hmac_sha256 hmac_sign
             wrong_password env1 w Hregistered Hwrong).
  rewrite (login_unknown_email pbkdf2_hmac_sha256 hmac_sign
             unknown_email env2 w Hunknown).
  repeat split; reflexivity.
Qed.

End LoginProperties.

(** The handler's constructor returns what it was given. *)
Lemma pbkdf2_sha256_init_Returned
  (r : Z) (s : string) (chk : option string) (h : pbkdf2_sha256) :
  pbkdf2_sha256_init r s chk = Returned h ->
  h = {| pbkdf2_rounds := r; pbkdf2_salt := s; pbkdf2_checksum := chk |} /\
  pbkdf2_sha256_min_rounds <= r <= pbkdf2_sha256_max_rounds /\
  (String.length s <= pbkdf2_sha256_max_salt_size)%nat /\
  (forall c, chk = Some c -> String.length c = pbkdf2_sha256_checksum_size).
Proof.
  unfold pbkdf2_sha256_init, norm_rounds. intros H.
  assert (Hchk : forall c, chk = Some c ->
                   String.length c = pbkdf2_sha256_checksum_size).
  { intros c ->.
    destruct (Nat.eqb_spec (String.length c) pbkdf2_sha256_checksum_size)
      as [Heq|_]; [exact Heq | discriminate H]. }
  assert (Hgo :
    (if (pbkdf2_sha256_max_salt_size <? String.length s)%nat
     then Raised (PyException "ValueError"
                    "salt too large (pbkdf2_sha256 requires <= 1024 bytes)")
     else
       match
         (if r <? pbkdf2_sha256_min_rounds
          then Raised (PyException "ValueError"
                         ("pbkdf2_sha256: rounds (" ++ decimal r ++
                          ") is too low, must be at least 1"))
          else if pbkdf2_sha256_max_rounds <? r
          then Raised (PyException "ValueError"
                         ("pbkdf2_sha256: rounds (" ++ decimal r ++
                          ") is too high, must be at most 4294967295"))
          else Returned r)
       with
       | Raised e => Raised e
       | Returned r' =>
           Returned {| pbkdf2_rounds := r'; pbkdf2_salt := s;
                       pbkdf2_checksum := chk |}
       end) = Returned h).
  { destruct chk as [c|]; [|exact H].
    destruct (String.length c =? pbkdf2_sha256_checksum_size)%nat;
      [exact H | discriminate H]. }
  clear H.
  destruct (Nat.ltb_spec pbkdf2_sha256_max_salt_size (String.length s))
    as [_|Hs]; [discriminate Hgo|].
  destruct (Z.ltb_spec r pbkdf2_sha256_min_rounds) as [_|Hlo];
    [discriminate Hgo|].
  destruct (Z.ltb_spec pbkdf2_sha256_max_rounds r) as [_|Hhi];
    [discriminate Hgo|].
  injection Hgo as <-.
  split; [reflexivity|]. split; [lia|]. split; [exact Hs | exact Hchk].
Qed.

(** X9. [verify_password] accepts a password only if it has at most
    4096 characters and the hash is a text
    [$pbkdf2-sha256$rounds$salt$checksum] whose rounds field reads as
    an integer from 1 to 2^32 - 1, whose salt decodes to at most 1024
    bytes, and whose checksum decodes to the 32 bytes that are the
    digest of that password under the salt and the rounds. *)
Theorem verify_password_accepts_only_digest
  (pbkdf2_hmac_sha256 : string -> string -> Z -> string)
  (plain_password hashed_password : string)
  (Haccepted :
     verify_password pbkdf2_hmac_sha256 plain_password hashed_password =
     Returned true) :
  (String.length plain_password <= MAX_PASSWORD_SIZE)%nat /\
  exists rounds salt chk r salt_bytes chk_bytes,
    hashed_password =
      pbkdf2_sha256_ident ++ rounds ++ "$" ++ salt ++ "$" ++ chk /\
    parse_rounds rounds = Returned r /\
    1 <= r <= 4294967295 /\
    ab64_decode salt = Returned salt_bytes /\
    (String.length salt_bytes <= 1024)%nat /\
    ab64_decode chk = Returned chk_bytes /\
    String.length chk_bytes = 32%nat /\
    pbkdf2_hmac_sha256 plain_password salt_bytes r = chk_bytes.
Proof.
  unfold verify_password in Haccepted.
  destruct (strip_prefix pbkdf2_sha256_ident hashed_password) as [rest|] eqn:Hp;
    [|discriminate].
  apply strip_prefix_Some in Hp.
  unfold pbkdf2_sha256_verify in Haccepted.
  unfold validate_secret in Haccepted.
  destruct (Nat.leb_spec (String.length plain_password) MAX_PASSWORD_SIZE)
    as [Hsize|_]; [|discriminate].
  split; [exact Hsize|].
  destruct (pbkdf2_sha256_from_string rest) as [h|] eqn:Hread; [|discriminate].
  destruct (pbkdf2_checksum h) as [chk_bytes|] eqn:Hchk; [|discriminate].
  injection Haccepted as Heq. apply String.eqb_eq in Heq.
  unfold pbkdf2_sha256_from_string in Hread.
  pose proof (concat_split "$" rest) as Hjoin.
  destruct (split "$" rest) as [|rounds [|salt [|chk [|x l]]]];
    try discriminate.
  - destruct (parse_rounds rounds); [|discriminate].
    destruct (ab64_decode salt); [|discriminate].
    apply pbkdf2_sha256_init_Returned in Hread. destruct Hread as [-> _].
    discriminate Hchk.
  - destruct (parse_rounds rounds) as [r|] eqn:Hr; [|discriminate].
    destruct (ab64_decode salt) as [salt_bytes|] eqn:Hs; [|discriminate].
    destruct chk as [|c chk'].
    { apply pbkdf2_sha256_init_Returned in Hread. destruct Hread as [-> _].
      discriminate Hchk. }
    destruct (ab64_decode (String c chk')) as [chk_read|] eqn:Hc;
      [|discriminate].
    apply pbkdf2_sha256_init_Returned in Hread.
    destruct Hread as [-> [Hrounds [Hsalt Hlen]]].
    simpl in Hchk. injection Hchk as ->. simpl in Heq.
    exists rounds, salt, (String c chk'), r, salt_bytes, chk_bytes.
    split; [rewrite Hp, <- Hjoin; reflexivity|].
    split; [exact Hr|].
    split; [exact Hrounds|].
    split; [exact Hs|].
    split; [exact Hsalt|].
    split; [exact Hc|].
    split; [apply Hlen; reflexivity | exact Heq].
Qed.

(** ** Deleting, keys, and counting *)

(** X23. Deleting an identifier within the 64 bits of a key that no
    stored transaction carries raises the 404 [HTTPException]
    "Transaction not found", an outcome different from the one of a
    deletion that succeeds, and leaves the store as it was. *)
Theorem delete_transaction_not_found
  (id : Z) (env : Env) (w : World)
  (Hid : sqlite_int id = true)
  (Habsent : ~ In id (map tx_id (transactions (database w)))) :
  fst (DELETE_transactions id env w) =
    Raised (HTTPException 404 "Transaction not found") /\
  fst (DELETE_transactions id env w) <> Returned tt /\
  database (snd (DELETE_transactions id env w)) = database w.
Proof.
  rewrite (DELETE_transactions_absent id env w Hid Habsent). simpl.
  split; [reflexivity|]. split; [discriminate | reflexivity].
Qed.

(** X10. Deleting a key that a row carries returns, takes that row and
    no other out of the table (under keys that are not repeated the
    table is one row shorter, the other rows in their order), and a
    second deletion of the same key raises the 404 [HTTPException]. *)
Theorem delete_then_delete_again
  (id : Z) (env1 env2 : Env) (w : World)
  (Hid : sqlite_int id = true)
  (Hkeys : NoDup (map tx_id (transactions (database w))))
  (Hpresent : In id (map tx_id (transactions (database w)))) :
  let w1 := snd (DELETE_transactions id env1 w) in
  fst (DELETE_transactions id env1 w) = Returned tt /\
  transactions (database w1) =
    List.filter (fun t => negb (tx_id t =? id)) (transactions (database w)) /\
  S (length (transactions (database w1))) =
    length (transactions (database w)) /\
  users (database w1) = users (database w) /\
  fst (DELETE_transactions id env2 w1) =
    Raised (HTTPException 404 "Transaction not found") /\
  database (snd (DELETE_transactions id env2 w1)) = database w1.
Proof.
  intros w1. unfold w1.
  rewrite (DELETE_transactions_present id env1 w Hid Hpresent). simpl.
  split; [reflexivity|]. split; [reflexivity|].
  split; [apply filter_out_key_length; assumption|].
  split; [reflexivity|].
  rewrite DELETE_transactions_absent; [split; reflexivity | exact Hid |].
  simpl. intros Hin. apply in_map_iff in Hin. destruct Hin as [t [Ht Hin]].
  apply List.filter_In in Hin. destruct Hin as [_ Hne].
  apply negb_true_iff in Hne. apply Z.eqb_neq in Hne. contradiction.
Qed.

(** X11. Keys are given in rising order, and the key of a deleted last
    row is given again: a new row gets a key above every key in the
    table (1 in an empty table), and after the row is deleted the next
    row created gets that same key. *)
Theorem create_key_is_next_and_reused
  (tx1 tx2 : TransactionCreate) (e1 e2 e3 : Env) (w : World)
  (Ha1 : is_nan (tc_amount tx1) = false)
  (Ha2 : is_nan (tc_amount tx2) = false)
  (Hkey : sqlite_int (next_rowid (map tx_id (transactions (database w)))) = true) :
  exists t1 w1 w2 t2 w3,
    POST_transactions tx1 e1 w = (Returned t1, w1) /\
    (forall t, In t (transactions (database w)) -> tx_id t < tx_id t1) /\
    (transactions (database w) = [] -> tx_id t1 = 1) /\
    DELETE_transactions (tx_id t1) e2 w1 = (Returned tt, w2) /\
    POST_transactions tx2 e3 w2 = (Returned t2, w3) /\
    tx_id t2 = tx_id t1.
Proof.
  set (t1 := new_Transaction (database w) tx1).
  set (w1 := after_request w (committed (with_Transaction (database w) t1))).
  set (w2 := after_request w1
               (committed (without_Transaction (database w1) (tx_id t1)))).
  assert (Hback : transactions (database w2) = transactions (database w)).
  { change (transactions (database w2))
      with (List.filter (fun u => negb (tx_id u =? tx_id t1))
              (transactions (database w) ++ [t1])%list).
    apply filter_out_new. reflexivity. }
  exists t1, w1, w2, (new_Transaction (database w2) tx2),
    (after_request w2
       (committed (with_Transaction (database w2)
                     (new_Transaction (database w2) tx2)))).
  split; [exact (POST_transactions_run tx1 e1 w Ha1)|].
  split.
  { intros t Ht. apply next_rowid_above. apply in_map. exact Ht. }
  split.
  { intros Hempty. unfold t1, new_Transaction. simpl. rewrite Hempty.
    reflexivity. }
  split.
  { apply DELETE_transactions_present; [exact Hkey|].
    change (transactions (database w1))
      with (transactions (database w) ++ [t1])%list.
    rewrite map_app. apply in_or_app. right. left. reflexivity. }
  split; [exact (POST_transactions_run tx2 e3 w2 Ha2)|].
  change (next_rowid (map tx_id (transactions (database w2))) =
          next_rowid (map tx_id (transactions (database w)))).
  rewrite Hback. reflexivity.
Qed.

(** X12. [/transactions-debug] answers with the number of rows of the
    table, which is the length of the listing [GET /transactions]
    returns; after a transaction is created it answers with one more. *)
Theorem debug_count_is_listing_length
  (tx : TransactionCreate) (e1 e2 e3 e4 : Env) (w : World)
  (Hamount : is_nan (tc_amount tx) = false) :
  exists l n,
    fst (GET_transactions e1 w) = Returned l /\
    fst (GET_transactions_debug e2 w) = Returned {[ "count" := n ]} /\
    n = Z.of_nat (length l) /\
    fst (GET_transactions_debug e4 (snd (POST_transactions tx e3 w))) =
      Returned {[ "count" := n + 1 ]}.
Proof.
  exists (order_by_date_desc (transactions (database w))),
    (Z.of_nat (length (transactions (database w)))).
  split; [rewrite GET_transactions_run; reflexivity|].
  unfold GET_transactions_debug. rewrite !Depends_get_db_run.
  split; [reflexivity|].
  split.
  { f_equal. symmetry. apply Permutation_length.
    apply order_by_date_desc_Permutation. }
  rewrite (POST_transactions_run tx e3 w Hamount). simpl.
  rewrite length_app. simpl. f_equal. f_equal. lia.
Qed.

(** X13. What the store cannot hold is refused before anything is
    written: a payload whose amount is NaN raises the [IntegrityError]
    of the [NOT NULL] column, and a deletion by an integer outside the
    64 bits of a key raises [OverflowError]; both leave the store as it
    was. *)
Theorem refused_values_keep_store
  (tx : TransactionCreate) (id : Z) (env : Env) (w : World) :
  (is_nan (tc_amount tx) = true ->
   POST_transactions tx env w =
     (Raised (PyException "IntegrityError"
                "NOT NULL constraint failed: transactions.amount"),
      after_request w (fresh_session w)) /\
   database (after_request w (fresh_session w)) = database w) /\
  (sqlite_int id = false ->
   DELETE_transactions id env w =
     (Raised OverflowError, after_request w (fresh_session w)) /\
   database (after_request w (fresh_session w)) = database w).
Proof.
  split.
  - intros Hamount. unfold POST_transactions. rewrite Depends_get_db_run.
    rewrite (create_transaction_nan tx env w Hamount). split; reflexivity.
  - intros Hid. unfold DELETE_transactions. rewrite Depends_get_db_run.
    rewrite (delete_transaction_overflow id env w Hid). split; reflexivity.
Qed.

(** ** The quote lookup *)

(** X14. [get_stock_price] raises nothing but an [HTTPException], and a
    response it returns always has a price and the symbol in upper
    case: when the provider's [info] has no current price the 404
    detail names the symbol as it was sent, and an exception of the
    provider becomes a 500 whose detail ends with its message. *)
Theorem get_stock_price_outcomes
  (Ticker_info : string -> Outcome (gmap string float)) (sym : string) :
  match get_stock_price Ticker_info sym with
  | Returned r =>
      symbol r = upper sym /\
      exists info p,
        Ticker_info sym = Returned info /\
        info !! "currentPrice" = Some p /\ price r = Some p
  | Raised (HTTPException status_code detail) =>
      (status_code = 404 /\
       detail = "Could not find price for symbol '" ++ sym ++ "'" /\
       exists info,
         Ticker_info sym = Returned info /\ info !! "currentPrice" = None) \/
      (status_code = 500 /\
       exists class_name message,
         Ticker_info sym = Raised (PyException class_name message) /\
         detail = "Error fetching stock price: " ++ message) \/
      Ticker_info sym = Raised (HTTPException status_code detail)
  | Raised (PyException _ _) => False
  end.
Proof.
  unfold get_stock_price.
  destruct (Ticker_info sym) as [info|[code detail|cls msg]] eqn:Hinfo.
  - destruct (info !! "currentPrice") as [p|] eqn:Hp.
    + split; [reflexivity|]. exists info, p. auto.
    + left. split; [reflexivity|]. split; [reflexivity|]. exists info. auto.
  - right. right. reflexivity.
  - right. left. split; [reflexivity|]. exists cls, msg. auto.
Qed.

(** ** The script of the frontend *)

Lemma extends_refl (P : http_request -> Prop) (b b' : Browser) :
  requests_sent b' = requests_sent b -> extends P b b'.
Proof.
  intros H. exists []. rewrite H, app_nil_r. split; [reflexivity|constructor].
Qed.

Lemma extends_trans (P : http_request -> Prop) (b1 b2 b3 : Browser) :
  extends P b1 b2 -> extends P b2 b3 -> extends P b1 b3.
Proof.
  intros [n1 [H1 F1]] [n2 [H2 F2]]. exists (n1 ++ n2)%list.
  rewrite H2, H1, <- app_assoc. split; [reflexivity|].
  apply Forall_app. split; assumption.
Qed.

Lemma extends_impl (P Q : http_request -> Prop) (b b' : Browser) :
  (forall req, P req -> Q req) -> extends P b b' -> extends Q b b'.
Proof.
  intros HPQ [n [H F]]. exists n. split; [exact H|].
  eapply List.Forall_impl; [exact HPQ | exact F].
Qed.

Lemma extends_sending (P : http_request -> Prop) (b : Browser)
  (req : http_request) :
  P req -> extends P b (sending b req).
Proof.
  intros H. exists [req]. split; [reflexivity|]. constructor; [exact H|constructor].
Qed.

Lemma keeps_bind {A B} (I : gmap string json -> Prop)
  (P : http_request -> Prop) (m : UI A) (k : A -> UI B) :
  keeps I P m -> (forall a, keeps I P (k a)) -> keeps I P (ui_bind m k).
Proof.
  intros Hm Hk b HI. unfold ui_bind.
  destruct (Hm b HI) as [HI1 He1].
  destruct (m b) as [[a|e] b1]; simpl in *.
  - destruct (Hk a b1 HI1) as [HI2 He2].
    split; [exact HI2|]. eapply extends_trans; eassumption.
  - split; assumption.
Qed.

Lemma ui_bind_returned {A B} (m : UI A) (k : A -> UI B) (b b' : Browser)
  (a : A) :
  m b = (Returned a, b') -> ui_bind m k b = k a b'.
Proof. intros H. unfold ui_bind. rewrite H. reflexivity. Qed.

Lemma ui_bind_raised {A B} (m : UI A) (k : A -> UI B) (b b' : Browser)
  (e : exn) :
  m b = (Raised e, b') -> ui_bind m k b = (Raised e, b').
Proof. intros H. unfold ui_bind. rewrite H. reflexivity. Qed.

Lemma keeps_ret {A} (I : gmap string json -> Prop)
  (P : http_request -> Prop) (a : A) :
  keeps I P (ui_ret a).
Proof. intros b HI. split; [exact HI | apply extends_refl; reflexivity]. Qed.

Lemma keeps_lift {A} (I : gmap string json -> Prop)
  (P : http_request -> Prop) (o : Outcome A) :
  keeps I P (ui_lift o).
Proof. intros b HI. split; [exact HI | apply extends_refl; reflexivity]. Qed.

Lemma keeps_read (I : gmap string json -> Prop)
  (P : http_request -> Prop) (key : string) :
  keeps I P (read key).
Proof. intros b HI. split; [exact HI | apply extends_refl; reflexivity]. Qed.

Lemma keeps_show (I : gmap string json -> Prop)
  (P : http_request -> Prop) (a : alert) :
  keeps I P (show a).
Proof. intros b HI. split; [exact HI | apply extends_refl; reflexivity]. Qed.

Lemma keeps_show_all (I : gmap string json -> Prop)
  (P : http_request -> Prop) (l : list alert) :
  keeps I P (show_all l).
Proof. intros b HI. split; [exact HI | apply extends_refl; reflexivity]. Qed.

Lemma keeps_assign (I : gmap string json -> Prop)
  (P : http_request -> Prop) (key : string) (value : json) :
  (forall s, I s -> I (<[key := value]> s)) ->
  keeps I P (assign key value).
Proof.
  intros H b HI. split; [apply H; exact HI | apply extends_refl; reflexivity].
Qed.

Lemma logged_in_transactions (s : gmap string json) (value : json) :
  logged_in s -> logged_in (<["transactions" := value]> s).
Proof.
  intros [Ha [Ht [He _]]]. unfold logged_in.
  rewrite !lookup_insert_ne by discriminate. rewrite lookup_insert_eq.
  split; [exact Ha|]. split; [exact Ht|]. split; [exact He | eexists; reflexivity].
Qed.

Section FrontendProperties.

Variable requests_request : nat -> http_request -> sent.
Variable str_json : json -> string.
Variable DataFrame : json -> Outcome unit.
Variable dashboard_charts : json -> Outcome (list alert).
Variable stock_tracker : Outcome (list alert).

Lemma get_auth_headers_run (b : Browser) :
  get_auth_headers str_json b =
  (Returned (auth_headers_in str_json (session_state b)), b).
Proof.
  unfold auth_headers_in, get_auth_headers, ui_bind, read, ui_ret. simpl.
  destruct (truthy _); reflexivity.
Qed.

Lemma api_get_run (path : string) (b : Browser) :
  let req := {| method := GET; url := BACKEND_URL ++ path; json_body := None;
                headers := auth_headers_in str_json (session_state b) |} in
  api_get requests_request str_json path b =
  (Returned (json_or_error (requests_request (length (requests_sent b)) req)),
   sending b req).
Proof.
  unfold api_get, ui_bind. rewrite get_auth_headers_run. reflexivity.
Qed.

Lemma api_post_run (path : string) (payload : json) (b : Browser) :
  let req := {| method := POST; url := BACKEND_URL ++ path;
                json_body := Some payload;
                headers := auth_headers_in str_json (session_state b) |} in
  api_post requests_request str_json path payload b =
  (Returned (json_or_error (requests_request (length (requests_sent b)) req)),
   sending b req).
Proof.
  unfold api_post, ui_bind. rewrite get_auth_headers_run. reflexivity.
Qed.

Lemma api_delete_run (path : string) (b : Browser) :
  let req := {| method := DELETE; url := BACKEND_URL ++ path;
                json_body := None;
                headers := auth_headers_in str_json (session_state b) |} in
  api_delete requests_request str_json path b =
  (Returned (done_or_error (requests_request (length (requests_sent b)) req)),
   sending b req).
Proof.
  unfold api_delete, ui_bind. rewrite get_auth_headers_run. reflexivity.
Qed.

(** Logged in, the headers are the bearer token. *)
Lemma logged_in_authorized (s : gmap string json) (m : http_method)
  (u : string) (body : option json) :
  logged_in s ->
  authorized {| method := m; url := u; json_body := body;
                headers := auth_headers_in str_json s |}.
Proof.
  intros [_ [[token [Ht Htruthy]] _]].
  exists (str str_json token). simpl.
  unfold auth_headers_in, get_auth_headers, ui_bind, read, state_get. simpl.
  rewrite Ht. simpl. rewrite Htruthy. reflexivity.
Qed.

Lemma keeps_api_get (I : gmap string json -> Prop)
  (P : http_request -> Prop) (path : string) :
  (forall s, I s ->
     P {| method := GET; url := BACKEND_URL ++ path; json_body := None;
          headers := auth_headers_in str_json s |}) ->
  keeps I P (api_get requests_request str_json path).
Proof.
  intros H b HI. rewrite api_get_run. simpl.
  split; [exact HI | apply extends_sending, H, HI].
Qed.

Lemma keeps_api_post (I : gmap string json -> Prop)
  (P : http_request -> Prop) (path : string) (payload : json) :
  (forall s, I s ->
     P {| method := POST; url := BACKEND_URL ++ path;
          json_body := Some payload;
          headers := auth_headers_in str_json s |}) ->
  keeps I P (api_post requests_request str_json path payload).
Proof.
  intros H b HI. rewrite api_post_run. simpl.
  split; [exact HI | apply extends_sending, H, HI].
Qed.

Lemma keeps_api_delete (I : gmap string json -> Prop)
  (P : http_request -> Prop) (path : string) :
  (forall s, I s ->
     P {| method := DELETE; url := BACKEND_URL ++ path; json_body := None;
          headers := auth_headers_in str_json s |}) ->
  keeps I P (api_delete requests_request str_json path).
Proof.
  intros H b HI. rewrite api_delete_run. simpl.
  split; [exact HI | apply extends_sending, H, HI].
Qed.

Lemma keeps_load_transactions :
  keeps logged_in data_ok
    (load_transactions_into_state requests_request str_json).
Proof.
  unfold load_transactions_into_state.
  apply keeps_bind.
  - apply keeps_api_get. intros s Hs. split.
    + apply logged_in_authorized, Hs.
    + right. left. simpl. auto.
  - intros r. destruct (truthy_err (snd r)).
    + apply keeps_show.
    + apply keeps_assign. intros s. apply logged_in_transactions.
Qed.

Lemma keeps_home_page :
  keeps logged_in data_ok (home_page requests_request str_json).
Proof.
  unfold home_page.
  apply keeps_bind.
  - apply keeps_api_get. intros s Hs. split.
    + apply logged_in_authorized, Hs.
    + left. simpl. auto.
  - intros r. destruct (truthy_err (snd r)).
    + apply keeps_show.
    + apply keeps_bind; [apply keeps_lift|]. intros v. apply keeps_show.
Qed.

Lemma keeps_add_transaction_page (w : Widgets) :
  keeps logged_in data_ok
    (add_transaction_page requests_request str_json DataFrame w).
Proof.
  unfold add_transaction_page.
  apply keeps_bind.
  { destruct (submitted w); [|apply keeps_ret].
    destruct (String.eqb (add_tx_category w) "" ||
              PrimFloat.leb (add_tx_amount w) 0)%bool eqn:Hvalid;
      [apply keeps_show|].
    apply orb_false_iff in Hvalid. destruct Hvalid as [Hc Ha].
    apply String.eqb_neq in Hc.
    apply keeps_bind.
    - apply keeps_api_post. intros s Hs. split.
      + apply logged_in_authorized, Hs.
      + right. right. left. simpl. split; [reflexivity|]. split; [reflexivity|].
        exists (add_tx_type w), (add_tx_category w), (add_tx_amount w),
          (add_tx_date w). auto.
    - intros r. destruct (truthy_err (snd r)); [apply keeps_show|].
      apply keeps_bind; [apply keeps_show|]. intros _.
      apply keeps_load_transactions. }
  intros _. apply keeps_bind.
  { destruct (refresh_button w);
      [apply keeps_load_transactions | apply keeps_ret]. }
  intros _. apply keeps_bind; [apply keeps_read|]. intros transactions.
  destruct (truthy transactions); [|apply keeps_show].
  apply keeps_bind; [apply keeps_lift|]. intros _.
  apply keeps_bind; [apply keeps_lift|]. intros ids.
  destruct (delete_button w); [|apply keeps_ret].
  apply keeps_bind.
  - apply keeps_api_delete. intros s Hs. split.
    + apply logged_in_authorized, Hs.
    + right. right. right. simpl. split; [reflexivity|]. split; [reflexivity|].
      eexists. unfold BACKEND_URL. reflexivity.
  - intros r. destruct (truthy_err (snd r) || negb (fst r))%bool;
      [apply keeps_show|].
    apply keeps_bind; [apply keeps_show|]. intros _.
    apply keeps_load_transactions.
Qed.

Lemma keeps_dashboard_page :
  keeps logged_in data_ok
    (dashboard_page requests_request str_json dashboard_charts).
Proof.
  unfold dashboard_page.
  apply keeps_bind; [apply keeps_read|]. intros t.
  apply keeps_bind.
  { destruct (negb (truthy t));
      [apply keeps_load_transactions | apply keeps_ret]. }
  intros _. apply keeps_bind; [apply keeps_read|]. intros t'.
  destruct (negb (truthy t')); [apply keeps_show|].
  apply keeps_bind; [apply keeps_lift|]. intros shown. apply keeps_show_all.
Qed.


Lemma session_ok_keys (s : gmap string json) :
  session_ok s ->
  is_Some (s !! "access_token") /\ is_Some (s !! "user_email") /\
  is_Some (s !! "is_authenticated") /\ is_Some (s !! "transactions").
Proof.
  intros [[Ha [Ht [He Hx]]]|[Ha [[t [Ht _]] [[e [He _]] Hx]]]];
    rewrite ?Ha, ?Ht, ?He, ?Hx; repeat split; try (eexists; reflexivity);
    exact Hx.
Qed.

Lemma session_defaults_ok (b : Browser) :
  session_ok (session_state b) -> session_defaults b = (Returned tt, b).
Proof.
  intros Hok. apply session_ok_keys in Hok.
  destruct Hok as [[a Ha] [[u Hu] [[i Hi] [t Ht]]]].
  unfold session_defaults, ui_bind, assign_default.
  rewrite Ha, Hu, Hi, Ht. reflexivity.
Qed.

Lemma session_defaults_new (b : Browser) :
  session_state b = ∅ ->
  exists s,
    session_defaults b =
      (Returned tt,
       {| session_state := s; requests_sent := requests_sent b;
          alerts := alerts b |}) /\
    logged_out s.
Proof.
  intros Hnew. destruct b as [s reqs shown]. simpl in Hnew. subst s.
  eexists. split; [reflexivity|].
  unfold logged_out. simpl. repeat split; reflexivity.
Qed.

Lemma logged_out_not_authenticated (s : gmap string json) :
  logged_out s -> truthy (state_get "is_authenticated" s) = false.
Proof. intros [Ha _]. unfold state_get. rewrite Ha. reflexivity. Qed.

Lemma logged_in_authenticated (s : gmap string json) :
  logged_in s -> truthy (state_get "is_authenticated" s) = true.
Proof. intros [Ha _]. unfold state_get. rewrite Ha. reflexivity. Qed.

Lemma sidebar_run (w : Widgets) (b : Browser) :
  session_ok (session_state b) ->
  exists b',
    sidebar str_json w b = (Returned tt, b') /\
    requests_sent b' = requests_sent b /\
    session_ok (session_state b') /\
    (logout_button w = true -> logged_out (session_state b')) /\
    (logged_out (session_state b) \/ logout_button w = false ->
     session_state b' = session_state b) /\
    exists shown, alerts b' = (alerts b ++ shown)%list.
Proof.
  intros [Hout|Hin]; unfold sidebar, ui_bind, read; simpl.
  - rewrite (logged_out_not_authenticated _ Hout). simpl.
    eexists. split; [reflexivity|]. simpl.
    split; [reflexivity|]. split; [left; exact Hout|].
    split; [intros _; exact Hout|].
    split; [reflexivity | eexists; reflexivity].
  - rewrite (logged_in_authenticated _ Hin). simpl.
    destruct (logout_button w); simpl.
    + eexists. split; [reflexivity|]. simpl. split; [reflexivity|].
      assert (Hnow : logged_out
                (<["transactions" := JArray []]>
                   (<["is_authenticated" := JBool false]>
                      (<["user_email" := JNull]>
                         (<["access_token" := JNull]> (session_state b)))))).
      { unfold logged_out.
        rewrite !lookup_insert_ne by discriminate.
        rewrite lookup_insert_eq.
        rewrite !lookup_insert_ne by discriminate.
        rewrite lookup_insert_eq.
        rewrite !lookup_insert_ne by discriminate.
        rewrite !lookup_insert_eq. repeat split; reflexivity. }
      split; [left; exact Hnow|]. split; [intros _; exact Hnow|].
      split.
      * intros [Hout|Hno]; [|discriminate Hno].
        destruct Hout as [Hf _]. destruct Hin as [Ht _].
        rewrite Hf in Ht. discriminate Ht.
      * eexists. rewrite <- app_assoc. reflexivity.
    + eexists. split; [reflexivity|]. simpl. split; [reflexivity|].
      split; [right; exact Hin|]. split; [discriminate|].
      split; [reflexivity | eexists; reflexivity].
Qed.

Lemma keeps_login_tab (w : Widgets) :
  keeps session_ok auth_request (login_tab requests_request str_json w).
Proof.
  unfold login_tab.
  destruct (login_button w); [|apply keeps_ret].
  destruct (String.eqb (login_email w) "" || String.eqb (login_password w) "")%bool
    eqn:Hempty; [apply keeps_show|].
  apply orb_false_iff in Hempty. destruct Hempty as [He Hp].
  apply String.eqb_neq in He. apply String.eqb_neq in Hp.
  apply keeps_bind.
  - apply keeps_api_post. intros s _. split; [reflexivity|].
    exists "/auth/login", (login_email w), (login_password w). simpl. auto.
  - intros r. destruct (truthy_err (snd r)); [apply keeps_show|].
    apply keeps_bind; [apply keeps_lift|]. intros token.
    destruct (truthy token) eqn:Htoken; simpl; [|apply keeps_show].
    intros b Hok. simpl. split; [|apply extends_refl; reflexivity].
    right. apply session_ok_keys in Hok.
    destruct Hok as [_ [_ [_ Htx]]].
    unfold logged_in.
    rewrite lookup_insert_eq.
    rewrite !lookup_insert_ne by discriminate.
    rewrite lookup_insert_eq.
    rewrite (lookup_insert_ne _ "is_authenticated" "user_email") by discriminate.
    rewrite lookup_insert_eq.
    split; [reflexivity|]. split; [exists token; auto|].
    split; [exists (login_email w); auto|].
    rewrite !lookup_insert_ne by discriminate. exact Htx.
Qed.

Lemma keeps_register_tab (w : Widgets) :
  keeps session_ok auth_request (register_tab requests_request str_json w).
Proof.
  unfold register_tab.
  destruct (register_button w); [|apply keeps_ret].
  destruct (String.eqb (reg_email w) "" || String.eqb (reg_password w) "" ||
            String.eqb (reg_password2 w) "")%bool eqn:Hempty;
    [apply keeps_show|].
  apply orb_false_iff in Hempty. destruct Hempty as [Hempty _].
  apply orb_false_iff in Hempty. destruct Hempty as [He Hp].
  apply String.eqb_neq in He. apply String.eqb_neq in Hp.
  destruct (negb (String.eqb (reg_password w) (reg_password2 w)));
    [apply keeps_show|].
  apply keeps_bind.
  - apply keeps_api_post. intros s _. split; [reflexivity|].
    exists "/auth/register", (reg_email w), (reg_password w). simpl. auto.
  - intros r. destruct (truthy_err (snd r)); apply keeps_show.
Qed.

(** One run of the script, from a new session or from a consistent
    one. *)
Lemma script_keeps (w : Widgets) (b : Browser) :
  session_state b = ∅ \/ session_ok (session_state b) ->
  session_ok
    (session_state
       (snd (script requests_request str_json DataFrame dashboard_charts
               stock_tracker w b))) /\
  extends request_ok b
    (snd (script requests_request str_json DataFrame dashboard_charts
            stock_tracker w b)).
Proof.
  intros Hb. unfold script.
  assert (Hdefaults : exists b1,
            session_defaults b = (Returned tt, b1) /\
            requests_sent b1 = requests_sent b /\
            session_ok (session_state b1)).
  { destruct Hb as [Hnew|Hok].
    - destruct (session_defaults_new b Hnew) as [s [Hrun Hout]].
      eexists. split; [exact Hrun|]. split; [reflexivity | left; exact Hout].
    - exists b. split; [apply session_defaults_ok, Hok|].
      split; [reflexivity | exact Hok]. }
  destruct Hdefaults as [b1 [Hrun1 [Hreq1 Hok1]]].
  rewrite !(ui_bind_returned _ _ _ _ _ Hrun1).
  destruct (sidebar_run w b1 Hok1) as [b2 [Hrun2 [Hreq2 [Hok2 _]]]].
  rewrite !(ui_bind_returned _ _ _ _ _ Hrun2).
  assert (Hstart : extends request_ok b b2).
  { apply extends_refl. rewrite Hreq2. exact Hreq1. }
  assert (Hfrom : forall b3 : Browser,
            session_ok (session_state b3) /\ extends request_ok b2 b3 ->
            session_ok (session_state b3) /\ extends request_ok b b3).
  { intros b3 [H1 H2]. split; [exact H1|].
    eapply extends_trans; eassumption. }
  destruct (String.eqb (page w) "Login / Register").
  - apply Hfrom.
    destruct (keeps_bind session_ok auth_request
                (login_tab requests_request str_json w)
                (fun _ => register_tab requests_request str_json w)
                (keeps_login_tab w) (fun _ => keeps_register_tab w) b2 Hok2)
      as [H1 H2].
    split; [exact H1|].
    eapply extends_impl; [|exact H2]. intros req Hr. left. exact Hr.
  - apply Hfrom. unfold ui_bind, read. simpl.
    destruct Hok2 as [Hout|Hin].
    + rewrite (logged_out_not_authenticated _ Hout). simpl.
      split; [left; exact Hout | apply extends_refl; reflexivity].
    + rewrite (logged_in_authenticated _ Hin). simpl.
      assert (Hpage : forall m : UI unit,
                keeps logged_in data_ok m ->
                session_ok (session_state (snd (m b2))) /\
                extends request_ok b2 (snd (m b2))).
      { intros m Hm. destruct (Hm b2 Hin) as [H1 H2].
        split; [right; exact H1|].
        eapply extends_impl; [|exact H2]. intros req Hr. right. exact Hr. }
      destruct (String.eqb (page w) "Home");
        [apply Hpage, keeps_home_page|].
      destruct (String.eqb (page w) "Add Transaction");
        [apply Hpage, keeps_add_transaction_page|].
      destruct (String.eqb (page w) "Dashboard");
        [apply Hpage, keeps_dashboard_page|].
      destruct (String.eqb (page w) "Stock Tracker").
      * apply (Hpage (ui_bind (ui_lift stock_tracker) show_all)).
        apply keeps_bind; [apply keeps_lift|]. intros l. apply keeps_show_all.
      * apply (Hpage (ui_ret tt)). apply keeps_ret.
Qed.

Lemma runs_keep (ws : list Widgets) (b : Browser) :
  session_ok (session_state b) ->
  Forall request_ok (requests_sent b) ->
  let b' := runs requests_request str_json DataFrame dashboard_charts
              stock_tracker ws b in
  session_ok (session_state b') /\ Forall request_ok (requests_sent b').
Proof.
  revert b. induction ws as [|w ws IH]; intros b Hs Hr; simpl.
  - split; assumption.
  - destruct (script_keeps w b (or_intror Hs)) as [Hs' [new [Hnew Hall]]].
    apply IH; [exact Hs'|].
    rewrite Hnew. apply Forall_app. split; assumption.
Qed.

(** X15. After any sequence of runs in a new browser session (one run
    at least), the session state is that of a user logged out, with no
    token, no email and no transactions held, or that of a user logged
    in, with a token that counts as true and an email that is not
    empty. *)
Theorem runs_keep_session_consistent (w : Widgets) (ws : list Widgets) :
  session_ok
    (session_state
       (runs requests_request str_json DataFrame dashboard_charts
          stock_tracker (w :: ws) new_browser)).
Proof.
  simpl.
  destruct (script_keeps w new_browser (or_introl eq_refl))
    as [Hs [new [Hnew Hall]]].
  apply runs_keep; [exact Hs|].
  rewrite Hnew. exact Hall.
Qed.

(** X16. Whatever the user does and the backend answers, the page sends
    nothing but these requests: a POST to [/auth/login] or
    [/auth/register] with an email and a password that are not empty;
    and, under a bearer token, a GET of [/health] or [/transactions], a
    DELETE of a transaction, or a POST of a transaction whose category
    is not empty and whose amount is not zero or less. *)
Theorem runs_send_allowed_requests (ws : list Widgets) :
  Forall request_ok
    (requests_sent
       (runs requests_request str_json DataFrame dashboard_charts
          stock_tracker ws new_browser)).
Proof.
  destruct ws as [|w ws]; [constructor|]. simpl.
  destruct (script_keeps w new_browser (or_introl eq_refl))
    as [Hs [new [Hnew Hall]]].
  apply runs_keep; [exact Hs|].
  rewrite Hnew. exact Hall.
Qed.

Lemma logged_out_no_headers (s : gmap string json) :
  logged_out s -> auth_headers_in str_json s = ∅.
Proof.
  intros [_ [Ht _]].
  unfold auth_headers_in, get_auth_headers, ui_bind, read, state_get. simpl.
  rewrite Ht. reflexivity.
Qed.

(** X17. A run on a page other than "Login / Register" by a user who is
    logged out, or who presses Logout in that run, draws no page: it
    returns, sends no request, ends with the warning that a login is
    needed, and leaves the user logged out, with no header for a later
    request. *)
Theorem logged_out_run_sends_nothing (w : Widgets) (b : Browser)
  (Hpage : page w <> "Login / Register")
  (Hout : session_state b = ∅ \/ logged_out (session_state b) \/
          (logged_in (session_state b) /\ logout_button w = true)) :
  let r := script requests_request str_json DataFrame dashboard_charts
             stock_tracker w b in
  fst r = Returned tt /\
  requests_sent (snd r) = requests_sent b /\
  logged_out (session_state (snd r)) /\
  auth_headers_in str_json (session_state (snd r)) = ∅ /\
  exists shown,
    alerts (snd r) =
      (alerts b ++ shown ++
       [st_warning
          "You must be logged in to access this page. Go to 'Login / Register' first."])%list.
Proof.
  intros r. unfold r, script.
  assert (Hdefaults : exists b1,
            session_defaults b = (Returned tt, b1) /\
            requests_sent b1 = requests_sent b /\
            alerts b1 = alerts b /\
            (logged_out (session_state b1) \/
             (logged_in (session_state b1) /\ logout_button w = true))).
  { destruct Hout as [Hnew|Hout].
    - destruct (session_defaults_new b Hnew) as [s [Hrun Hs]].
      eexists. split; [exact Hrun|]. simpl. auto.
    - exists b. split.
      + apply session_defaults_ok. destruct Hout as [H|[H _]];
          [left | right]; exact H.
      + auto. }
  destruct Hdefaults as [b1 [Hrun1 [Hreq1 [Hal1 Hs1]]]].
  rewrite !(ui_bind_returned _ _ _ _ _ Hrun1).
  assert (Hok1 : session_ok (session_state b1)).
  { destruct Hs1 as [H|[H _]]; [left | right]; exact H. }
  destruct (sidebar_run w b1 Hok1)
    as [b2 [Hrun2 [Hreq2 [_ [Hlogout [Hsame [shown Hal2]]]]]]].
  rewrite !(ui_bind_returned _ _ _ _ _ Hrun2).
  assert (Hs2 : logged_out (session_state b2)).
  { destruct Hs1 as [H|[_ H]].
    - rewrite (Hsame (or_introl H)). exact H.
    - apply Hlogout, H. }
  apply String.eqb_neq in Hpage. rewrite Hpage.
  unfold ui_bind, read. simpl.
  rewrite (logged_out_not_authenticated _ Hs2). simpl.
  split; [reflexivity|]. split; [rewrite Hreq2; exact Hreq1|].
  split; [exact Hs2|]. split; [apply logged_out_no_headers, Hs2|].
  exists shown. rewrite Hal2, Hal1, <- app_assoc. reflexivity.
Qed.

Lemma zero_padded_not_empty (w : nat) (n : Z) (rest : string) :
  zero_padded (S w) n ++ rest <> "".
Proof.
  simpl. destruct (zero_padded w (n / 10)); simpl; discriminate.
Qed.

Lemma raise_for_status_raises (resp : Response) :
  400 <= resp_status_code resp < 600 ->
  exists e, raise_for_status resp = Some e /\ e <> "".
Proof.
  intros [Hlo Hhi]. unfold raise_for_status.
  apply Z.leb_le in Hlo. rewrite Hlo. cbn [andb].
  destruct (resp_status_code resp <? 500) eqn:H5.
  - eexists. split; [reflexivity | apply (zero_padded_not_empty 2)].
  - apply Z.ltb_ge in H5. apply Z.leb_le in H5. rewrite H5.
    apply Z.ltb_lt in Hhi. rewrite Hhi. cbn [andb].
    eexists. split; [reflexivity | apply (zero_padded_not_empty 2)].
Qed.

Lemma raise_for_status_passes (resp : Response) :
  raise_for_status resp = None ->
  ~ 400 <= resp_status_code resp < 600.
Proof.
  intros Hnone Hstatus.
  destruct (raise_for_status_raises resp Hstatus) as [e [He _]].
  rewrite He in Hnone. discriminate Hnone.
Qed.

(** X18. The Login tab changes the session state in one case only: the
    button is pressed with an email and a password that are not empty,
    the POST to [/auth/login] is answered outside the error statuses
    with a JSON object, and the object holds under [access_token] a
    value that counts as true; that value becomes the token and the
    email entered becomes the user.  It sends at most that one request
    and never a request without both fields. *)
Theorem login_tab_logs_in_only_with_token (w : Widgets) (b : Browser) :
  let req :=
    {| method := POST; url := BACKEND_URL ++ "/auth/login";
       json_body := Some (JObject [("email", JStr (login_email w));
                                   ("password", JStr (login_password w))]);
       headers := auth_headers_in str_json (session_state b) |} in
  let b' := snd (login_tab requests_request str_json w b) in
  (session_state b' = session_state b /\
   (requests_sent b' = requests_sent b \/
    login_button w = true /\ login_email w <> "" /\ login_password w <> "" /\
    requests_sent b' = (requests_sent b ++ [req])%list)) \/
  (login_button w = true /\ login_email w <> "" /\ login_password w <> "" /\
   requests_sent b' = (requests_sent b ++ [req])%list /\
   exists resp members token,
     requests_request (length (requests_sent b)) req = Received resp /\
     ~ 400 <= resp_status_code resp < 600 /\
     resp_json resp = inl (JObject members) /\
     object_get "access_token" members = Some token /\
     truthy token = true /\
     session_state b' =
       <["is_authenticated" := JBool true]>
         (<["user_email" := JStr (login_email w)]>
            (<["access_token" := token]> (session_state b)))).
Proof.
  intros req b'. unfold b', login_tab.
  destruct (login_button w); [|left; split; [reflexivity | left; reflexivity]].
  destruct (String.eqb (login_email w) "" || String.eqb (login_password w) "")%bool
    eqn:Hempty; [left; split; [reflexivity | left; reflexivity]|].
  apply orb_false_iff in Hempty. destruct Hempty as [He Hp].
  apply String.eqb_neq in He. apply String.eqb_neq in Hp.
  rewrite (ui_bind_returned _ _ _ _ _ (api_post_run _ _ b)).
  fold req.
  assert (Hsent : forall reqs : list http_request,
            reqs = (requests_sent b ++ [req])%list ->
            reqs = requests_sent b \/
            true = true /\ login_email w <> "" /\ login_password w <> "" /\
            reqs = (requests_sent b ++ [req])%list).
  { intros reqs ->. right. auto. }
  destruct (requests_request (length (requests_sent b)) req)
    as [resp|e] eqn:Hreply; simpl.
  - destruct (raise_for_status resp) as [e|] eqn:Hstatus; simpl.
    { destruct (negb (String.eqb e "")); (left; split; [reflexivity | apply Hsent; reflexivity]). }
    destruct (resp_json resp) as [data|e] eqn:Hjson; simpl.
    + destruct data as [| | | | | |members];
        try ((left; split; [reflexivity | apply Hsent; reflexivity])).
      unfold ui_bind, ui_lift, dict_get.
      destruct (object_get "access_token" members) as [token|] eqn:Hget;
        [|(left; split; [reflexivity | apply Hsent; reflexivity])].
      destruct (truthy token) eqn:Htoken; simpl;
        [|(left; split; [reflexivity | apply Hsent; reflexivity])].
      right. split; [reflexivity|]. split; [exact He|]. split; [exact Hp|].
      split; [reflexivity|].
      exists resp, members, token.
      split; [reflexivity|].
      split; [apply raise_for_status_passes, Hstatus|].
      split; [exact Hjson|]. split; [exact Hget|]. split; [exact Htoken|].
      reflexivity.
    + destruct (negb (String.eqb e "")); simpl.
      * (left; split; [reflexivity | apply Hsent; reflexivity]).
      * (left; split; [reflexivity | apply Hsent; reflexivity]).
  - destruct (negb (String.eqb e "")); simpl; (left; split; [reflexivity | apply Hsent; reflexivity]).
Qed.

(** X19. The Register tab never logs anybody in and never raises: it
    leaves the session state as it was, and it sends its one request
    only when the three fields are filled and the two passwords are the
    same; the request carries the email and the password. *)
Theorem register_tab_sends_matching_passwords (w : Widgets) (b : Browser) :
  let req :=
    {| method := POST; url := BACKEND_URL ++ "/auth/register";
       json_body := Some (JObject [("email", JStr (reg_email w));
                                   ("password", JStr (reg_password w))]);
       headers := auth_headers_in str_json (session_state b) |} in
  let r := register_tab requests_request str_json w b in
  fst r = Returned tt /\
  session_state (snd r) = session_state b /\
  (requests_sent (snd r) = requests_sent b \/
   register_button w = true /\ reg_email w <> "" /\ reg_password w <> "" /\
   reg_password2 w = reg_password w /\
   requests_sent (snd r) = (requests_sent b ++ [req])%list).
Proof.
  intros req r. unfold r, register_tab.
  destruct (register_button w); [|auto].
  destruct (String.eqb (reg_email w) "" || String.eqb (reg_password w) "" ||
            String.eqb (reg_password2 w) "")%bool eqn:Hempty; [simpl; auto|].
  apply orb_false_iff in Hempty. destruct Hempty as [Hempty _].
  apply orb_false_iff in Hempty. destruct Hempty as [He Hp].
  apply String.eqb_neq in He. apply String.eqb_neq in Hp.
  destruct (String.eqb (reg_password w) (reg_password2 w)) eqn:Hsame;
    simpl; [|auto].
  apply String.eqb_eq in Hsame.
  rewrite (ui_bind_returned _ _ _ _ _ (api_post_run _ _ b)).
  fold req.
  destruct (truthy_err _); simpl;
    (split; [reflexivity|]; split; [reflexivity|]; right; auto).
Qed.

(** X20. A reply with an error status (400 to 599) to the request of
    [load_transactions_into_state] is always noticed: the transactions
    held are kept and an error is shown whose text is not empty. *)
Theorem error_status_keeps_transactions (b : Browser) (resp : Response)
  (Hreply :
     requests_request (length (requests_sent b))
       {| method := GET; url := BACKEND_URL ++ "/transactions";
          json_body := None;
          headers := auth_headers_in str_json (session_state b) |} =
     Received resp)
  (Hstatus : 400 <= resp_status_code resp < 600) :
  let r := load_transactions_into_state requests_request str_json b in
  fst r = Returned tt /\
  session_state (snd r) = session_state b /\
  exists e,
    e <> "" /\
    alerts (snd r) =
      (alerts b ++
       [st_error ("Failed to load transactions from backend: " ++ e)])%list.
Proof.
  intros r. unfold r, load_transactions_into_state.
  rewrite (ui_bind_returned _ _ _ _ _ (api_get_run _ b)).
  rewrite Hreply. unfold json_or_error.
  destruct (raise_for_status_raises resp Hstatus) as [e [-> He]].
  simpl. apply String.eqb_neq in He. rewrite He. simpl.
  split; [reflexivity|]. split; [reflexivity|].
  exists e. split; [apply String.eqb_neq, He | reflexivity].
Qed.


Lemma ids_of_items_listed (items : list json) (ids : list json) :
  ids_of_items items = Returned ids ->
  length ids = length items /\
  forall id, In id ids ->
    exists members,
      In (JObject members) items /\ object_get "id" members = Some id.
Proof.
  revert ids. induction items as [|tx items IH]; intros ids Hids; simpl in Hids.
  - injection Hids as <-. split; [reflexivity|]. intros id [].
  - destruct (subscript_id tx) as [v|e] eqn:Htx; [|discriminate].
    destruct (ids_of_items items) as [vs|e]; [|discriminate].
    injection Hids as <-.
    destruct (IH vs eq_refl) as [Hlen Hall].
    split; [simpl; rewrite Hlen; reflexivity|].
    intros id [<-|Hin].
    + destruct tx as [| | | | | |members]; try discriminate.
      simpl in Htx.
      destruct (object_get "id" members) as [v'|] eqn:Hget; [|discriminate].
      injection Htx as <-. exists members. split; [left; reflexivity | exact Hget].
    + destruct (Hall id Hin) as [members [Hm Hget]].
      exists members. split; [right; exact Hm | exact Hget].
Qed.

Lemma selectbox_listed (options : list json) (picked : nat) :
  options <> [] -> In (selectbox options picked) options.
Proof.
  intros Hne. unfold selectbox.
  destruct (options !! picked) as [v|] eqn:Hv.
  - apply list_elem_of_In. eapply list_elem_of_lookup_2. exact Hv.
  - destruct options; [contradiction|]. left. reflexivity.
Qed.

(** X21. On the page "Add Transaction", with a list of rows held and the
    delete button pressed (the form and the refresh button left alone),
    the page sends nothing, or it sends first a DELETE for the [id] of
    one of the rows held. *)
Theorem delete_is_for_a_listed_id (w : Widgets) (b : Browser)
  (items : list json)
  (Hform : submitted w = false)
  (Hrefresh : refresh_button w = false)
  (Hdelete : delete_button w = true)
  (Hheld : session_state b !! "transactions" = Some (JArray items)) :
  let r := add_transaction_page requests_request str_json DataFrame w b in
  requests_sent (snd r) = requests_sent b \/
  exists members id rest,
    In (JObject members) items /\
    object_get "id" members = Some id /\
    requests_sent (snd r) =
      (requests_sent b ++
       {| method := DELETE;
          url := BACKEND_URL ++ "/transactions/" ++ str str_json id;
          json_body := None;
          headers := auth_headers_in str_json (session_state b) |} :: rest)%list.
Proof.
  intros r. unfold r, add_transaction_page.
  rewrite Hform, Hrefresh, Hdelete.
  rewrite !(ui_bind_returned (ui_ret tt) _ b b tt eq_refl).
  assert (Hread : read "transactions" b = (Returned (JArray items), b)).
  { unfold read, state_get. rewrite Hheld. reflexivity. }
  rewrite (ui_bind_returned _ _ _ _ _ Hread).
  destruct items as [|tx items]; [left; reflexivity|].
  change (truthy (JArray (tx :: items))) with true. cbv iota.
  destruct (DataFrame (JArray (tx :: items))) as [[]|e].
  2: { rewrite (ui_bind_raised (ui_lift (Raised e)) _ b b e eq_refl).
       left. reflexivity. }
  rewrite (ui_bind_returned (ui_lift (Returned tt)) _ b b tt eq_refl).
  unfold ids_of.
  destruct (ids_of_items (tx :: items)) as [ids|e] eqn:Hids.
  2: { rewrite (ui_bind_raised (ui_lift (Raised e)) _ b b e eq_refl).
       left. reflexivity. }
  rewrite (ui_bind_returned (ui_lift (Returned ids)) _ b b ids eq_refl).
  destruct (ids_of_items_listed _ _ Hids) as [Hlen Hall].
  assert (Hne : ids <> []).
  { intros ->. discriminate Hlen. }
  destruct (Hall _ (selectbox_listed ids (selected_row w) Hne))
    as [members [Hm Hget]].
  rewrite (ui_bind_returned _ _ _ _ _ (api_delete_run _ b)).
  right. exists members, (selectbox ids (selected_row w)).
  destruct (done_or_error _) as [ok err]. simpl fst. simpl snd.
  destruct (truthy_err err || negb ok)%bool.
  - exists []. split; [exact Hm|]. split; [exact Hget | reflexivity].
  - unfold ui_bind at 1. unfold show at 1.
    unfold load_transactions_into_state.
    rewrite (ui_bind_returned _ _ _ _ _ (api_get_run _ _)).
    eexists. split; [exact Hm|]. split; [exact Hget|].
    destruct (truthy_err _); simpl; rewrite <- app_assoc; reflexivity.
Qed.

End FrontendProperties.

(** ** The further properties on the sample data *)

(** Listing the sample store leaves it as it was. *)
Lemma reading_routes_keep_store_witness :
  database
    (snd (app Sample.pbkdf2 (fun _ _ _ => "c2ln") Sample.Ticker_info
            GetTransactions Sample.env (Sample.world Sample.store))) =
  Sample.store.
Proof.
  apply (reading_routes_keep_store Sample.pbkdf2 (fun _ _ _ => "c2ln")
           Sample.Ticker_info GetTransactions Sample.env
           (Sample.world Sample.store)).
  reflexivity.
Defined.

(** Deleting the missing transaction 7 raises, and the store is kept. *)
Lemma raising_request_keeps_store_witness :
  database
    (snd (app Sample.pbkdf2 (fun _ _ _ => "c2ln") Sample.Ticker_info
            (DeleteTransactions 7) Sample.env (Sample.world Sample.store))) =
  Sample.store.
Proof.
  apply (raising_request_keeps_store Sample.pbkdf2 (fun _ _ _ => "c2ln")
           Sample.Ticker_info (DeleteTransactions 7) Sample.env
           (Sample.world Sample.store)
           (HTTPException 404 "Transaction not found")).
  reflexivity.
Defined.

(** Against Alice's hash "letmein" is refused, and a password of 4097
    characters raises. *)
Lemma verify_password_compares_digests_witness :
  verify_password Sample.pbkdf2 "letmein"
    (user_hashed_password Sample.alice) = Returned false /\
  verify_password Sample.pbkdf2 Sample.long_password
    (user_hashed_password Sample.alice) = Raised PasswordSizeError.
Proof.
  split.
  - apply (proj1 (verify_password_compares_digests Sample.pbkdf2
                    Sample_pbkdf2_sized Sample.salt_a "hunter2" "letmein"
                    (user_hashed_password Sample.alice) eq_refl eq_refl)).
    + apply Nat.leb_le. reflexivity.
    + discriminate.
  - apply (proj2 (verify_password_compares_digests Sample.pbkdf2
                    Sample_pbkdf2_sized Sample.salt_a "hunter2"
                    Sample.long_password
                    (user_hashed_password Sample.alice) eq_refl eq_refl)).
    exact Sample_long_password_size.
Defined.

(** A token of one hour for Alice; a lifetime of 3000000 days carries
    the expiry past the year 9999. *)
Lemma create_access_token_lifetime_witness :
  (exists tok,
     create_access_token (fun _ _ _ => "c2ln")
       {[ "sub" := JStr "alice@example.com" ]}
       (Some 3600000000) 1700000000000000 = Returned tok /\
     jwt_claims tok !! "exp" = Some (JInt 1700003600)) /\
  create_access_token (fun _ _ _ => "c2ln")
    {[ "sub" := JStr "alice@example.com" ]}
    (Some (3000000 * 86400 * 1000000)) 1700000000000000 =
    Raised (PyException "OverflowError" "date value out of range").
Proof.
  split.
  - destruct (proj1 (proj2 (create_access_token_lifetime (fun _ _ _ => "c2ln")
                              {[ "sub" := JStr "alice@example.com" ]}
                              1700000000000000 3600000000)))
      as [tok [Hrun [Hexp _]]].
    + discriminate.
    + unfold datetime_min, datetime_max. lia.
    + exists tok. split; [exact Hrun | exact Hexp].
  - apply (proj2 (proj2 (create_access_token_lifetime (fun _ _ _ => "c2ln")
                           {[ "sub" := JStr "alice@example.com" ]}
                           1700000000000000 (3000000 * 86400 * 1000000)))).
    + discriminate.
    + unfold datetime_min, datetime_max. lia.
Defined.

(** Bob registers in the sample store and logs in; registered as
    "Bob@EXAMPLE.com", the address the login looks up is
    "Bob@example.com", which no stored user has. *)
Lemma register_then_login_witness :
  (exists tok,
     fst (POST_auth_login_body Sample.pbkdf2 (fun _ _ _ => "c2ln")
            Sample.EmailStr "bob@example.com" "hunter2" Sample.env
            (snd (POST_auth_register Sample.pbkdf2
                    {| uc_email := "bob@example.com";
                       uc_password := "hunter2" |}
                    Sample.env_b (Sample.world Sample.store)))) =
       Returned {| access_token := tok; token_type := "bearer" |} /\
     jwt_claims tok !! "sub" = Some (JStr "bob@example.com")) /\
  fst (POST_auth_login_body Sample.pbkdf2 (fun _ _ _ => "c2ln")
         Sample.EmailStr "Bob@EXAMPLE.com" "hunter2" Sample.env
         (snd (POST_auth_register Sample.pbkdf2
                 {| uc_email := "Bob@EXAMPLE.com";
                    uc_password := "hunter2" |}
                 Sample.env_b (Sample.world Sample.store)))) =
    Raised (HTTPException 400 "Incorrect email or password").
Proof.
  split.
  - destruct (register_then_login Sample.pbkdf2 (fun _ _ _ => "c2ln")
                Sample.EmailStr Sample_pbkdf2_sized
                {| uc_email := "bob@example.com"; uc_password := "hunter2" |}
                Sample.env_b Sample.env (Sample.world Sample.store))
      as [Hsame _].
    + intros [H|[]]. discriminate H.
    + apply Nat.leb_le. reflexivity.
    + reflexivity.
    + destruct (Hsame eq_refl) as [tok [Hrun [_ [Hsub _]]]].
      exists tok. split; [exact Hrun | exact Hsub].
  - destruct (register_then_login Sample.pbkdf2 (fun _ _ _ => "c2ln")
                Sample.EmailStr Sample_pbkdf2_sized
                {| uc_email := "Bob@EXAMPLE.com"; uc_password := "hunter2" |}
                Sample.env_b Sample.env (Sample.world Sample.store))
      as [_ [Hnormalized _]].
    + intros [H|[]]. discriminate H.
    + apply Nat.leb_le. reflexivity.
    + reflexivity.
    + apply (Hnormalized "Bob@example.com"); [reflexivity|].
      intros H. vm_compute in H. destruct H as [H|[H|[]]]; discriminate H.
Defined.

(** After Bob has registered on a new store, his login with "hunter2"
    is a token or the 400, and his login with a password of 4097
    characters raises [PasswordSizeError]. *)
Lemma login_on_served_store_witness :
  ((exists tok,
      fst (POST_auth_login Sample.pbkdf2 (fun _ _ _ => "c2ln")
             {| lr_email := "bob@example.com"; lr_password := "hunter2" |}
             Sample.env
             (serve Sample.pbkdf2 (fun _ _ _ => "c2ln") Sample.Ticker_info
                [(PostAuthRegister
                    {| uc_email := "bob@example.com";
                       uc_password := "hunter2" |},
                  Sample.env_b)]
                initial_world)) =
        Returned {| access_token := tok; token_type := "bearer" |}) \/
   fst (POST_auth_login Sample.pbkdf2 (fun _ _ _ => "c2ln")
          {| lr_email := "bob@example.com"; lr_password := "hunter2" |}
          Sample.env
          (serve Sample.pbkdf2 (fun _ _ _ => "c2ln") Sample.Ticker_info
             [(PostAuthRegister
                 {| uc_email := "bob@example.com";
                    uc_password := "hunter2" |},
               Sample.env_b)]
             initial_world)) =
     Raised (HTTPException 400 "Incorrect email or password")) /\
  fst (POST_auth_login Sample.pbkdf2 (fun _ _ _ => "c2ln")
         {| lr_email := "bob@example.com";
            lr_password := Sample.long_password |}
         Sample.env
         (serve Sample.pbkdf2 (fun _ _ _ => "c2ln") Sample.Ticker_info
            [(PostAuthRegister
                {| uc_email := "bob@example.com";
                   uc_password := "hunter2" |},
              Sample.env_b)]
            initial_world)) = Raised PasswordSizeError.
Proof.
  split.
  - apply (proj1 (login_on_served_store Sample.pbkdf2 (fun _ _ _ => "c2ln")
                    Sample.Ticker_info Sample_pbkdf2_sized
                    [(PostAuthRegister
                        {| uc_email := "bob@example.com";
                           uc_password := "hunter2" |},
                      Sample.env_b)]
                    {| lr_email := "bob@example.com";
                       lr_password := "hunter2" |}
                    Sample.env ltac:(repeat constructor))).
    apply Nat.leb_le. reflexivity.
  - apply (proj2 (login_on_served_store Sample.pbkdf2 (fun _ _ _ => "c2ln")
                    Sample.Ticker_info Sample_pbkdf2_sized
                    [(PostAuthRegister
                        {| uc_email := "bob@example.com";
                           uc_password := "hunter2" |},
                      Sample.env_b)]
                    {| lr_email := "bob@example.com";
                       lr_password := Sample.long_password |}
                    Sample.env ltac:(repeat constructor))).
    + exact Sample_long_password_size.
    + vm_compute. left. reflexivity.
Defined.

(** Alice's hash accepts "hunter2": its checksum decodes to the digest
    of "hunter2" under the salt and the rounds read from it. *)
Lemma verify_password_accepts_only_digest_witness :
  exists rounds salt chk r salt_bytes chk_bytes,
    user_hashed_password Sample.alice =
      pbkdf2_sha256_ident ++ rounds ++ "$" ++ salt ++ "$" ++ chk /\
    parse_rounds rounds = Returned r /\
    ab64_decode salt = Returned salt_bytes /\
    ab64_decode chk = Returned chk_bytes /\
    Sample.pbkdf2 "hunter2" salt_bytes r = chk_bytes.
Proof.
  destruct (verify_password_accepts_only_digest Sample.pbkdf2 "hunter2"
              (user_hashed_password Sample.alice))
    as [_ (rounds & salt & chk & r & salt_bytes & chk_bytes &
           Htext & Hrounds & _ & Hsalt & _ & Hchk & _ & Hdigest)].
  - vm_compute. reflexivity.
  - exists rounds, salt, chk, r, salt_bytes, chk_bytes. tauto.
Defined.

(** Alice with a wrong password and an unknown email are refused alike. *)
Lemma login_failures_indistinguishable_witness :
  POST_auth_login Sample.pbkdf2 (fun _ _ _ => "c2ln")
    {| lr_email := "alice@example.com"; lr_password := "letmein" |}
    Sample.env (Sample.world Sample.store) =
  POST_auth_login Sample.pbkdf2 (fun _ _ _ => "c2ln")
    {| lr_email := "mallory@example.com"; lr_password := "hunter2" |}
    Sample.env (Sample.world Sample.store).
Proof.
  apply (login_failures_indistinguishable Sample.pbkdf2 (fun _ _ _ => "c2ln")
           {| lr_email := "alice@example.com"; lr_password := "letmein" |}
           {| lr_email := "mallory@example.com"; lr_password := "hunter2" |}
           Sample.env Sample.env (Sample.world Sample.store)).
  - left. reflexivity.
  - intros u [<-|[]] _. vm_compute. reflexivity.
  - intros [H|[]]. discriminate H.
Defined.

(** No sample transaction has identifier 7. *)
Lemma delete_transaction_not_found_witness :
  fst (DELETE_transactions 7 Sample.env (Sample.world Sample.store)) =
    Raised (HTTPException 404 "Transaction not found") /\
  fst (DELETE_transactions 7 Sample.env (Sample.world Sample.store)) <>
    Returned tt /\
  database (snd (DELETE_transactions 7 Sample.env (Sample.world Sample.store))) =
    Sample.store.
Proof.
  apply (delete_transaction_not_found 7 Sample.env (Sample.world Sample.store)).
  - reflexivity.
  - simpl. lia.
Defined.

(** The rent is deleted from the sample store, once. *)
Lemma delete_then_delete_again_witness :
  fst (DELETE_transactions 1 Sample.env (Sample.world Sample.store)) =
    Returned tt /\
  fst (DELETE_transactions 1 Sample.env
         (snd (DELETE_transactions 1 Sample.env (Sample.world Sample.store)))) =
    Raised (HTTPException 404 "Transaction not found").
Proof.
  destruct (delete_then_delete_again 1 Sample.env Sample.env
              (Sample.world Sample.store))
    as [Hfirst [_ [_ [_ [Hsecond _]]]]].
  - reflexivity.
  - apply (bool_decide_unpack _). reflexivity.
  - simpl. lia.
  - split; [exact Hfirst | exact Hsecond].
Defined.

(** In the sample store the key 3 is given, and given again. *)
Lemma create_key_is_next_and_reused_witness :
  exists t1 w1 w2 t2 w3,
    POST_transactions (Sample.payload "Food" 2025 1 10) Sample.env
      (Sample.world Sample.store) = (Returned t1, w1) /\
    DELETE_transactions (tx_id t1) Sample.env w1 = (Returned tt, w2) /\
    POST_transactions (Sample.payload "Fuel" 2025 2 1) Sample.env w2 =
      (Returned t2, w3) /\
    tx_id t2 = tx_id t1.
Proof.
  destruct (create_key_is_next_and_reused
              (Sample.payload "Food" 2025 1 10)
              (Sample.payload "Fuel" 2025 2 1)
              Sample.env Sample.env Sample.env (Sample.world Sample.store)
              eq_refl eq_refl eq_refl)
    as [t1 [w1 [w2 [t2 [w3 [H1 [_ [_ [H2 [H3 H4]]]]]]]]]].
  exists t1, w1, w2, t2, w3. tauto.
Defined.

(** The sample store counts two, and three after a payload. *)
Lemma debug_count_is_listing_length_witness :
  exists l n,
    fst (GET_transactions Sample.env (Sample.world Sample.store)) =
      Returned l /\
    fst (GET_transactions_debug Sample.env (Sample.world Sample.store)) =
      Returned {[ "count" := n ]} /\
    n = Z.of_nat (length l).
Proof.
  destruct (debug_count_is_listing_length
              (Sample.payload "Food" 2025 1 10)
              Sample.env Sample.env Sample.env Sample.env
              (Sample.world Sample.store) eq_refl)
    as [l [n [H1 [H2 [H3 _]]]]].
  exists l, n. tauto.
Defined.

(** A NaN amount and the key 2^63 are refused. *)
Lemma refused_values_keep_store_witness :
  fst (POST_transactions
         {| tc_type := "Expense"; tc_category := "Food";
            tc_amount := nan;
            tc_date := datetime_of_date (mk_date 2025 1 10) |}
         Sample.env (Sample.world Sample.store)) =
    Raised (PyException "IntegrityError"
              "NOT NULL constraint failed: transactions.amount") /\
  fst (DELETE_transactions (2 ^ 63) Sample.env (Sample.world Sample.store)) =
    Raised OverflowError.
Proof.
  destruct (refused_values_keep_store
              {| tc_type := "Expense"; tc_category := "Food";
                 tc_amount := nan;
                 tc_date := datetime_of_date (mk_date 2025 1 10) |}
              (2 ^ 63) Sample.env (Sample.world Sample.store))
    as [Hnan Hbig].
  destruct (Hnan eq_refl) as [H1 _]. destruct (Hbig eq_refl) as [H2 _].
  rewrite H1, H2. split; reflexivity.
Defined.

(** ** The properties of the page on sample sessions *)

(** A new visitor who opens the dashboard sends nothing. *)
Lemma logged_out_run_sends_nothing_witness :
  requests_sent
    (snd (script SamplePage.failing SamplePage.str_json SamplePage.DataFrame
            SamplePage.dashboard_charts SamplePage.stock_tracker
            (SamplePage.looking_at "Dashboard") new_browser)) = [].
Proof.
  destruct (logged_out_run_sends_nothing SamplePage.failing
              SamplePage.str_json SamplePage.DataFrame
              SamplePage.dashboard_charts SamplePage.stock_tracker
              (SamplePage.looking_at "Dashboard") new_browser)
    as [_ [Hsent _]].
  - discriminate.
  - left. reflexivity.
  - exact Hsent.
Defined.

(** Alice is logged in by the token the backend grants. *)
Lemma login_tab_logs_in_only_with_token_witness :
  session_state
    (snd (login_tab SamplePage.granting SamplePage.str_json
            SamplePage.alice_logs_in new_browser)) !! "access_token" =
  Some (JStr "t0k3n").
Proof.
  destruct (login_tab_logs_in_only_with_token SamplePage.granting
              SamplePage.str_json SamplePage.alice_logs_in new_browser)
    as [[Hsame _]|Hlogin].
  - apply (f_equal (fun s => s !! "access_token")) in Hsame.
    vm_compute in Hsame. discriminate Hsame.
  - destruct Hlogin as (_ & _ & _ & _ & resp & members & token & Hreply &
                        _ & Hjson & Hget & _ & Hstate).
    injection Hreply as <-. injection Hjson as <-.
    vm_compute in Hget. injection Hget as <-.
    rewrite Hstate. reflexivity.
Defined.

(** Bob's mistyped confirmation sends nothing. *)
Lemma register_tab_sends_matching_passwords_witness :
  requests_sent
    (snd (register_tab SamplePage.failing SamplePage.str_json
            SamplePage.bob_registers new_browser)) = [].
Proof.
  destruct (register_tab_sends_matching_passwords SamplePage.failing
              SamplePage.str_json SamplePage.bob_registers new_browser)
    as [_ [_ [Hnone|[_ [_ [_ [Hsame _]]]]]]].
  - exact Hnone.
  - discriminate Hsame.
Defined.

(** The failing backend leaves Alice's row where it is. *)
Lemma error_status_keeps_transactions_witness :
  session_state
    (snd (load_transactions_into_state SamplePage.failing SamplePage.str_json
            SamplePage.alice_session)) =
  session_state SamplePage.alice_session.
Proof.
  destruct (error_status_keeps_transactions SamplePage.failing
              SamplePage.str_json SamplePage.alice_session
              {| resp_status_code := 500;
                 resp_reason := "Internal Server Error";
                 resp_url := BACKEND_URL ++ "/transactions";
                 resp_json := inr "Expecting value: line 1 column 1 (char 0)" |})
    as [_ [Hkept _]].
  - reflexivity.
  - simpl. lia.
  - exact Hkept.
Defined.

(** Alice's deletion is for her row 3. *)
Lemma delete_is_for_a_listed_id_witness :
  exists rest,
    requests_sent
      (snd (add_transaction_page SamplePage.failing SamplePage.str_json
              SamplePage.DataFrame SamplePage.alice_deletes
              SamplePage.alice_session)) =
    {| method := DELETE;
       url := "http://127.0.0.1:8000/transactions/3";
       json_body := None;
       headers := {[ "Authorization" := "Bearer t0k3n" ]} |} :: rest.
Proof.
  destruct (delete_is_for_a_listed_id SamplePage.failing SamplePage.str_json
              SamplePage.DataFrame SamplePage.alice_deletes
              SamplePage.alice_session
              [JObject [("id", JInt 3); ("type", JStr "Expense");
                        ("category", JStr "Rent");
                        ("amount", JFloat 900%float);
                        ("date", JStr "2025-01-01")]]
              eq_refl eq_refl eq_refl eq_refl)
    as [Hnone|[members [id [rest [Hin [Hget Hsent]]]]]].
  - vm_compute in Hnone. discriminate Hnone.
  - destruct Hin as [Hrow|[]]. injection Hrow as <-.
    vm_compute in Hget. injection Hget as <-.
    exists rest. exact Hsent.
Defined.
